(** * Pose classification of monkey_pose_mimic ([pose_detector.py])

    A shallow embedding of [PoseDetector.detect_pose], [_determine_pose] and
    the three rules [_is_raising_hand], [_is_thinking] and [_is_shocking],
    with the part of [config.py] they read.

    Python [float] is IEEE 754 binary64, which is the kernel's primitive
    [float]; arithmetic and comparisons are the primitive operations, so the
    model evaluates on concrete frames.  The one operation of the rules
    that IEEE 754 does not fix, [d ** 2], is the [pow] of the C library: it
    is a parameter of the development, [pow2], and the runs on concrete
    frames at the end take the correctly rounded one.  Exceptions and the
    mutation of [self.debug_info] are explicit: a computation maps the
    detector object to an outcome (a value or a raised exception) and the
    detector object after it, assignments made before a [raise] staying
    visible.
    The window of [main.py] that calls the detector is embedded the same
    way. *)

From Stdlib Require Import List String Bool ZArith Lia Floats.
From Stdlib Require Import Permutation.
Import ListNotations.

Set Warnings "-inexact-float".
Local Open Scope string_scope.
Local Open Scope list_scope.
Local Open Scope float_scope.

(** ** Python values, exceptions and mutable object state *)

Module Py.

Inductive exn : Type :=
| IndexError
| AttributeError
| ZeroDivisionError
| Cv2Error            (* cv2.error *)
| RuntimeError.       (* any other subclass of Exception *)

Inductive outcome (A : Type) : Type :=
| Return (a : A)
| Raise (e : exn).
Arguments Return {A} a.
Arguments Raise {A} e.

(** [seq[i]] for a constant index [i >= 0]. *)
Definition getitem {A : Type} (l : list A) (i : nat) : outcome A :=
  match nth_error l i with
  | Some a => Return a
  | None => Raise IndexError
  end.

(** [a / b] on floats. *)
Definition truediv (a b : float) : outcome float :=
  if b =? 0 then Raise ZeroDivisionError else Return (a / b).

(** Truthiness of a list or of [None] in its place. *)
Definition truthy {A : Type} (l : list A) : bool :=
  match l with [] => false | _ :: _ => true end.

Section StateExc.
Variable S : Type.

Definition M (A : Type) : Type := S -> outcome A * S.

Definition ret {A} (a : A) : M A := fun s => (Return a, s).

Definition raise {A} (e : exn) : M A := fun s => (Raise e, s).

Definition bind {A B} (m : M A) (k : A -> M B) : M B :=
  fun s =>
    match m s with
    | (Return a, s') => k a s'
    | (Raise e, s') => (Raise e, s')
    end.

Definition lift {A} (o : outcome A) : M A := fun s => (o, s).

Definition modify (f : S -> S) : M unit := fun s => (Return tt, f s).

(** [try: body  except (IndexError, AttributeError): handler]. *)
Definition try_except_index_attr {A} (body handler : M A) : M A :=
  fun s =>
    match body s with
    | (Raise IndexError, s') | (Raise AttributeError, s') => handler s'
    | r => r
    end.
End StateExc.

Arguments ret {S A} a _.
Arguments raise {S A} e _.
Arguments bind {S A B} m k _.
Arguments lift {S A} o _.
Arguments modify {S} f _.
Arguments try_except_index_attr {S A} body handler _.

End Py.

Import Py.

Declare Scope py_scope.
Delimit Scope py_scope with py.
Notation "x <- m ;; k" := (bind m (fun x => k))
  (at level 100, m at next level, right associativity) : py_scope.
Notation "m ;; k" := (bind m (fun _ => k))
  (at level 100, right associativity) : py_scope.
Local Open Scope py_scope.

(** ** config.py *)

Module Config.

(** [PoseDetectionConfig]: the pose thresholds (the MediaPipe model settings
    of the same class are read by the constructor only). *)
Record PoseDetectionConfig : Type := {
  hand_raise_threshold : float;
  mouth_open_threshold : float;
  hand_to_face_threshold : float
}.

Record AppConfig : Type := { pose : PoseDetectionConfig }.

(** [CONFIG: Final[AppConfig] = AppConfig()] *)
Definition CONFIG : AppConfig :=
  {| pose := {| hand_raise_threshold := 0.05;
                mouth_open_threshold := 0.15;
                hand_to_face_threshold := 0.08 |} |}.

End Config.

(** ** MediaPipe results as the detector reads them *)

Module Mp.

Record Landmark : Type := { x : float; y : float; z : float }.

(** [NormalizedLandmarkList]: a protobuf message with a repeated field. *)
Record NormalizedLandmarkList : Type := { landmark : list Landmark }.

(** [pose.process(...)]: [pose_landmarks] is a message or [None]. *)
Record PoseSolution : Type :=
  { pose_landmarks : option NormalizedLandmarkList }.

(** [hands.process(...)] and [face_mesh.process(...)]: a list of messages or
    [None].  [None] and [[]] are both falsy and the fields are only read
    behind that test, so [None] is the empty list here. *)
Record HandsSolution : Type :=
  { multi_hand_landmarks : list NormalizedLandmarkList }.

Record FaceMeshSolution : Type :=
  { multi_face_landmarks : list NormalizedLandmarkList }.

(** [mp.solutions.pose.PoseLandmark], [mp.solutions.hands.HandLandmark] *)
Definition NOSE : nat := 0.
Definition WRIST : nat := 0.
Definition THUMB_TIP : nat := 4.
Definition INDEX_FINGER_TIP : nat := 8.
Definition MIDDLE_FINGER_TIP : nat := 12.

End Mp.

(** ** pose_detector.py *)

Record DebugInfo : Type := {
  mouth_ratio : float;
  hand_height : float;
  hands_detected : nat;
  face_detected : bool
}.

(** [DebugInfo()] with the dataclass defaults. *)
Definition DebugInfo_default : DebugInfo :=
  {| mouth_ratio := 0.0; hand_height := 0.0;
     hands_detected := 0; face_detected := false |}.

(** The attributes of a [PoseDetector] that [detect_pose] assigns. *)
Record PoseDetector : Type := {
  debug_info : DebugInfo;
  current_language : string
}.

(** What the frame makes the external calls of [detect_pose] do:
    [cv2.cvtColor] and the three MediaPipe [process] calls. *)
Record Frame : Type := {
  cvtColor : outcome unit;
  pose_process : outcome (option Mp.PoseSolution);
  hands_process : outcome (option Mp.HandsSolution);
  face_mesh_process : outcome (option Mp.FaceMeshSolution)
}.

Import Config Mp.

(** Computations on [self]. *)
Definition Self := M PoseDetector.

(** [self.debug_info = d] *)
Definition with_debug_info (d : DebugInfo) (self : PoseDetector)
  : PoseDetector :=
  {| debug_info := d; current_language := current_language self |}.

(** [self.current_language = l] *)
Definition with_current_language (l : string) (self : PoseDetector)
  : PoseDetector :=
  {| debug_info := debug_info self; current_language := l |}.

(** [self.debug_info.mouth_ratio = v] *)
Definition with_mouth_ratio (v : float) (self : PoseDetector)
  : PoseDetector :=
  with_debug_info {| mouth_ratio := v;
                     hand_height := hand_height (debug_info self);
                     hands_detected := hands_detected (debug_info self);
                     face_detected := face_detected (debug_info self) |} self.

(** [self.debug_info.hand_height = v] *)
Definition with_hand_height (v : float) (self : PoseDetector)
  : PoseDetector :=
  with_debug_info {| mouth_ratio := mouth_ratio (debug_info self);
                     hand_height := v;
                     hands_detected := hands_detected (debug_info self);
                     face_detected := face_detected (debug_info self) |} self.

(** [self.debug_info.hands_detected = n] *)
Definition with_hands_detected (n : nat) (self : PoseDetector)
  : PoseDetector :=
  with_debug_info {| mouth_ratio := mouth_ratio (debug_info self);
                     hand_height := hand_height (debug_info self);
                     hands_detected := n;
                     face_detected := face_detected (debug_info self) |} self.

(** [self.debug_info.face_detected = b] *)
Definition with_face_detected (b : bool) (self : PoseDetector)
  : PoseDetector :=
  with_debug_info {| mouth_ratio := mouth_ratio (debug_info self);
                     hand_height := hand_height (debug_info self);
                     hands_detected := hands_detected (debug_info self);
                     face_detected := b |} self.

Definition set_debug_info (d : DebugInfo) : Self unit :=
  modify (with_debug_info d).
Definition set_current_language (l : string) : Self unit :=
  modify (with_current_language l).
Definition set_mouth_ratio (v : float) : Self unit :=
  modify (with_mouth_ratio v).
Definition set_hand_height (v : float) : Self unit :=
  modify (with_hand_height v).
Definition set_hands_detected (n : nat) : Self unit :=
  modify (with_hands_detected n).
Definition set_face_detected (b : bool) : Self unit :=
  modify (with_face_detected b).

(** ** config.py: texts and assets *)

(** A [dict] with string keys, in insertion order. *)
Definition dict (V : Type) : Type := list (string * V).

(** [d.get(k)] *)
Fixpoint dict_get {V : Type} (d : dict V) (k : string) : option V :=
  match d with
  | [] => None
  | (k', v) :: rest => if String.eqb k' k then Some v else dict_get rest k
  end.

(** [d.get(k, default)] *)
Definition dict_get_default {V : Type} (d : dict V) (k : string)
           (default : V) : V :=
  match dict_get d k with
  | Some v => v
  | None => default
  end.

(** [KeyError], one of the other subclasses of [Exception]. *)
Definition KeyError : exn := RuntimeError.

(** [d[k]] *)
Definition dict_getitem {V : Type} (d : dict V) (k : string) : outcome V :=
  match dict_get d k with
  | Some v => Return v
  | None => Raise KeyError
  end.

(** [d[k] = v]: a present key keeps its place, a new one goes last. *)
Fixpoint dict_setitem {V : Type} (d : dict V) (k : string) (v : V)
  : dict V :=
  match d with
  | [] => [(k, v)]
  | (k', v') :: rest =>
      if String.eqb k' k then (k', v) :: rest
      else (k', v') :: dict_setitem rest k v
  end.

(** [list(d.keys())] *)
Definition dict_keys {V : Type} (d : dict V) : list string := map fst d.

(** [ValueError], another subclass of [Exception]. *)
Definition ValueError : exn := RuntimeError.

(** [l.index(x)] *)
Fixpoint list_index (l : list string) (x : string) : outcome nat :=
  match l with
  | [] => Raise ValueError
  | y :: rest =>
      if String.eqb y x then Return 0%nat
      else match list_index rest x with
           | Return i => Return (S i)
           | Raise e => Raise e
           end
  end.

Definition POSE_NAMES_ID : dict string :=
  [("raising_hand", "👋 Mengangkat Tangan");
   ("shocking", "😲 Terkejut (Mulut Terbuka)");
   ("thinking", "🤔 Berpikir (Tangan di Wajah)");
   ("default", "🙂 Posisi Normal")].

Definition POSE_NAMES_EN : dict string :=
  [("raising_hand", "👋 Raising Hand");
   ("shocking", "😲 Shocking (Open Mouth)");
   ("thinking", "🤔 Thinking (Hand on Face)");
   ("default", "🙂 Default Pose")].

Definition POSE_NAMES_TR : dict string :=
  [("raising_hand", "👋 İşaret Parmağı Yukarıda");
   ("shocking", "😲 Ağız Açık (Şaşkınlık)");
   ("thinking", "🤔 El Yüzde (Düşünme)");
   ("default", "🙂 Normal Duruş")].

Definition UI_TEXT : dict (dict string) :=
  [("id",
    [("camera_title", "📷 Kamera Langsung");
     ("monkey_title", "🐵 Pose Monyet");
     ("language", "Bahasa:");
     ("show_landmarks", "Tampilkan Garis Deteksi");
     ("hide_landmarks", "Sembunyikan Garis Deteksi");
     ("settings", "⚙️ Pengaturan");
     ("hands", "Tangan");
     ("face", "Wajah");
     ("mouth", "Mulut");
     ("hand_height", "Tinggi Tangan");
     ("pose", "Pose");
     ("yes", "YA");
     ("no", "TIDAK")]);
   ("en",
    [("camera_title", "📷 Live Camera");
     ("monkey_title", "🐵 Monkey Pose");
     ("language", "Language:");
     ("show_landmarks", "Show Detection Lines");
     ("hide_landmarks", "Hide Detection Lines");
     ("settings", "⚙️ Settings");
     ("hands", "Hands");
     ("face", "Face");
     ("mouth", "Mouth");
     ("hand_height", "Hand Height");
     ("pose", "Pose");
     ("yes", "YES");
     ("no", "NO")]);
   ("tr",
    [("camera_title", "📷 Canlı Kamera");
     ("monkey_title", "🐵 Maymun Pozu");
     ("language", "Dil:");
     ("show_landmarks", "Algılama Çizgilerini Göster");
     ("hide_landmarks", "Algılama Çizgilerini Gizle");
     ("settings", "⚙️ Ayarlar");
     ("hands", "Eller");
     ("face", "Yüz");
     ("mouth", "Ağız");
     ("hand_height", "El Yüksekliği");
     ("pose", "Poz");
     ("yes", "EVET");
     ("no", "HAYIR")])].

Definition LANGUAGES : dict string :=
  [("id", "🇮🇩 Bahasa Indonesia");
   ("en", "🇬🇧 English");
   ("tr", "🇹🇷 Türkçe")].

(** The line feed of [\n]. *)
Definition nl : string := String (Ascii.ascii_of_nat 10) EmptyString.

(** The two colours of [UIConfig] that the handlers read. *)
Record UIConfig : Type := {
  border_color : string;
  warning_color : string
}.

(** [CONFIG.ui] *)
Definition CONFIG_ui : UIConfig :=
  {| border_color := "#E5E5E7"; warning_color := "#FF9500" |}.

(** [CONFIG.default_language] and [CONFIG.show_landmarks] *)
Definition CONFIG_default_language : string := "id".
Definition CONFIG_show_landmarks : bool := true.

(** [AssetConfig]: a path is the string [str(path)] gives, its parts joined
    by the separator [sep] of the platform. *)
Module Assets.

Record AssetConfig : Type := { base_dir : string }.

Definition joinpath (sep : string) (base name : string) : string :=
  (base ++ sep ++ name)%string.

Definition raising_hand (sep : string) (a : AssetConfig) : string :=
  joinpath sep (base_dir a) "raising_hand_pose.jpg".
Definition shocking (sep : string) (a : AssetConfig) : string :=
  joinpath sep (base_dir a) "shocking_pose.jpg".
Definition thinking (sep : string) (a : AssetConfig) : string :=
  joinpath sep (base_dir a) "thinking_pose.jpg".
Definition default (sep : string) (a : AssetConfig) : string :=
  joinpath sep (base_dir a) "default_pose.jpg".

(** [CONFIG.assets] *)
Definition CONFIG_assets : AssetConfig := {| base_dir := "assets" |}.

End Assets.

(** ** The Qt widgets as main.py uses them *)

Module Qt.

(** Where a pixmap comes from: an image file, or the frame that
    [detect_pose] returned for a camera frame. *)
Inductive pixmap : Type :=
| FromFile (path : string)
| FromFrame (frame : Frame) (show_landmarks : bool).

(** What a label shows: [setText] and [setPixmap] each replace it. *)
Inductive label_content : Type :=
| Empty
| Text (s : string)
| Pixmap (p : pixmap).

Record QLabel : Type := { content : label_content; styleSheet : string }.

Definition setText (s : string) (w : QLabel) : QLabel :=
  {| content := Text s; styleSheet := styleSheet w |}.
Definition setPixmap (p : pixmap) (w : QLabel) : QLabel :=
  {| content := Pixmap p; styleSheet := styleSheet w |}.
Definition setStyleSheet (st : string) (w : QLabel) : QLabel :=
  {| content := content w; styleSheet := st |}.

Record QCheckBox : Type := { text : string }.

(** The items of a combo box: the text shown and the user data. *)
Record QComboBox : Type := { items : list (string * string) }.

Definition addItem (text data : string) (w : QComboBox) : QComboBox :=
  {| items := items w ++ [(text, data)] |}.

(** [itemData(index)]: [None] outside the items. *)
Definition itemData (w : QComboBox) (index : nat) : option string :=
  match nth_error (items w) index with
  | Some (_, data) => Some data
  | None => None
  end.

(** [Qt.CheckState.Checked] *)
Definition Checked : nat := 2.

End Qt.

(** ** main.py *)

(** The attributes of a [MonkeyPoseApp] that its handlers read or assign;
    a widget is [None] until [_setup_ui] has made it. *)
Module App.

Record t : Type := {
  current_language : string;
  show_landmarks : bool;
  pose_detector : PoseDetector;
  monkey_images : dict (option string);
  current_pose : string;
  camera_label : option Qt.QLabel;
  monkey_label : option Qt.QLabel;
  pose_name_label : option Qt.QLabel;
  language_combo : option Qt.QComboBox;
  landmark_checkbox : option Qt.QCheckBox;
  camera_title : option Qt.QLabel;
  monkey_title : option Qt.QLabel
}.

(** [self.current_language = v] *)
Definition with_current_language (v : string) (self : t) : t :=
  {| current_language := v;
     show_landmarks := show_landmarks self;
     pose_detector := pose_detector self;
     monkey_images := monkey_images self;
     current_pose := current_pose self;
     camera_label := camera_label self;
     monkey_label := monkey_label self;
     pose_name_label := pose_name_label self;
     language_combo := language_combo self;
     landmark_checkbox := landmark_checkbox self;
     camera_title := camera_title self;
     monkey_title := monkey_title self |}.

(** [self.show_landmarks = v] *)
Definition with_show_landmarks (v : bool) (self : t) : t :=
  {| current_language := current_language self;
     show_landmarks := v;
     pose_detector := pose_detector self;
     monkey_images := monkey_images self;
     current_pose := current_pose self;
     camera_label := camera_label self;
     monkey_label := monkey_label self;
     pose_name_label := pose_name_label self;
     language_combo := language_combo self;
     landmark_checkbox := landmark_checkbox self;
     camera_title := camera_title self;
     monkey_title := monkey_title self |}.

(** The detector object after a call on it. *)
Definition with_pose_detector (v : PoseDetector) (self : t) : t :=
  {| current_language := current_language self;
     show_landmarks := show_landmarks self;
     pose_detector := v;
     monkey_images := monkey_images self;
     current_pose := current_pose self;
     camera_label := camera_label self;
     monkey_label := monkey_label self;
     pose_name_label := pose_name_label self;
     language_combo := language_combo self;
     landmark_checkbox := landmark_checkbox self;
     camera_title := camera_title self;
     monkey_title := monkey_title self |}.

(** [self.current_pose = v] *)
Definition with_current_pose (v : string) (self : t) : t :=
  {| current_language := current_language self;
     show_landmarks := show_landmarks self;
     pose_detector := pose_detector self;
     monkey_images := monkey_images self;
     current_pose := v;
     camera_label := camera_label self;
     monkey_label := monkey_label self;
     pose_name_label := pose_name_label self;
     language_combo := language_combo self;
     landmark_checkbox := landmark_checkbox self;
     camera_title := camera_title self;
     monkey_title := monkey_title self |}.

(** The camera label after a call on it. *)
Definition with_camera_label (v : option Qt.QLabel) (self : t) : t :=
  {| current_language := current_language self;
     show_landmarks := show_landmarks self;
     pose_detector := pose_detector self;
     monkey_images := monkey_images self;
     current_pose := current_pose self;
     camera_label := v;
     monkey_label := monkey_label self;
     pose_name_label := pose_name_label self;
     language_combo := language_combo self;
     landmark_checkbox := landmark_checkbox self;
     camera_title := camera_title self;
     monkey_title := monkey_title self |}.

(** The monkey label after a call on it. *)
Definition with_monkey_label (v : option Qt.QLabel) (self : t) : t :=
  {| current_language := current_language self;
     show_landmarks := show_landmarks self;
     pose_detector := pose_detector self;
     monkey_images := monkey_images self;
     current_pose := current_pose self;
     camera_label := camera_label self;
     monkey_label := v;
     pose_name_label := pose_name_label self;
     language_combo := language_combo self;
     landmark_checkbox := landmark_checkbox self;
     camera_title := camera_title self;
     monkey_title := monkey_title self |}.

(** The pose name label after a call on it. *)
Definition with_pose_name_label (v : option Qt.QLabel) (self : t) : t :=
  {| current_language := current_language self;
     show_landmarks := show_landmarks self;
     pose_detector := pose_detector self;
     monkey_images := monkey_images self;
     current_pose := current_pose self;
     camera_label := camera_label self;
     monkey_label := monkey_label self;
     pose_name_label := v;
     language_combo := language_combo self;
     landmark_checkbox := landmark_checkbox self;
     camera_title := camera_title self;
     monkey_title := monkey_title self |}.

(** The combo box after a call on it. *)
Definition with_language_combo (v : option Qt.QComboBox) (self : t) : t :=
  {| current_language := current_language self;
     show_landmarks := show_landmarks self;
     pose_detector := pose_detector self;
     monkey_images := monkey_images self;
     current_pose := current_pose self;
     camera_label := camera_label self;
     monkey_label := monkey_label self;
     pose_name_label := pose_name_label self;
     language_combo := v;
     landmark_checkbox := landmark_checkbox self;
     camera_title := camera_title self;
     monkey_title := monkey_title self |}.

(** The check box after a call on it. *)
Definition with_landmark_checkbox (v : option Qt.QCheckBox) (self : t) : t :=
  {| current_language := current_language self;
     show_landmarks := show_landmarks self;
     pose_detector := pose_detector self;
     monkey_images := monkey_images self;
     current_pose := current_pose self;
     camera_label := camera_label self;
     monkey_label := monkey_label self;
     pose_name_label := pose_name_label self;
     language_combo := language_combo self;
     landmark_checkbox := v;
     camera_title := camera_title self;
     monkey_title := monkey_title self |}.

(** The camera title after a call on it. *)
Definition with_camera_title (v : option Qt.QLabel) (self : t) : t :=
  {| current_language := current_language self;
     show_landmarks := show_landmarks self;
     pose_detector := pose_detector self;
     monkey_images := monkey_images self;
     current_pose := current_pose self;
     camera_label := camera_label self;
     monkey_label := monkey_label self;
     pose_name_label := pose_name_label self;
     language_combo := language_combo self;
     landmark_checkbox := landmark_checkbox self;
     camera_title := v;
     monkey_title := monkey_title self |}.

(** The monkey title after a call on it. *)
Definition with_monkey_title (v : option Qt.QLabel) (self : t) : t :=
  {| current_language := current_language self;
     show_landmarks := show_landmarks self;
     pose_detector := pose_detector self;
     monkey_images := monkey_images self;
     current_pose := current_pose self;
     camera_label := camera_label self;
     monkey_label := monkey_label self;
     pose_name_label := pose_name_label self;
     language_combo := language_combo self;
     landmark_checkbox := landmark_checkbox self;
     camera_title := camera_title self;
     monkey_title := v |}.

End App.

(** ** The platform *)

(** [d ** 2] where the C library rounds [pow] correctly: the product. *)
Definition exact_pow2 (d : float) : float := d * d.

Section Platform.

(** [d ** 2]: [float.__pow__] hands both operands to the C library, so the
    result is the platform's [pow(d, 2.0)].  It need not be the rounded
    product [d * d]: the [pow] of glibc differs from it in the last place
    on some arguments.  Nothing is assumed of it here.  Landmark
    coordinates are protobuf [float] fields, binary32 values whose
    differences square within the range of binary64, so the
    [OverflowError] of a power out of range is left out. *)
Variable pow2 : float -> float.

Section Rules.
Variable cfg : AppConfig.

(** The [for hand_landmarks in hand_results.multi_hand_landmarks] loop of
    [_is_raising_hand]; falling off the list is the final [return False]. *)
Fixpoint raising_hand_loop (nose_y : float)
         (hands : list NormalizedLandmarkList) : Self bool :=
  match hands with
  | [] => ret false
  | hand_landmarks :: rest =>
      wrist <- lift (getitem (landmark hand_landmarks) WRIST) ;;
      let wrist_y := y wrist in
      let height_diff := nose_y - wrist_y in
      set_hand_height height_diff ;;
      if hand_raise_threshold (pose cfg) <? height_diff
      then ret true
      else raising_hand_loop nose_y rest
  end.

(** The two guards test [pose_results] and [hand_results], then
    [pose_landmarks] (a message, truthy when present) and
    [multi_hand_landmarks]. *)
Definition _is_raising_hand (pose_results : option PoseSolution)
           (hand_results : option HandsSolution) : Self bool :=
  match pose_results, hand_results with
  | Some pose_results, Some hand_results =>
      match pose_landmarks pose_results with
      | Some pose_landmarks =>
          if negb (truthy (multi_hand_landmarks hand_results))
          then set_hand_height 0.0 ;; ret false
          else
            nose <- lift (getitem (landmark pose_landmarks) NOSE) ;;
            let nose_y := y nose in
            raising_hand_loop nose_y (multi_hand_landmarks hand_results)
      | None => set_hand_height 0.0 ;; ret false
      end
  | _, _ => set_hand_height 0.0 ;; ret false
  end.

(** The body of the [try] of [_is_shocking].  The [else 0] of the ratio is
    the integer 0, which compares and prints as the float 0.0. *)
Definition shocking_body (face_results : FaceMeshSolution) : Self bool :=
  face0 <- lift (getitem (multi_face_landmarks face_results) 0) ;;
  let face_landmarks := landmark face0 in
  upper_lip <- lift (getitem face_landmarks 13) ;;
  lower_lip <- lift (getitem face_landmarks 14) ;;
  forehead <- lift (getitem face_landmarks 10) ;;
  chin <- lift (getitem face_landmarks 152) ;;
  let face_height := abs (y chin - y forehead) in
  let mouth_opening := abs (y lower_lip - y upper_lip) in
  mouth_ratio <- (if 0 <? face_height
                  then lift (truediv mouth_opening face_height)
                  else ret 0) ;;
  set_mouth_ratio mouth_ratio ;;
  ret (mouth_open_threshold (pose cfg) <? mouth_ratio).

Definition _is_shocking (face_results : option FaceMeshSolution)
  : Self bool :=
  match face_results with
  | None => set_mouth_ratio 0.0 ;; ret false
  | Some face_results =>
      if negb (truthy (multi_face_landmarks face_results))
      then set_mouth_ratio 0.0 ;; ret false
      else try_except_index_attr
             (shocking_body face_results)
             (set_mouth_ratio 0.0 ;; ret false)
  end.

(** [np.sqrt(... ** 2 + ... ** 2)] *)
Definition distance (finger_tip mouth_point : Landmark) : float :=
  sqrt (pow2 (x finger_tip - x mouth_point)
        + pow2 (y finger_tip - y mouth_point)).

(** [for mouth_point in mouth_points: ... return True] *)
Fixpoint mouth_points_loop (finger_tip : Landmark)
         (mouth_points : list Landmark) : bool :=
  match mouth_points with
  | [] => false
  | mouth_point :: rest =>
      if distance finger_tip mouth_point
         <? hand_to_face_threshold (pose cfg)
      then true
      else mouth_points_loop finger_tip rest
  end.

(** [for finger_tip in finger_tips: ...] *)
Fixpoint finger_tips_loop (finger_tips mouth_points : list Landmark)
  : bool :=
  match finger_tips with
  | [] => false
  | finger_tip :: rest =>
      if mouth_points_loop finger_tip mouth_points
      then true
      else finger_tips_loop rest mouth_points
  end.

(** [for hand_landmarks in hand_results.multi_hand_landmarks: ...];
    falling off the list is the [return False] after the loop. *)
Fixpoint thinking_loop (mouth_points : list Landmark)
         (hands : list NormalizedLandmarkList) : Self bool :=
  match hands with
  | [] => ret false
  | hand_landmarks :: rest =>
      thumb <- lift (getitem (landmark hand_landmarks) THUMB_TIP) ;;
      index <- lift (getitem (landmark hand_landmarks)
                             INDEX_FINGER_TIP) ;;
      middle <- lift (getitem (landmark hand_landmarks)
                              MIDDLE_FINGER_TIP) ;;
      let finger_tips := [thumb; index; middle] in
      if finger_tips_loop finger_tips mouth_points
      then ret true
      else thinking_loop mouth_points rest
  end.

(** The body of the [try] of [_is_thinking]. *)
Definition thinking_body (hand_results : HandsSolution)
           (face_results : FaceMeshSolution) : Self bool :=
  face0 <- lift (getitem (multi_face_landmarks face_results) 0) ;;
  let face_landmarks := landmark face0 in
  upper_lip <- lift (getitem face_landmarks 13) ;;
  lower_lip <- lift (getitem face_landmarks 14) ;;
  chin <- lift (getitem face_landmarks 152) ;;
  mouth_center <- lift (getitem face_landmarks 0) ;;
  let mouth_points := [upper_lip; lower_lip; chin; mouth_center] in
  thinking_loop mouth_points (multi_hand_landmarks hand_results).

Definition _is_thinking (pose_results : option PoseSolution)
           (hand_results : option HandsSolution)
           (face_results : option FaceMeshSolution) : Self bool :=
  match face_results, hand_results with
  | Some face_results, Some hand_results =>
      if negb (truthy (multi_face_landmarks face_results))
         || negb (truthy (multi_hand_landmarks hand_results))
      then ret false
      else try_except_index_attr
             (thinking_body hand_results face_results)
             (ret false)
  | _, _ => ret false
  end.

Definition _determine_pose (pose_results : option PoseSolution)
           (hand_results : option HandsSolution)
           (face_results : option FaceMeshSolution) : Self string :=
  raising <- _is_raising_hand pose_results hand_results ;;
  if raising then ret "raising_hand" else
  thinking <- _is_thinking pose_results hand_results face_results ;;
  if thinking then ret "thinking" else
  shocking <- _is_shocking face_results ;;
  if shocking then ret "shocking" else
  ret "default".

(** The three [process] calls inside one [try]. *)
Definition run_detections (frame : Frame)
  : outcome (option PoseSolution * option HandsSolution
             * option FaceMeshSolution) :=
  match pose_process frame with
  | Raise e => Raise e
  | Return pose_results =>
      match hands_process frame with
      | Raise e => Raise e
      | Return hand_results =>
          match face_mesh_process frame with
          | Raise e => Raise e
          | Return face_results =>
              Return (pose_results, hand_results, face_results)
          end
      end
  end.

(** The [try] block under "Update debug info". *)
Definition update_debug_info (hand_results : option HandsSolution)
           (face_results : option FaceMeshSolution) : Self unit :=
  match face_results with
  | Some fr => if truthy (multi_face_landmarks fr)
               then set_face_detected true else ret tt
  | None => ret tt
  end ;;
  match hand_results with
  | Some hr => if truthy (multi_hand_landmarks hr)
               then set_hands_detected
                      (List.length (multi_hand_landmarks hr))
               else ret tt
  | None => ret tt
  end.

(** What [detect_pose] does with the three detection results, from the reset
    of [debug_info] to the label: the classification of a snapshot. *)
Definition classify (pose_results : option PoseSolution)
           (hand_results : option HandsSolution)
           (face_results : option FaceMeshSolution) : Self string :=
  set_debug_info DebugInfo_default ;;
  update_debug_info hand_results face_results ;;
  _determine_pose pose_results hand_results face_results.

(** [detect_pose], its second component [pose_name].  The drawing that
    follows the classification, and with it [show_landmarks], only decides
    which pixels are returned as first component; the model leaves it out.
    The first handler is for [cv2.error] alone, the second for any
    [Exception]. *)
Definition detect_pose (frame : Frame) (language : string)
  : Self string :=
  set_current_language language ;;
  match cvtColor frame with
  | Raise Cv2Error => ret "default"
  | Raise e => raise e
  | Return _ =>
      match run_detections frame with
      | Raise _ => ret "default"
      | Return (pose_results, hand_results, face_results) =>
          classify pose_results hand_results face_results
      end
  end.

End Rules.


(** ** The rules in the specification's words *)

(** [height_diff = nose_y - wrist_y] of a hand, when it has a wrist. *)
Definition height_diff (nose : Landmark) (hand : NormalizedLandmarkList)
  : option float :=
  match nth_error (landmark hand) WRIST with
  | Some wrist => Some (y nose - y wrist)
  | None => None
  end.

(** The three fingertips of a hand: thumb tip, index fingertip, middle
    fingertip. *)
Definition finger_tips_of (hand : NormalizedLandmarkList)
  : option (list Landmark) :=
  match nth_error (landmark hand) THUMB_TIP,
        nth_error (landmark hand) INDEX_FINGER_TIP,
        nth_error (landmark hand) MIDDLE_FINGER_TIP with
  | Some thumb, Some index, Some middle => Some [thumb; index; middle]
  | _, _, _ => None
  end.

(** The four mouth-region points of a face: upper-lip-center 13,
    lower-lip-center 14, chin 152, mouth-center 0. *)
Definition mouth_points_of (face : NormalizedLandmarkList)
  : option (list Landmark) :=
  match nth_error (landmark face) 13, nth_error (landmark face) 14,
        nth_error (landmark face) 152, nth_error (landmark face) 0 with
  | Some upper_lip, Some lower_lip, Some chin, Some mouth_center =>
      Some [upper_lip; lower_lip; chin; mouth_center]
  | _, _, _, _ => None
  end.

(** [sqrt((fx-mx)^2 + (fy-my)^2)]: x and y only, in binary64, the squares
    as the platform computes them. *)
Definition euclid2 (fx fy mx my : float) : float :=
  sqrt (pow2 (fx - mx) + pow2 (fy - my)).

(** A fingertip of the hand is closer than [t] to a mouth-region point, by
    that distance. *)
Definition touches (t : float) (mouth_points : list Landmark)
           (hand : NormalizedLandmarkList) : Prop :=
  exists tips tip mouth_point,
    finger_tips_of hand = Some tips /\ In tip tips
    /\ In mouth_point mouth_points
    /\ (euclid2 (x tip) (y tip) (x mouth_point) (y mouth_point) <? t) = true.

(** No body: no pose result, or one without landmarks. *)
Definition no_body (pose_results : option PoseSolution) : Prop :=
  match pose_results with
  | Some r => pose_landmarks r = None
  | None => True
  end.

Definition no_hands (hand_results : option HandsSolution) : Prop :=
  match hand_results with
  | Some r => multi_hand_landmarks r = []
  | None => True
  end.

Definition no_faces (face_results : option FaceMeshSolution) : Prop :=
  match face_results with
  | Some r => multi_face_landmarks r = []
  | None => True
  end.

(** The four labels. *)
Definition pose_names : list string :=
  ["raising_hand"; "thinking"; "shocking"; "default"].

(** ** Frames for the examples *)

Definition lm (px py : float) : Landmark := {| x := px; y := py; z := 0 |}.
Definition origin : Landmark := lm 0 0.

(** A 33-point skeleton with the given nose. *)
Definition body_of (nose : Landmark) : NormalizedLandmarkList :=
  {| landmark := nose :: repeat origin 32 |}.

(** A 21-point hand with the given wrist and fingertips. *)
Definition hand_of (wrist thumb index middle : Landmark)
  : NormalizedLandmarkList :=
  {| landmark := wrist :: repeat origin 3 ++ thumb :: repeat origin 3
                 ++ index :: repeat origin 3 ++ middle :: repeat origin 8 |}.

(** A 468-point mesh with the given points 0, 10, 13, 14 and 152. *)
Definition face_of (mouth_center forehead upper_lip lower_lip chin : Landmark)
  : NormalizedLandmarkList :=
  {| landmark := mouth_center :: repeat origin 9 ++ forehead
                 :: repeat origin 2 ++ upper_lip :: lower_lip
                 :: repeat origin 137 ++ chin :: repeat origin 315 |}.

Definition some_pose (nose : Landmark) : option PoseSolution :=
  Some {| pose_landmarks := Some (body_of nose) |}.
Definition some_hands (hands : list NormalizedLandmarkList)
  : option HandsSolution :=
  Some {| multi_hand_landmarks := hands |}.
Definition some_faces (faces : list NormalizedLandmarkList)
  : option FaceMeshSolution :=
  Some {| multi_face_landmarks := faces |}.

(** A detector as a previous frame may have left it. *)
Definition stale : PoseDetector :=
  {| debug_info := {| mouth_ratio := 0.5; hand_height := 0.25;
                      hands_detected := 2; face_detected := true |};
     current_language := "en" |}.

(** A frame on which conversion and the three detectors succeed. *)
Definition frame_of (pose_results : option PoseSolution)
           (hand_results : option HandsSolution)
           (face_results : option FaceMeshSolution) : Frame :=
  {| cvtColor := Return tt;
     pose_process := Return pose_results;
     hands_process := Return hand_results;
     face_mesh_process := Return face_results |}.

(** The frames of the examples: a nose at height 0.40; a hand whose wrist is
    above it and whose thumb tip is at the mouth; the same hand with the
    wrist down; a face with the mouth open; a face whose forehead and chin
    share a height; a face with a NaN lower lip; a hand without landmarks. *)
Definition nose0 : Landmark := lm 0.5 0.40.
Definition high_hand : NormalizedLandmarkList :=
  hand_of (lm 0.5 0.30) (lm 0.50 0.50) (lm 0.9 0.9) (lm 0.9 0.9).
Definition low_hand : NormalizedLandmarkList :=
  hand_of (lm 0.5 0.90) (lm 0.50 0.50) (lm 0.9 0.9) (lm 0.9 0.9).
Definition side_hand : NormalizedLandmarkList :=
  hand_of (lm 0.1 0.36) (lm 0.1 0.3) (lm 0.1 0.3) (lm 0.1 0.3).
Definition open_face : NormalizedLandmarkList :=
  face_of (lm 0.52 0.51) (lm 0.5 0.10) (lm 0.5 0.30) (lm 0.5 0.40)
          (lm 0.5 0.60).
Definition flat_face : NormalizedLandmarkList :=
  face_of (lm 0.5 0.45) (lm 0.5 0.30) (lm 0.5 0.30) (lm 0.5 0.60)
          (lm 0.5 0.30).
Definition nan_lip_face : NormalizedLandmarkList :=
  face_of (lm 0.5 0.35) (lm 0.5 0.10) (lm 0.5 0.30) (lm 0.5 nan)
          (lm 0.5 0.60).
Definition bare_hand : NormalizedLandmarkList := {| landmark := [] |}.

(** A frame on which the hand detector raises. *)
Definition failing_frame : Frame :=
  {| cvtColor := Return tt;
     pose_process := Return (some_pose nose0);
     hands_process := Raise RuntimeError;
     face_mesh_process := Return (some_faces [open_face]) |}.

(** A frame that [cv2.cvtColor] refuses. *)
Definition broken_frame : Frame :=
  {| cvtColor := Raise Cv2Error;
     pose_process := Return None;
     hands_process := Return None;
     face_mesh_process := Return None |}.

(** ** Specification floats: sign and NaN *)

(** Not negative, NaN included. *)
Definition SFnot_neg (v : spec_float) : bool :=
  match v with
  | S754_zero _ | S754_nan => true
  | S754_infinity s | S754_finite s _ _ => negb s
  end.

Definition SFis_nan (v : spec_float) : bool :=
  match v with S754_nan => true | _ => false end.

(** ** Properties of computations on [self] *)

(** The outcome does not depend on the detector object the computation
    starts from, and each attribute it leaves depends on that attribute as it
    found it only. *)
Definition oblivious {A : Type} (m : Self A) : Prop :=
  forall s1 s2,
    fst (m s1) = fst (m s2)
    /\ (debug_info s1 = debug_info s2 ->
        debug_info (snd (m s1)) = debug_info (snd (m s2)))
    /\ (current_language s1 = current_language s2 ->
        current_language (snd (m s1)) = current_language (snd (m s2))).

(** [self] when the rules start: the reset of [debug_info], then the two
    counters. *)
Definition counted (hand_results : option HandsSolution)
           (face_results : option FaceMeshSolution) (self : PoseDetector)
  : PoseDetector :=
  snd (update_debug_info hand_results face_results
         (with_debug_info DebugInfo_default self)).

(** The hand has a wrist and its [height_diff] is strictly greater than
    [t]. *)
Definition raised (t : float) (nose : Landmark)
           (hand : NormalizedLandmarkList) : Prop :=
  exists d, height_diff nose hand = Some d /\ (t <? d) = true.

(** The hand has a wrist and its [height_diff] is not greater than [t]. *)
Definition not_raised (t : float) (nose : Landmark)
           (hand : NormalizedLandmarkList) : Prop :=
  exists d, height_diff nose hand = Some d /\ (t <? d) = false.

(** The hand has its three fingertips and none is closer than [t] to a
    mouth-region point. *)
Definition apart (t : float) (mouth_points : list Landmark)
           (hand : NormalizedLandmarkList) : Prop :=
  exists tips,
    finger_tips_of hand = Some tips
    /\ forall tip mouth_point,
         In tip tips -> In mouth_point mouth_points ->
         (euclid2 (x tip) (y tip) (x mouth_point) (y mouth_point) <? t)
         = false.

(** [opening] and [face_height] are the lip difference
    [lower_lip_y - upper_lip_y] and the face height [|chin_y - forehead_y|]
    of the first face of [face_results]. *)
Definition first_face_measures (face_results : option FaceMeshSolution)
           (opening face_height : float) : Prop :=
  exists face0 faces upper_lip lower_lip forehead chin,
    face_results = Some {| multi_face_landmarks := face0 :: faces |}
    /\ nth_error (landmark face0) 13 = Some upper_lip
    /\ nth_error (landmark face0) 14 = Some lower_lip
    /\ nth_error (landmark face0) 10 = Some forehead
    /\ nth_error (landmark face0) 152 = Some chin
    /\ opening = y lower_lip - y upper_lip
    /\ face_height = abs (y chin - y forehead).

(** The values [mouth_ratio] takes: zero, or the lip opening of the first
    face over its positive face height. *)
Definition ratio_of (face_results : option FaceMeshSolution) (v : float)
  : Prop :=
  v = 0
  \/ exists opening face_height,
       first_face_measures face_results opening face_height
       /\ (0 <? face_height) = true
       /\ v = abs opening / face_height.

(** Some detector raises on the frame. *)
Definition detector_raises (frame : Frame) : Prop :=
  (exists e, pose_process frame = Raise e)
  \/ (exists e, hands_process frame = Raise e)
  \/ (exists e, face_mesh_process frame = Raise e).

(** Computations on the window [self]. *)
Definition AppM := M App.t.

Definition gets {A : Type} (f : App.t -> A) : AppM A :=
  fun self => (Return (f self), self).

(** A call of a method of [self.pose_detector]: it runs on the detector
    object, which keeps what the call assigned also when it raises. *)
Definition on_pose_detector {A : Type} (m : Self A) : AppM A :=
  fun self =>
    let (o, d) := m (App.pose_detector self) in
    (o, App.with_pose_detector d self).

(** What a timer tick finds outside the window: whether the camera is there
    and open, the frame it reads (mirrored) if any, and whether the returned
    frame converts to a pixmap. *)
Record Tick : Type := {
  isOpened : bool;
  read : option Frame;
  to_pixmap : outcome unit
}.

(** The dictionary [pose_names] of [_update_pose_name_display]. *)
Definition pose_names_by_language : dict (dict string) :=
  [("id", POSE_NAMES_ID); ("en", POSE_NAMES_EN); ("tr", POSE_NAMES_TR)].

(** [UI_TEXT[language][key]] *)
Definition ui_text (language key : string) : outcome string :=
  match dict_getitem UI_TEXT language with
  | Return texts => dict_getitem texts key
  | Raise e => Raise e
  end.

(** The style sheet of a missing image. *)
Definition warning_style (ui : UIConfig) : string :=
  (nl ++ "                QLabel { " ++ nl
   ++ "                    color: " ++ warning_color ui ++ "; " ++ nl
   ++ "                    font-size: 16px; " ++ nl
   ++ "                    border: 2px dashed " ++ border_color ui
   ++ "; " ++ nl
   ++ "                }" ++ nl ++ "            ")%string.

(** The text of a missing image. *)
Definition not_found_text (pose_name : string) : string :=
  (pose_name ++ nl ++ nl ++ "(Image not found)")%string.

(** Truthiness of an [Optional[str]]. *)
Definition truthy_path (image_path : option string) : bool :=
  match image_path with
  | Some "" | None => false
  | Some _ => true
  end.

Section LoadImages.
Variable sep : string.
Variable path_exists : string -> bool.

(** [pose_paths] *)
Definition pose_paths : dict string :=
  [("raising_hand", Assets.raising_hand sep Assets.CONFIG_assets);
   ("shocking", Assets.shocking sep Assets.CONFIG_assets);
   ("thinking", Assets.thinking sep Assets.CONFIG_assets);
   ("default", Assets.default sep Assets.CONFIG_assets)].

(** [for pose, image_path in pose_paths.items(): ...] *)
Fixpoint load_loop (items : list (string * string))
         (images : dict (option string)) : dict (option string) :=
  match items with
  | [] => images
  | (pose, image_path) :: rest =>
      load_loop rest
        (dict_setitem images pose
           (if path_exists image_path then Some image_path else None))
  end.

Definition _load_monkey_images : dict (option string) :=
  load_loop pose_paths [].

End LoadImages.

Definition _update_pose_name_display : AppM unit :=
  pose_name_label <- gets App.pose_name_label ;;
  match pose_name_label with
  | None => ret tt
  | Some label =>
      current_language <- gets App.current_language ;;
      current_pose <- gets App.current_pose ;;
      let current_names :=
        dict_get_default pose_names_by_language current_language
                         POSE_NAMES_ID in
      modify (App.with_pose_name_label
                (Some (Qt.setText
                         (dict_get_default current_names current_pose
                                           current_pose)
                         label)))
  end.

Definition _update_monkey_image (pose_name : string) : AppM unit :=
  monkey_label <- gets App.monkey_label ;;
  pose_name_label <- gets App.pose_name_label ;;
  match monkey_label, pose_name_label with
  | Some label, Some _ =>
      monkey_images <- gets App.monkey_images ;;
      let image_path :=
        match dict_get monkey_images pose_name with
        | Some image_path => image_path
        | None => None
        end in
      match image_path with
      | Some path =>
          if truthy_path image_path
          then modify (App.with_monkey_label
                         (Some (Qt.setPixmap (Qt.FromFile path) label)))
          else modify (App.with_monkey_label
                         (Some (Qt.setStyleSheet (warning_style CONFIG_ui)
                                  (Qt.setText (not_found_text pose_name)
                                              label))))
      | None =>
          modify (App.with_monkey_label
                    (Some (Qt.setStyleSheet (warning_style CONFIG_ui)
                             (Qt.setText (not_found_text pose_name)
                                         label))))
      end ;;
      _update_pose_name_display
  | _, _ => ret tt
  end.

Definition _on_landmark_toggle (state : nat) : AppM unit :=
  modify (App.with_show_landmarks (Nat.eqb state Qt.Checked)) ;;
  landmark_checkbox <- gets App.landmark_checkbox ;;
  match landmark_checkbox with
  | Some _ =>
      current_language <- gets App.current_language ;;
      show_landmarks <- gets App.show_landmarks ;;
      text <- lift (ui_text current_language
                            (if show_landmarks then "show_landmarks"
                             else "hide_landmarks")) ;;
      modify (App.with_landmark_checkbox (Some {| Qt.text := text |}))
  | None => ret tt
  end.

(** [_on_language_changed] for the index of an item, as Qt emits the
    signal; for another index [itemData] is [None], which is no language:
    that case is outside the model and reported as [KeyError], what
    [UI_TEXT[None]] raises. *)
Definition _on_language_changed (index : nat) : AppM unit :=
  language_combo <- gets App.language_combo ;;
  match language_combo with
  | None => raise AttributeError
  | Some combo =>
      match Qt.itemData combo index with
      | None => raise KeyError
      | Some lang_code =>
          modify (App.with_current_language lang_code) ;;
          camera_title <- gets App.camera_title ;;
          match camera_title with
          | Some w =>
              text <- lift (ui_text lang_code "camera_title") ;;
              modify (App.with_camera_title (Some (Qt.setText text w)))
          | None => ret tt
          end ;;
          monkey_title <- gets App.monkey_title ;;
          match monkey_title with
          | Some w =>
              text <- lift (ui_text lang_code "monkey_title") ;;
              modify (App.with_monkey_title (Some (Qt.setText text w)))
          | None => ret tt
          end ;;
          landmark_checkbox <- gets App.landmark_checkbox ;;
          match landmark_checkbox with
          | Some _ =>
              show_landmarks <- gets App.show_landmarks ;;
              text <- lift (ui_text lang_code
                                    (if show_landmarks then "show_landmarks"
                                     else "hide_landmarks")) ;;
              modify (App.with_landmark_checkbox
                        (Some {| Qt.text := text |}))
          | None => ret tt
          end ;;
          _update_pose_name_display
      end
  end.

(** [PoseDetector.__init__], given whether the MediaPipe models start. *)
Definition PoseDetector__init__ (models : outcome unit)
  : outcome PoseDetector :=
  match models with
  | Raise e => Raise e
  | Return _ =>
      Return {| debug_info := DebugInfo_default;
                current_language := CONFIG_default_language |}
  end.

(** [_init_camera], given whether the capture device opens. *)
Definition _init_camera (camera_isOpened : bool) : outcome unit :=
  if camera_isOpened then Return tt else Raise RuntimeError.

Section Setup.
Variable sep : string.
Variable path_exists : string -> bool.
Variable camera_isOpened : bool.
Variable models : outcome unit.

(** The style sheets that the builders give the five labels: f-strings over
    [CONFIG.ui] that no handler reads. *)
Variable camera_title_style : string.
Variable camera_label_style : string.
Variable monkey_title_style : string.
Variable monkey_label_style : string.
Variable pose_name_label_style : string.

(** The signals are connected after [setCurrentIndex] and [setChecked]:
    no handler runs here. *)
Definition _create_top_bar : AppM unit :=
  current_language <- gets App.current_language ;;
  lift (ui_text current_language "language") ;;
  modify (App.with_language_combo
            (Some (fold_left
                     (fun w '(lang_code, lang_name) =>
                        Qt.addItem lang_name lang_code w)
                     LANGUAGES {| Qt.items := [] |}))) ;;
  lift (list_index (dict_keys LANGUAGES) current_language) ;;
  show_landmarks <- gets App.show_landmarks ;;
  text <- lift (ui_text current_language
                        (if show_landmarks then "show_landmarks"
                         else "hide_landmarks")) ;;
  modify (App.with_landmark_checkbox (Some {| Qt.text := text |})).

Definition _create_camera_section : AppM unit :=
  current_language <- gets App.current_language ;;
  text <- lift (ui_text current_language "camera_title") ;;
  modify (App.with_camera_title
            (Some {| Qt.content := Qt.Text text;
                     Qt.styleSheet := camera_title_style |})) ;;
  modify (App.with_camera_label
            (Some {| Qt.content := Qt.Empty;
                     Qt.styleSheet := camera_label_style |})).

Definition _create_monkey_section : AppM unit :=
  current_language <- gets App.current_language ;;
  text <- lift (ui_text current_language "monkey_title") ;;
  modify (App.with_monkey_title
            (Some {| Qt.content := Qt.Text text;
                     Qt.styleSheet := monkey_title_style |})) ;;
  modify (App.with_monkey_label
            (Some {| Qt.content := Qt.Empty;
                     Qt.styleSheet := monkey_label_style |})) ;;
  modify (App.with_pose_name_label
            (Some {| Qt.content := Qt.Text "Normal Pose";
                     Qt.styleSheet := pose_name_label_style |})).

Definition _setup_ui : AppM unit :=
  _create_top_bar ;;
  _create_camera_section ;;
  _create_monkey_section ;;
  _update_monkey_image "default".

(** [MonkeyPoseApp.__init__]: the window it leaves, or what it raises. *)
Definition __init__ : outcome App.t :=
  match _init_camera camera_isOpened with
  | Raise e => Raise e
  | Return _ =>
      match PoseDetector__init__ models with
      | Raise e => Raise e
      | Return detector =>
          let self :=
            {| App.current_language := CONFIG_default_language;
               App.show_landmarks := CONFIG_show_landmarks;
               App.pose_detector := detector;
               App.monkey_images := _load_monkey_images sep path_exists;
               App.current_pose := "default";
               App.camera_label := None;
               App.monkey_label := None;
               App.pose_name_label := None;
               App.language_combo := None;
               App.landmark_checkbox := None;
               App.camera_title := None;
               App.monkey_title := None |} in
          match _setup_ui self with
          | (Return _, self') => Return self'
          | (Raise e, _) => Raise e
          end
      end
  end.

End Setup.

Section MainWindow.
Variable cfg : AppConfig.

Definition _update_frame (tick : Tick) : AppM unit :=
  if negb (isOpened tick) then ret tt else
  match read tick with
  | None => ret tt
  | Some frame =>
      show_landmarks <- gets App.show_landmarks ;;
      language <- gets App.current_language ;;
      pose_name <- on_pose_detector (detect_pose cfg frame language) ;;
      match to_pixmap tick with
      | Raise _ => ret tt
      | Return _ =>
          camera_label <- gets App.camera_label ;;
          match camera_label with
          | Some w =>
              modify (App.with_camera_label
                        (Some (Qt.setPixmap
                                 (Qt.FromFrame frame show_landmarks) w)))
          | None => ret tt
          end ;;
          current_pose <- gets App.current_pose ;;
          if negb (String.eqb pose_name current_pose)
          then modify (App.with_current_pose pose_name) ;;
               _update_monkey_image pose_name
          else ret tt
      end
  end.

(** The signals the window is connected to: the timer's [timeout], the
    combo box's [currentIndexChanged] and the check box's [stateChanged]. *)
Inductive signal : Type :=
| Timeout (tick : Tick)
| CurrentIndexChanged (index : nat)
| StateChanged (state : nat).

Definition slot (s : signal) : AppM unit :=
  match s with
  | Timeout tick => _update_frame tick
  | CurrentIndexChanged index => _on_language_changed index
  | StateChanged state => _on_landmark_toggle state
  end.

(** The slots run one after the other, up to the first exception. *)
Fixpoint deliver (signals : list signal) : AppM unit :=
  match signals with
  | [] => ret tt
  | s :: rest => slot s ;; deliver rest
  end.

End MainWindow.

(** ** What the window shows *)

(** [caption] is the name of [pose] in [language]. *)
Definition translated (language pose caption : string) : Prop :=
  exists names,
    dict_get pose_names_by_language language = Some names
    /\ dict_get names pose = Some caption.

(** The key of the check box's text. *)
Definition landmarks_key (show_landmarks : bool) : string :=
  if show_landmarks then "show_landmarks" else "hide_landmarks".

(** What the monkey label shows for a pose: its image when the file was
    found at start, the pose's label and a notice otherwise. *)
Definition shown_for (images : dict (option string)) (pose_name : string)
  : Qt.label_content :=
  match dict_get images pose_name with
  | Some (Some path) =>
      if truthy_path (Some path) then Qt.Pixmap (Qt.FromFile path)
      else Qt.Text (not_found_text pose_name)
  | _ => Qt.Text (not_found_text pose_name)
  end.

(** The window is consistent: the language is an offered one and the pose
    one of the four labels, the widgets are there, and every text is the
    one of the language, the caption and the image those of the pose. *)
Record consistent (app : App.t) : Prop := {
  language_offered :
    In (App.current_language app) (dict_keys LANGUAGES);
  pose_is_label : In (App.current_pose app) pose_names;
  combo_offers :
    exists w, App.language_combo app = Some w
              /\ map snd (Qt.items w) = dict_keys LANGUAGES;
  caption_translated :
    exists w caption,
      App.pose_name_label app = Some w
      /\ Qt.content w = Qt.Text caption
      /\ translated (App.current_language app) (App.current_pose app)
                    caption;
  monkey_shown :
    exists w, App.monkey_label app = Some w
              /\ Qt.content w
                 = shown_for (App.monkey_images app) (App.current_pose app);
  camera_title_translated :
    exists w text,
      App.camera_title app = Some w
      /\ Qt.content w = Qt.Text text
      /\ ui_text (App.current_language app) "camera_title" = Return text;
  monkey_title_translated :
    exists w text,
      App.monkey_title app = Some w
      /\ Qt.content w = Qt.Text text
      /\ ui_text (App.current_language app) "monkey_title" = Return text;
  checkbox_translated :
    exists w,
      App.landmark_checkbox app = Some w
      /\ ui_text (App.current_language app)
                 (landmarks_key (App.show_landmarks app))
         = Return (Qt.text w)
}.

(** The signals that reach the slots: a frame is converted or refused with
    [cv2.error], and an index is that of an item of the combo box. *)
Definition expected (s : signal) : Prop :=
  match s with
  | Timeout tick =>
      forall frame, read tick = Some frame ->
                    cvtColor frame = Return tt
                    \/ cvtColor frame = Raise Cv2Error
  | CurrentIndexChanged index => (index < List.length LANGUAGES)%nat
  | StateChanged _ => True
  end.

(** ** Example windows and ticks *)

(** Of the four images the one of the raised hand alone is on disk. *)
Definition only_raising_hand (path : string) : bool :=
  String.eqb path "assets/raising_hand_pose.jpg".

(** The window that [__init__] leaves then, its labels without style. *)
Definition example_window : App.t :=
  snd (_setup_ui
         "" "" "" "" ""
         {| App.current_language := CONFIG_default_language;
            App.show_landmarks := CONFIG_show_landmarks;
            App.pose_detector :=
              {| debug_info := DebugInfo_default;
                 current_language := CONFIG_default_language |};
            App.monkey_images := _load_monkey_images "/" only_raising_hand;
            App.current_pose := "default";
            App.camera_label := None;
            App.monkey_label := None;
            App.pose_name_label := None;
            App.language_combo := None;
            App.landmark_checkbox := None;
            App.camera_title := None;
            App.monkey_title := None |}).

(** A tick with a raised hand in the frame. *)
Definition raising_tick : Tick :=
  {| isOpened := true;
     read := Some (frame_of (some_pose nose0) (some_hands [high_hand])
                            None);
     to_pixmap := Return tt |}.

(** The same frame when it cannot be shown. *)
Definition unshown_tick : Tick :=
  {| isOpened := true;
     read := Some (frame_of (some_pose nose0) (some_hands [high_hand])
                            None);
     to_pixmap := Raise RuntimeError |}.

(** A tick with a hand without landmarks in the frame. *)
Definition bare_tick : Tick :=
  {| isOpened := true;
     read := Some (frame_of (some_pose nose0) (some_hands [bare_hand])
                            None);
     to_pixmap := Return tt |}.

(** ** Snapshots without depth *)

(** The landmark with its depth [z] replaced. *)
Definition with_z (d : float) (p : Landmark) : Landmark :=
  {| x := x p; y := y p; z := d |}.

(** The landmark list, pose, hands and faces with every depth set to 0. *)
Definition flat_list (l : NormalizedLandmarkList) : NormalizedLandmarkList :=
  {| landmark := map (with_z 0) (landmark l) |}.

Definition flat_pose (pose_results : option PoseSolution)
  : option PoseSolution :=
  option_map
    (fun r => {| pose_landmarks := option_map flat_list (pose_landmarks r) |})
    pose_results.

Definition flat_hands (hand_results : option HandsSolution)
  : option HandsSolution :=
  option_map
    (fun r => {| multi_hand_landmarks :=
                   map flat_list (multi_hand_landmarks r) |})
    hand_results.

Definition flat_faces (face_results : option FaceMeshSolution)
  : option FaceMeshSolution :=
  option_map
    (fun r => {| multi_face_landmarks :=
                   map flat_list (multi_face_landmarks r) |})
    face_results.

(** * Proofs *)

(** ** Floats *)

Section FloatFacts.

Lemma SFcompare_Eq_cases (a b : spec_float) :
  SFcompare a b = Some Eq ->
  (exists s1 s2, a = S754_zero s1 /\ b = S754_zero s2)
  \/ (exists s, a = S754_infinity s /\ b = S754_infinity s)
  \/ (exists s m e, a = S754_finite s m e /\ b = S754_finite s m e).
Proof.
  destruct a as [sa|sa| |sa ma ea], b as [sb|sb| |sb mb eb]; simpl;
    try discriminate; try (destruct sa; discriminate);
    try (destruct sb; discriminate).
  - intros _. left. eauto.
  - destruct sa, sb; try discriminate; intros _; right; left; eauto.
  - intros H. right. right.
    assert (sa = sb /\ ea = eb /\ ma = mb) as (-> & -> & ->).
    { destruct sa, sb; try discriminate;
        destruct (Z.compare_spec ea eb); try discriminate; subst;
        change (Pos.compare_cont Eq ma mb) with (Pos.compare ma mb) in H;
        destruct (Pos.compare_spec ma mb); try discriminate; subst; auto. }
    eauto.
Qed.

Lemma eqb_cases (a b : float) :
  (a =? b) = true ->
  (exists s1 s2, Prim2SF a = S754_zero s1 /\ Prim2SF b = S754_zero s2)
  \/ (exists s, Prim2SF a = S754_infinity s /\ Prim2SF b = S754_infinity s)
  \/ (exists s m e, Prim2SF a = S754_finite s m e
                    /\ Prim2SF b = S754_finite s m e).
Proof.
  rewrite eqb_spec. unfold SFeqb. intros H. apply SFcompare_Eq_cases.
  destruct (SFcompare (Prim2SF a) (Prim2SF b)) as [[]|];
    try discriminate; reflexivity.
Qed.

(** [a == b] excludes [b < a]. *)
Lemma eqb_not_ltb (a b : float) : (a =? b) = true -> (b <? a) = false.
Proof.
  intros H. rewrite ltb_spec. unfold SFltb.
  destruct (eqb_cases a b H)
    as [(s1 & s2 & -> & ->)|[(s & -> & ->)|(s & m & e & -> & ->)]]; simpl.
  - reflexivity.
  - destruct s; reflexivity.
  - destruct s; rewrite Z.compare_refl;
      change (Pos.compare_cont Eq m m) with (Pos.compare m m);
      rewrite Pos.compare_refl; reflexivity.
Qed.

(** [0 < b] excludes [b == 0]: the guard of the division. *)
Lemma pos_not_zero (b : float) : (0 <? b) = true -> (b =? 0) = false.
Proof.
  intros H. destruct (b =? 0) eqn:E; [|reflexivity].
  apply eqb_not_ltb in E. congruence.
Qed.

(** Equal operands never have a positive absolute difference (equal
    infinities give NaN, which is not positive either). *)
Lemma eqb_abs_sub_not_pos (a b : float) :
  (a =? b) = true -> (0 <? abs (b - a)) = false.
Proof.
  intros H. rewrite ltb_spec, abs_spec, sub_spec. unfold SFltb.
  destruct (eqb_cases a b H)
    as [(s1 & s2 & -> & ->)|[(s & -> & ->)|(s & m & e & -> & ->)]].
  - destruct s1, s2; reflexivity.
  - destruct s; reflexivity.
  - unfold SF64sub, SFsub.
    rewrite Z.min_id. unfold shl_align. rewrite Z.sub_diag. simpl fst.
    reflexivity.
Qed.

Lemma binary_round_aux_not_neg (m e : Z) (l : location) :
  SFnot_neg (binary_round_aux prec emax false m e l) = true.
Proof.
  unfold binary_round_aux.
  destruct (shr_fexp prec emax m e l) as [mrs' e'].
  destruct (shr_fexp prec emax _ e' loc_Exact) as [mrs'' e''].
  destruct (shr_m mrs''); [reflexivity| |reflexivity].
  destruct (Z.leb e'' (emax - prec)); reflexivity.
Qed.

Lemma shr_1_nonneg (mrs : shr_record) :
  (0 <= shr_m mrs)%Z -> (0 <= shr_m (shr_1 mrs))%Z.
Proof.
  destruct mrs as [m r s]; simpl.
  destruct m as [|[p|p|]|[p|p|]]; simpl; lia.
Qed.

Lemma iter_pos_shr_1_nonneg (p : positive) (mrs : shr_record) :
  (0 <= shr_m mrs)%Z -> (0 <= shr_m (iter_pos shr_1 p mrs))%Z.
Proof.
  revert mrs.
  induction p as [p IH|p IH|]; intros mrs H; simpl.
  - apply IH, IH, shr_1_nonneg, H.
  - apply IH, IH, H.
  - apply shr_1_nonneg, H.
Qed.

Lemma shr_fexp_nonneg (m e : Z) (l : location) :
  (0 <= m)%Z -> (0 <= shr_m (fst (shr_fexp prec emax m e l)))%Z.
Proof.
  intros H. unfold shr_fexp, shr.
  assert (0 <= shr_m (shr_record_of_loc m l))%Z as H0
      by (destruct l as [|[]]; exact H).
  destruct (fexp prec emax (Zdigits2 m + e) - e)%Z; simpl; auto.
  apply iter_pos_shr_1_nonneg, H0.
Qed.

Lemma round_nearest_even_nonneg (m : Z) (l : location) :
  (0 <= m)%Z -> (0 <= round_nearest_even m l)%Z.
Proof.
  intros H. destruct l as [|[]]; simpl; try lia.
  destruct (Z.even m); lia.
Qed.

(** Rounding a nonnegative mantissa never produces NaN. *)
Lemma binary_round_aux_not_nan (sx : bool) (m e : Z) (l : location) :
  (0 <= m)%Z -> SFis_nan (binary_round_aux prec emax sx m e l) = false.
Proof.
  intros H. unfold binary_round_aux.
  pose proof (shr_fexp_nonneg m e l H) as H1.
  destruct (shr_fexp prec emax m e l) as [mrs' e']. simpl in H1.
  pose proof (shr_fexp_nonneg _ e' loc_Exact
                (round_nearest_even_nonneg _ (loc_of_shr_record mrs') H1))
    as H2.
  destruct (shr_fexp prec emax _ e' loc_Exact) as [mrs'' e''].
  simpl in H2.
  destruct (shr_m mrs''); [reflexivity| |lia].
  destruct (Z.leb e'' (emax - prec)); reflexivity.
Qed.

Lemma SFdiv_core_binary_nonneg (m1 m2 : positive) (e1 e2 : Z) :
  (0 <= fst (fst (SFdiv_core_binary prec emax
                    (Zpos m1) e1 (Zpos m2) e2)))%Z.
Proof.
  unfold SFdiv_core_binary.
  set (s := (e1 - e2 - _)%Z).
  set (m' := match s with
             | Zpos _ => Z.shiftl (Zpos m1) s
             | Z0 => Zpos m1
             | Zneg _ => 0%Z
             end).
  assert (0 <= m')%Z as Hm'.
  { subst m'. destruct s; try lia. apply Z.shiftl_nonneg. lia. }
  pose proof (Z.div_pos m' (Zpos m2) Hm' ltac:(lia)) as Hq.
  unfold Z.div in Hq.
  destruct (Z.div_eucl m' (Zpos m2)) as [q r]. exact Hq.
Qed.

Lemma ltb_0_cases (b : float) :
  (0 <? b) = true ->
  Prim2SF b = S754_infinity false
  \/ exists m e, Prim2SF b = S754_finite false m e.
Proof.
  rewrite ltb_spec. unfold SFltb. change (Prim2SF 0) with (S754_zero false).
  destruct (Prim2SF b) as [s|s| |s m e]; simpl; try discriminate.
  - destruct s; [discriminate|]. auto.
  - destruct s; [discriminate|]. eauto.
Qed.

Lemma SFdiv_abs_not_neg (a b : spec_float) :
  SFcompare (S754_zero false) b = Some Lt ->
  SFnot_neg (SFdiv prec emax (SFabs a) b) = true.
Proof.
  destruct b as [s|s| |s m e]; simpl; try discriminate;
    (destruct s; [discriminate|]); intros _.
  - destruct a; reflexivity.
  - destruct a as [sa|sa| |sa ma ea]; simpl; try reflexivity.
    destruct (SFdiv_core_binary prec emax (Z.pos ma) ea (Z.pos m) e)
      as [[mz ez] lz].
    apply binary_round_aux_not_neg.
Qed.

Lemma SFnot_neg_ltb (v : spec_float) :
  SFnot_neg v = true -> SFltb v (S754_zero false) = false.
Proof.
  destruct v as [s|s| |s m e]; simpl; try reflexivity;
    destruct s; (discriminate || reflexivity).
Qed.

Lemma is_nan_spec (a : float) : is_nan a = SFis_nan (Prim2SF a).
Proof.
  unfold is_nan. rewrite eqb_spec. unfold SFeqb.
  destruct (Prim2SF a) as [s|s| |s m e]; simpl; try reflexivity.
  - destruct s; reflexivity.
  - destruct s; rewrite Z.compare_refl;
      change (Pos.compare_cont Eq m m) with (Pos.compare m m);
      rewrite Pos.compare_refl; reflexivity.
Qed.

(** A quotient of an absolute value by a positive float is never negative. *)
Lemma div_abs_pos_not_neg (a b : float) :
  (0 <? b) = true -> (abs a / b <? 0) = false.
Proof.
  intros H. rewrite ltb_spec, div_spec, abs_spec.
  apply SFnot_neg_ltb, SFdiv_abs_not_neg.
  rewrite ltb_spec in H. unfold SFltb in H.
  change (Prim2SF 0) with (S754_zero false) in H.
  destruct (SFcompare (S754_zero false) (Prim2SF b)) as [[]|];
    (discriminate || reflexivity).
Qed.

(** What is not negative is [>= 0] unless it is NaN. *)
Lemma not_neg_not_nan_nonneg (r : float) :
  (r <? 0) = false -> is_nan r = false -> (0 <=? r) = true.
Proof.
  rewrite ltb_spec, leb_spec, is_nan_spec.
  change (Prim2SF 0) with (S754_zero false).
  destruct (Prim2SF r) as [s|s| |s m e]; simpl;
    try reflexivity; try discriminate;
    destruct s; simpl; (discriminate || reflexivity).
Qed.

(** The quotient is NaN only if the numerator is NaN or both operands are
    infinite. *)
Lemma div_abs_pos_nan (a b : float) :
  (0 <? b) = true -> is_nan (abs a / b) = true ->
  is_nan a = true \/ (is_infinity a = true /\ is_infinity b = true).
Proof.
  intros H. unfold is_infinity.
  rewrite !is_nan_spec, !eqb_spec, div_spec, !abs_spec.
  change (Prim2SF infinity) with (S754_infinity false).
  destruct (ltb_0_cases b H) as [->|(m & e & ->)];
    destruct (Prim2SF a) as [sa|sa| |sa ma ea]; simpl;
    try discriminate; auto.
  destruct (SFdiv_core_binary prec emax (Z.pos ma) ea (Z.pos m) e)
    as [[mz ez] lz] eqn:E.
  pose proof (SFdiv_core_binary_nonneg ma m ea e) as Hq.
  rewrite E in Hq. simpl in Hq.
  intros Hn.
  pose proof (binary_round_aux_not_nan false mz ez lz Hq) as Hn'.
  unfold SF64div in *. congruence.
Qed.

End FloatFacts.

(** ** Computations on [self] *)

Section Computations.

Lemma getitem_some {A : Type} (l : list A) (i : nat) (a : A) :
  nth_error l i = Some a -> getitem l i = Return a.
Proof. unfold getitem. now intros ->. Qed.

Lemma oblivious_ret {A : Type} (a : A) : oblivious (ret a).
Proof. intros s1 s2. auto. Qed.

Lemma oblivious_lift {A : Type} (o : outcome A) : oblivious (lift o).
Proof. intros s1 s2. auto. Qed.

Lemma oblivious_bind {A B : Type} (m : Self A) (k : A -> Self B) :
  oblivious m -> (forall a, oblivious (k a)) -> oblivious (bind m k).
Proof.
  intros Hm Hk s1 s2. unfold bind.
  destruct (Hm s1 s2) as (Hr & Hd & Hl).
  destruct (m s1) as [o1 t1], (m s2) as [o2 t2]; simpl in *; subst o2.
  destruct o1 as [a|e]; [|auto].
  destruct (Hk a t1 t2) as (Hr' & Hd' & Hl'). auto.
Qed.

Lemma oblivious_try {A : Type} (body handler : Self A) :
  oblivious body -> oblivious handler ->
  oblivious (try_except_index_attr body handler).
Proof.
  intros Hb Hh s1 s2. unfold try_except_index_attr.
  destruct (Hb s1 s2) as (Hr & Hd & Hl).
  destruct (body s1) as [o1 t1], (body s2) as [o2 t2]; simpl in *; subst o2.
  destruct (Hh t1 t2) as (Hr' & Hd' & Hl').
  destruct o1 as [a|[]]; simpl; auto.
Qed.

(** An assignment to one attribute of [debug_info]. *)
Lemma oblivious_modify (f : PoseDetector -> PoseDetector) :
  (forall s1 s2, debug_info s1 = debug_info s2 ->
                 debug_info (f s1) = debug_info (f s2)) ->
  (forall s1 s2, current_language s1 = current_language s2 ->
                 current_language (f s1) = current_language (f s2)) ->
  oblivious (modify f).
Proof. intros Hd Hl s1 s2. simpl. auto. Qed.

Lemma oblivious_set_debug_info (d : DebugInfo) :
  oblivious (set_debug_info d).
Proof. apply oblivious_modify; simpl; auto. Qed.

Lemma oblivious_set_current_language (l : string) :
  oblivious (set_current_language l).
Proof. apply oblivious_modify; simpl; auto. Qed.

Lemma oblivious_set_mouth_ratio (v : float) : oblivious (set_mouth_ratio v).
Proof. apply oblivious_modify; simpl; auto. now intros s1 s2 ->. Qed.

Lemma oblivious_set_hand_height (v : float) : oblivious (set_hand_height v).
Proof. apply oblivious_modify; simpl; auto. now intros s1 s2 ->. Qed.

Lemma oblivious_set_hands_detected (n : nat) :
  oblivious (set_hands_detected n).
Proof. apply oblivious_modify; simpl; auto. now intros s1 s2 ->. Qed.

Lemma oblivious_set_face_detected (b : bool) :
  oblivious (set_face_detected b).
Proof. apply oblivious_modify; simpl; auto. now intros s1 s2 ->. Qed.

End Computations.

Create HintDb oblivious.
#[local] Hint Resolve oblivious_ret oblivious_lift oblivious_try
  oblivious_set_debug_info oblivious_set_current_language
  oblivious_set_mouth_ratio
  oblivious_set_hand_height oblivious_set_hands_detected
  oblivious_set_face_detected : oblivious.

(** Splits a computation along its binds and branches. *)
Ltac oblivious_step :=
  match goal with
  | |- oblivious (bind _ _) => apply oblivious_bind; [|intros ?]
  | |- oblivious (if ?b then _ else _) => destruct b
  | |- oblivious (match ?o with _ => _ end) => destruct o
  | |- oblivious (try_except_index_attr _ _) => apply oblivious_try
  | |- oblivious _ => solve [auto with oblivious]
  end.

Section RuleFacts.
Variable cfg : AppConfig.

Lemma oblivious_raising_hand_loop nose_y hands :
  oblivious (raising_hand_loop cfg nose_y hands).
Proof.
  induction hands as [|hand rest IH]; simpl;
    repeat oblivious_step; exact IH.
Qed.

Lemma oblivious_is_raising_hand pose_results hand_results :
  oblivious (_is_raising_hand cfg pose_results hand_results).
Proof.
  pose proof oblivious_raising_hand_loop.
  unfold _is_raising_hand; repeat oblivious_step.
Qed.

Lemma oblivious_thinking_loop mouth_points hands :
  oblivious (thinking_loop cfg mouth_points hands).
Proof.
  induction hands as [|hand rest IH]; simpl;
    repeat oblivious_step; exact IH.
Qed.

Lemma oblivious_is_thinking pose_results hand_results face_results :
  oblivious (_is_thinking cfg pose_results hand_results face_results).
Proof.
  pose proof oblivious_thinking_loop.
  unfold _is_thinking, thinking_body; repeat oblivious_step.
Qed.

Lemma oblivious_is_shocking face_results :
  oblivious (_is_shocking cfg face_results).
Proof.
  unfold _is_shocking, shocking_body; repeat oblivious_step.
Qed.

Lemma oblivious_determine_pose pose_results hand_results face_results :
  oblivious (_determine_pose cfg pose_results hand_results face_results).
Proof.
  pose proof oblivious_is_raising_hand.
  pose proof oblivious_is_thinking.
  pose proof oblivious_is_shocking.
  unfold _determine_pose; repeat oblivious_step.
Qed.

Lemma oblivious_update_debug_info hand_results face_results :
  oblivious (update_debug_info hand_results face_results).
Proof.
  unfold update_debug_info; repeat oblivious_step.
Qed.

End RuleFacts.

(** ** The RaisingHand rule *)

Section RaisingHandFacts.
Variable cfg : AppConfig.
Let t := hand_raise_threshold (pose cfg).

(** One turn of the loop on a hand with a wrist. *)
Lemma raising_hand_loop_cons nose hand rest d self :
  height_diff nose hand = Some d ->
  raising_hand_loop cfg (y nose) (hand :: rest) self
  = if t <? d then (Return true, with_hand_height d self)
    else raising_hand_loop cfg (y nose) rest (with_hand_height d self).
Proof.
  unfold height_diff. intros Hd.
  destruct (nth_error (landmark hand) WRIST) as [wrist|] eqn:E;
    [|discriminate].
  injection Hd as <-.
  cbn [raising_hand_loop]. unfold bind at 1, lift.
  rewrite (getitem_some _ _ _ E). unfold bind at 1, set_hand_height, modify.
  fold t. destruct (t <? y nose - y wrist); reflexivity.
Qed.

(** The loop stops at the first raised hand, whatever follows it. *)
Lemma raising_hand_loop_fires nose pre hand post d self :
  Forall (not_raised t nose) pre ->
  height_diff nose hand = Some d -> (t <? d) = true ->
  raising_hand_loop cfg (y nose) (pre ++ hand :: post) self
  = (Return true, with_hand_height d self).
Proof.
  intros Hpre Hd Ht. revert self.
  induction Hpre as [|h pre (d' & Hd' & Ht') _ IH]; intros self.
  - simpl app. rewrite (raising_hand_loop_cons _ _ _ _ _ Hd), Ht.
    reflexivity.
  - simpl app. rewrite (raising_hand_loop_cons _ _ _ _ _ Hd'), Ht', IH.
    reflexivity.
Qed.

(** With no raised hand the loop ends after the last hand. *)
Lemma raising_hand_loop_ends nose init hand d self :
  Forall (not_raised t nose) init ->
  height_diff nose hand = Some d -> (t <? d) = false ->
  raising_hand_loop cfg (y nose) (init ++ [hand]) self
  = (Return false, with_hand_height d self).
Proof.
  intros Hinit Hd Ht. revert self.
  induction Hinit as [|h init (d' & Hd' & Ht') _ IH]; intros self.
  - simpl app. rewrite (raising_hand_loop_cons _ _ _ _ _ Hd), Ht.
    reflexivity.
  - simpl app. rewrite (raising_hand_loop_cons _ _ _ _ _ Hd'), Ht', IH.
    reflexivity.
Qed.

(** A hand without a wrist stops the loop with [IndexError]. *)
Lemma raising_hand_loop_raises nose hand rest self :
  height_diff nose hand = None ->
  raising_hand_loop cfg (y nose) (hand :: rest) self
  = (Raise IndexError, self).
Proof.
  unfold height_diff. intros Hd.
  destruct (nth_error (landmark hand) WRIST) as [wrist|] eqn:E;
    [discriminate|].
  cbn [raising_hand_loop]. unfold bind at 1, lift, getitem.
  rewrite E. reflexivity.
Qed.

(** Every hand has a wrist: the loop returns, and returns [True] exactly
    when some hand is raised. *)
Lemma raising_hand_loop_complete nose hands self :
  Forall (fun hand => height_diff nose hand <> None) hands ->
  exists b,
    fst (raising_hand_loop cfg (y nose) hands self) = Return b
    /\ (b = true <-> exists hand, In hand hands /\ raised t nose hand).
Proof.
  intros Hall. revert self.
  induction Hall as [|hand rest Hd _ IH]; intros self.
  - exists false. split; [reflexivity|].
    split; [discriminate|]. intros (hand & [] & _).
  - destruct (height_diff nose hand) as [d|] eqn:Ed; [|congruence].
    rewrite (raising_hand_loop_cons _ _ _ _ _ Ed).
    destruct (t <? d) eqn:Et.
    + exists true. split; [reflexivity|]. split; [|reflexivity].
      intros _. exists hand. split; [left; reflexivity|].
      exists d. auto.
    + destruct (IH (with_hand_height d self)) as (b & Hb & Hiff).
      exists b. split; [exact Hb|]. rewrite Hiff.
      split.
      * intros (h & Hin & Hr). exists h. split; [right|]; assumption.
      * intros (h & [<-|Hin] & Hr).
        -- destruct Hr as (d' & Hd' & Ht'). congruence.
        -- exists h. auto.
Qed.

(** The rule changes [hand_height] only. *)
Lemma raising_hand_loop_state nose_y hands self :
  exists v,
    snd (raising_hand_loop cfg nose_y hands self) = with_hand_height v self
    \/ snd (raising_hand_loop cfg nose_y hands self) = self.
Proof.
  revert self. induction hands as [|hand rest IH]; intros self.
  - exists 0. right. reflexivity.
  - simpl. unfold bind, lift, getitem.
    destruct (nth_error (landmark hand) WRIST) as [wrist|]; simpl.
    + destruct (_ <? _).
      * eexists. left. reflexivity.
      * destruct (IH (with_hand_height (nose_y - y wrist) self))
          as (v & [H|H]); rewrite H; eexists; left; reflexivity.
    + exists 0. right. reflexivity.
Qed.

Lemma is_raising_hand_state pose_results hand_results self :
  exists v,
    snd (_is_raising_hand cfg pose_results hand_results self)
    = with_hand_height v self
    \/ snd (_is_raising_hand cfg pose_results hand_results self) = self.
Proof.
  unfold _is_raising_hand.
  destruct pose_results as [[[body|]]|], hand_results as [[hands]|];
    simpl; try (exists 0; left; reflexivity).
  destruct (truthy hands); simpl; [|exists 0; left; reflexivity].
  unfold bind, lift, getitem.
  destruct (nth_error (landmark body) NOSE) as [nose|]; simpl.
  - apply raising_hand_loop_state.
  - exists 0. right. reflexivity.
Qed.

(** Body or hands absent: [hand_height] is zeroed and the rule does not
    fire. *)
Lemma is_raising_hand_absent pose_results hand_results self :
  no_body pose_results \/ no_hands hand_results ->
  _is_raising_hand cfg pose_results hand_results self
  = (Return false, with_hand_height 0 self).
Proof.
  unfold _is_raising_hand.
  destruct pose_results as [[[body|]]|], hand_results as [[hands]|];
    simpl; try reflexivity.
  intros [H|H]; [discriminate|]. subst hands. reflexivity.
Qed.

(** Body with a nose and a nonempty list of hands: the rule is the loop. *)
Lemma is_raising_hand_present body nose hands self :
  nth_error (landmark body) NOSE = Some nose -> hands <> [] ->
  _is_raising_hand cfg (Some {| pose_landmarks := Some body |})
                   (Some {| multi_hand_landmarks := hands |}) self
  = raising_hand_loop cfg (y nose) hands self.
Proof.
  intros Hnose Hne. unfold _is_raising_hand. simpl.
  destruct hands as [|hand rest]; [congruence|]. simpl truthy. cbv iota.
  unfold bind at 1, lift, getitem. rewrite Hnose. reflexivity.
Qed.

End RaisingHandFacts.

(** ** The Thinking rule *)

Section ThinkingFacts.
Variable cfg : AppConfig.
Let t := hand_to_face_threshold (pose cfg).

(** The distance of the code is the planar one: [z] is not read. *)
Lemma distance_euclid2 tip mouth_point :
  distance tip mouth_point
  = euclid2 (x tip) (y tip) (x mouth_point) (y mouth_point).
Proof. reflexivity. Qed.

Lemma mouth_points_loop_true tip mouth_points :
  mouth_points_loop cfg tip mouth_points = true
  <-> exists mouth_point,
        In mouth_point mouth_points
        /\ (euclid2 (x tip) (y tip) (x mouth_point) (y mouth_point) <? t)
           = true.
Proof.
  induction mouth_points as [|mp rest IH]; simpl.
  - split; [discriminate|]. intros (? & [] & _).
  - rewrite distance_euclid2. fold t.
    destruct (euclid2 _ _ _ _ <? t) eqn:E.
    + split; [|reflexivity]. intros _. exists mp. auto.
    + rewrite IH. split.
      * intros (q & Hin & Hq). exists q. auto.
      * intros (q & [<-|Hin] & Hq); [congruence|]. exists q. auto.
Qed.

Lemma finger_tips_loop_true tips mouth_points :
  finger_tips_loop cfg tips mouth_points = true
  <-> exists tip mouth_point,
        In tip tips /\ In mouth_point mouth_points
        /\ (euclid2 (x tip) (y tip) (x mouth_point) (y mouth_point) <? t)
           = true.
Proof.
  induction tips as [|tip rest IH]; simpl.
  - split; [discriminate|]. intros (? & ? & [] & _).
  - destruct (mouth_points_loop cfg tip mouth_points) eqn:E.
    + split; [|reflexivity]. intros _.
      apply mouth_points_loop_true in E as (q & Hin & Hq).
      exists tip, q. auto.
    + rewrite IH. split.
      * intros (p & q & Hp & Hq & H). exists p, q. auto.
      * intros (p & q & [<-|Hp] & Hq & H).
        -- assert (mouth_points_loop cfg tip mouth_points = true)
             by (apply mouth_points_loop_true; eauto).
           congruence.
        -- exists p, q. auto.
Qed.

Lemma finger_tips_loop_touches mouth_points hand tips :
  finger_tips_of hand = Some tips ->
  finger_tips_loop cfg tips mouth_points = true
  <-> touches t mouth_points hand.
Proof.
  intros Htips. rewrite finger_tips_loop_true. unfold touches. split.
  - intros (p & q & Hp & Hq & H). exists tips, p, q. auto.
  - intros (tips' & p & q & Htips' & Hp & Hq & H).
    assert (tips' = tips) as -> by congruence. eauto.
Qed.

Lemma finger_tips_loop_apart mouth_points hand tips :
  finger_tips_of hand = Some tips ->
  finger_tips_loop cfg tips mouth_points = false
  <-> apart t mouth_points hand.
Proof.
  intros Htips. split.
  - intros Hf. exists tips. split; [assumption|]. intros p q Hp Hq.
    destruct (euclid2 _ _ _ _ <? t) eqn:E; [|reflexivity].
    assert (finger_tips_loop cfg tips mouth_points = true)
      by (apply finger_tips_loop_true; eauto).
    congruence.
  - intros (tips' & Htips' & Hall).
    assert (tips' = tips) as -> by congruence.
    destruct (finger_tips_loop cfg tips mouth_points) eqn:E; [|reflexivity].
    apply finger_tips_loop_true in E as (p & q & Hp & Hq & H).
    rewrite (Hall p q Hp Hq) in H. discriminate.
Qed.

(** One turn of the loop over the hands. *)
Lemma thinking_loop_cons mouth_points hand rest tips self :
  finger_tips_of hand = Some tips ->
  thinking_loop cfg mouth_points (hand :: rest) self
  = if finger_tips_loop cfg tips mouth_points then (Return true, self)
    else thinking_loop cfg mouth_points rest self.
Proof.
  unfold finger_tips_of. intros Htips.
  destruct (nth_error (landmark hand) THUMB_TIP) as [thumb|] eqn:E1;
    [|discriminate].
  destruct (nth_error (landmark hand) INDEX_FINGER_TIP) as [index|] eqn:E2;
    [|discriminate].
  destruct (nth_error (landmark hand) MIDDLE_FINGER_TIP) as [middle|] eqn:E3;
    [|discriminate].
  injection Htips as <-.
  cbn [thinking_loop]. unfold bind, lift.
  rewrite (getitem_some _ _ _ E1), (getitem_some _ _ _ E2),
    (getitem_some _ _ _ E3).
  destruct (finger_tips_loop cfg [thumb; index; middle] mouth_points);
    reflexivity.
Qed.

(** A hand that lacks a fingertip stops the loop with [IndexError]. *)
Lemma thinking_loop_raises mouth_points hand rest self :
  finger_tips_of hand = None ->
  thinking_loop cfg mouth_points (hand :: rest) self
  = (Raise IndexError, self).
Proof.
  unfold finger_tips_of. intros Htips.
  cbn [thinking_loop]. unfold bind, lift, getitem.
  destruct (nth_error (landmark hand) THUMB_TIP); [|reflexivity].
  destruct (nth_error (landmark hand) INDEX_FINGER_TIP); [|reflexivity].
  destruct (nth_error (landmark hand) MIDDLE_FINGER_TIP);
    [discriminate|reflexivity].
Qed.


Lemma thinking_loop_ends mouth_points hands self :
  Forall (apart t mouth_points) hands ->
  thinking_loop cfg mouth_points hands self = (Return false, self).
Proof.
  induction 1 as [|h hands Hh _ IH]; [reflexivity|].
  pose proof Hh as (tips & Htips & _).
  rewrite (thinking_loop_cons _ _ _ _ _ Htips).
  apply (finger_tips_loop_apart _ _ _ Htips) in Hh. rewrite Hh.
  exact IH.
Qed.

(** The loop returns or raises [IndexError], and leaves [self] as it is. *)
Lemma thinking_loop_outcome mouth_points hands :
  (exists b, forall self,
      thinking_loop cfg mouth_points hands self = (Return b, self))
  \/ (forall self,
        thinking_loop cfg mouth_points hands self = (Raise IndexError, self)).
Proof.
  induction hands as [|hand rest IH].
  - left. exists false. reflexivity.
  - destruct (finger_tips_of hand) as [tips|] eqn:Htips.
    + destruct (finger_tips_loop cfg tips mouth_points) eqn:E.
      * left. exists true. intros self.
        rewrite (thinking_loop_cons _ _ _ _ _ Htips), E. reflexivity.
      * destruct IH as [(b & IH)|IH]; [left; exists b|right]; intros self;
          rewrite (thinking_loop_cons _ _ _ _ _ Htips), E; apply IH.
    + right. intros self. apply thinking_loop_raises, Htips.
Qed.

(** Every hand has its fingertips: the loop returns, and returns [True]
    exactly when some hand touches. *)
Lemma thinking_loop_complete mouth_points hands :
  Forall (fun hand => finger_tips_of hand <> None) hands ->
  exists b,
    (forall self,
        thinking_loop cfg mouth_points hands self = (Return b, self))
    /\ (b = true
        <-> exists hand,
              In hand hands
              /\ touches t mouth_points hand).
Proof.
  induction 1 as [|hand rest Hd _ (b & IH & Hiff)].
  - exists false. split; [reflexivity|].
    split; [discriminate|]. intros (hand & [] & _).
  - destruct (finger_tips_of hand) as [tips|] eqn:Htips; [|congruence].
    destruct (finger_tips_loop cfg tips mouth_points) eqn:E.
    + exists true. split.
      * intros self.
        rewrite (thinking_loop_cons _ _ _ _ _ Htips), E. reflexivity.
      * split; [|reflexivity]. intros _. exists hand.
        split; [left; reflexivity|].
        apply (finger_tips_loop_touches _ _ _ Htips), E.
    + exists b. split.
      * intros self.
        rewrite (thinking_loop_cons _ _ _ _ _ Htips), E. apply IH.
      * rewrite Hiff. split.
        -- intros (h & Hin & Hh). exists h. split; [right|]; assumption.
        -- intros (h & [<-|Hin] & Hh).
           ++ apply (finger_tips_loop_touches _ _ _ Htips) in Hh.
              congruence.
           ++ exists h. auto.
Qed.

(** The [try] body: the four mouth-region points, then the loop. *)
Lemma thinking_body_points hands face0 faces mouth_points self :
  mouth_points_of face0 = Some mouth_points ->
  thinking_body cfg {| multi_hand_landmarks := hands |}
                {| multi_face_landmarks := face0 :: faces |} self
  = thinking_loop cfg mouth_points hands self.
Proof.
  unfold mouth_points_of. intros Hm.
  destruct (nth_error (landmark face0) 13) as [p13|] eqn:E13;
    [|discriminate].
  destruct (nth_error (landmark face0) 14) as [p14|] eqn:E14;
    [|discriminate].
  destruct (nth_error (landmark face0) 152) as [p152|] eqn:E152;
    [|discriminate].
  destruct (nth_error (landmark face0) 0) as [p0|] eqn:E0;
    [|discriminate].
  injection Hm as <-.
  unfold thinking_body, bind, lift.
  cbn [multi_face_landmarks multi_hand_landmarks].
  change (getitem (face0 :: faces) 0) with (Return face0).
  cbv iota.
  rewrite (getitem_some _ _ _ E13), (getitem_some _ _ _ E14),
    (getitem_some _ _ _ E152), (getitem_some _ _ _ E0).
  reflexivity.
Qed.

Lemma thinking_body_no_points hands face0 faces self :
  mouth_points_of face0 = None ->
  thinking_body cfg {| multi_hand_landmarks := hands |}
                {| multi_face_landmarks := face0 :: faces |} self
  = (Raise IndexError, self).
Proof.
  unfold mouth_points_of. intros Hm.
  unfold thinking_body, bind, lift.
  cbn [multi_face_landmarks multi_hand_landmarks].
  change (getitem (face0 :: faces) 0) with (Return face0).
  cbv iota. unfold getitem.
  destruct (nth_error (landmark face0) 13); [|reflexivity].
  destruct (nth_error (landmark face0) 14); [|reflexivity].
  destruct (nth_error (landmark face0) 152); [|reflexivity].
  destruct (nth_error (landmark face0) 0); [discriminate|reflexivity].
Qed.

(** Face or hands absent: the rule does not fire and leaves [self]. *)
Lemma is_thinking_absent pose_results hand_results face_results self :
  no_faces face_results \/ no_hands hand_results ->
  _is_thinking cfg pose_results hand_results face_results self
  = (Return false, self).
Proof.
  unfold _is_thinking.
  destruct face_results as [[faces]|], hand_results as [[hands]|];
    simpl; try reflexivity.
  intros [->| ->]; [reflexivity|]. destruct (truthy faces); reflexivity.
Qed.

(** A face with its four points and some hand: the rule is the loop under
    the [try]. *)
Lemma is_thinking_present pose_results hand hands face0 faces mouth_points
      self :
  mouth_points_of face0 = Some mouth_points ->
  _is_thinking cfg pose_results
               (Some {| multi_hand_landmarks := hand :: hands |})
               (Some {| multi_face_landmarks := face0 :: faces |}) self
  = try_except_index_attr
      (thinking_loop cfg mouth_points (hand :: hands)) (ret false) self.
Proof.
  intros Hm. unfold _is_thinking.
  cbn [multi_face_landmarks multi_hand_landmarks truthy negb orb].
  unfold try_except_index_attr.
  rewrite (thinking_body_points _ _ _ _ _ Hm). reflexivity.
Qed.

(** The rule always returns, with a value that does not depend on [self],
    and sets no metric. *)
Lemma is_thinking_total pose_results hand_results face_results :
  exists b, forall self,
    _is_thinking cfg pose_results hand_results face_results self
    = (Return b, self).
Proof.
  destruct face_results as [[[|face0 faces]]|];
    try (exists false; intros self; apply is_thinking_absent;
         left; reflexivity).
  destruct hand_results as [[[|hand hands]]|];
    try (exists false; intros self; apply is_thinking_absent;
         right; reflexivity).
  unfold _is_thinking.
  cbn [multi_face_landmarks multi_hand_landmarks truthy negb orb].
  unfold try_except_index_attr.
  destruct (mouth_points_of face0) as [mouth_points|] eqn:Hm.
  - destruct (thinking_loop_outcome mouth_points (hand :: hands))
      as [(b & H)|H].
    + exists b. intros self.
      rewrite (thinking_body_points _ _ _ _ _ Hm), H. reflexivity.
    + exists false. intros self.
      rewrite (thinking_body_points _ _ _ _ _ Hm), H. reflexivity.
  - exists false. intros self.
    rewrite (thinking_body_no_points _ _ _ _ Hm). reflexivity.
Qed.

End ThinkingFacts.

(** ** The Shocking rule *)

Section ShockingFacts.
Variable cfg : AppConfig.
Let t := mouth_open_threshold (pose cfg).

(** No face: [mouth_ratio] is zeroed and the rule does not fire. *)
Lemma is_shocking_absent face_results self :
  no_faces face_results ->
  _is_shocking cfg face_results self
  = (Return false, with_mouth_ratio 0 self).
Proof.
  unfold _is_shocking.
  destruct face_results as [[faces]|]; simpl; [|reflexivity].
  intros ->. reflexivity.
Qed.

(** The guarded division never raises. *)
Lemma guarded_truediv (mouth_opening face_height : float)
      (self : PoseDetector) :
  (if 0 <? face_height
   then lift (truediv mouth_opening face_height)
   else ret 0 : Self float) self
  = (Return (if 0 <? face_height
             then mouth_opening / face_height else 0), self).
Proof.
  destruct (0 <? face_height) eqn:E; [|reflexivity].
  unfold lift, truediv. rewrite (pos_not_zero _ E). reflexivity.
Qed.

(** First face with its lips, forehead and chin: the ratio is stored and
    compared with the threshold. *)
Lemma is_shocking_points face0 faces upper_lip lower_lip forehead chin self :
  nth_error (landmark face0) 13 = Some upper_lip ->
  nth_error (landmark face0) 14 = Some lower_lip ->
  nth_error (landmark face0) 10 = Some forehead ->
  nth_error (landmark face0) 152 = Some chin ->
  let face_height := abs (y chin - y forehead) in
  let ratio := if 0 <? face_height
               then abs (y lower_lip - y upper_lip) / face_height
               else 0 in
  _is_shocking cfg (Some {| multi_face_landmarks := face0 :: faces |}) self
  = (Return (t <? ratio), with_mouth_ratio ratio self).
Proof.
  intros E13 E14 E10 E152 face_height ratio.
  unfold _is_shocking. cbn [multi_face_landmarks truthy negb].
  unfold try_except_index_attr, shocking_body.
  cbn [multi_face_landmarks].
  change (getitem (face0 :: faces) 0) with (Return face0).
  unfold bind at 1, lift at 1.
  unfold bind at 1, lift at 1. rewrite (getitem_some _ _ _ E13).
  unfold bind at 1, lift at 1. rewrite (getitem_some _ _ _ E14).
  unfold bind at 1, lift at 1. rewrite (getitem_some _ _ _ E10).
  unfold bind at 1, lift at 1. rewrite (getitem_some _ _ _ E152).
  unfold bind at 1. rewrite guarded_truediv.
  reflexivity.
Qed.

(** A first face that lacks one of the four points: [IndexError] is caught,
    [mouth_ratio] is zeroed and the rule does not fire. *)
Lemma is_shocking_partial face0 faces self :
  nth_error (landmark face0) 13 = None
  \/ nth_error (landmark face0) 14 = None
  \/ nth_error (landmark face0) 10 = None
  \/ nth_error (landmark face0) 152 = None ->
  _is_shocking cfg (Some {| multi_face_landmarks := face0 :: faces |}) self
  = (Return false, with_mouth_ratio 0 self).
Proof.
  intros H.
  unfold _is_shocking. cbn [multi_face_landmarks truthy negb].
  unfold try_except_index_attr, shocking_body.
  cbn [multi_face_landmarks].
  change (getitem (face0 :: faces) 0) with (Return face0).
  unfold bind at 1, lift at 1.
  unfold bind at 1, lift at 1, getitem at 1.
  destruct (nth_error (landmark face0) 13); [|reflexivity].
  unfold bind at 1, lift at 1, getitem at 1.
  destruct (nth_error (landmark face0) 14); [|reflexivity].
  unfold bind at 1, lift at 1, getitem at 1.
  destruct (nth_error (landmark face0) 10); [|reflexivity].
  unfold bind at 1, lift at 1, getitem at 1.
  destruct (nth_error (landmark face0) 152); [|reflexivity].
  destruct H as [H|[H|[H|H]]]; discriminate.
Qed.

(** The rule always returns and changes [mouth_ratio] only, to zero or to
    the lip opening over a positive face height. *)
Lemma is_shocking_total face_results :
  exists b v,
    (forall self,
        _is_shocking cfg face_results self
        = (Return b, with_mouth_ratio v self))
    /\ ratio_of face_results v.
Proof.
  destruct face_results as [[[|face0 faces]]|];
    try (exists false, 0; split; [|left; reflexivity];
         intros self; apply is_shocking_absent; reflexivity).
  destruct (nth_error (landmark face0) 13) as [p13|] eqn:E13;
    [|exists false, 0; split; [|left; reflexivity];
      intros self; apply is_shocking_partial; auto].
  destruct (nth_error (landmark face0) 14) as [p14|] eqn:E14;
    [|exists false, 0; split; [|left; reflexivity];
      intros self; apply is_shocking_partial; auto].
  destruct (nth_error (landmark face0) 10) as [p10|] eqn:E10;
    [|exists false, 0; split; [|left; reflexivity];
      intros self; apply is_shocking_partial; auto].
  destruct (nth_error (landmark face0) 152) as [p152|] eqn:E152;
    [|exists false, 0; split; [|left; reflexivity];
      intros self; apply is_shocking_partial; auto 6].
  eexists _, _. split.
  - intros self. apply (is_shocking_points _ _ _ _ _ _ _ E13 E14 E10 E152).
  - destruct (0 <? abs (y p152 - y p10)) eqn:E; [right|left; reflexivity].
    exists (y p14 - y p13), (abs (y p152 - y p10)).
    split; [|split; [exact E|reflexivity]].
    exists face0, faces, p13, p14, p10, p152. auto 10.
Qed.

End ShockingFacts.

(** ** The priority chain *)

Section DeterminePoseFacts.
Variable cfg : AppConfig.
Variable pose_results : option PoseSolution.
Variable hand_results : option HandsSolution.
Variable face_results : option FaceMeshSolution.

Lemma determine_pose_raising self s' :
  _is_raising_hand cfg pose_results hand_results self = (Return true, s') ->
  _determine_pose cfg pose_results hand_results face_results self
  = (Return "raising_hand", s').
Proof. intros H. unfold _determine_pose, bind. rewrite H. reflexivity. Qed.

Lemma determine_pose_raises self s' e :
  _is_raising_hand cfg pose_results hand_results self = (Raise e, s') ->
  _determine_pose cfg pose_results hand_results face_results self
  = (Raise e, s').
Proof. intros H. unfold _determine_pose, bind. rewrite H. reflexivity. Qed.

Lemma determine_pose_thinking self s' :
  _is_raising_hand cfg pose_results hand_results self = (Return false, s') ->
  fst (_is_thinking cfg pose_results hand_results face_results s')
  = Return true ->
  _determine_pose cfg pose_results hand_results face_results self
  = (Return "thinking", s').
Proof.
  intros H1 H2. unfold _determine_pose, bind. rewrite H1.
  destruct (is_thinking_total cfg pose_results hand_results face_results)
    as (b & Hb).
  rewrite Hb in H2 |- *. simpl in H2. injection H2 as ->. reflexivity.
Qed.

Lemma determine_pose_face self s' :
  _is_raising_hand cfg pose_results hand_results self = (Return false, s') ->
  fst (_is_thinking cfg pose_results hand_results face_results s')
  = Return false ->
  exists b v,
    _is_shocking cfg face_results s' = (Return b, with_mouth_ratio v s')
    /\ _determine_pose cfg pose_results hand_results face_results self
       = (Return (if b then "shocking" else "default"),
          with_mouth_ratio v s').
Proof.
  intros H1 H2.
  destruct (is_thinking_total cfg pose_results hand_results face_results)
    as (b' & Hb').
  destruct (is_shocking_total cfg face_results) as (b & v & Hs & _).
  exists b, v. split; [apply Hs|].
  unfold _determine_pose, bind. rewrite H1.
  rewrite Hb' in H2 |- *. simpl in H2. injection H2 as ->.
  rewrite Hs. destruct b; reflexivity.
Qed.

End DeterminePoseFacts.

(** ** Classification *)

Section ClassifyFacts.
Variable cfg : AppConfig.

Lemma update_debug_info_returns hand_results face_results self :
  update_debug_info hand_results face_results self
  = (Return tt, snd (update_debug_info hand_results face_results self)).
Proof.
  unfold update_debug_info, bind.
  destruct face_results as [[faces]|], hand_results as [[hands]|]; simpl;
    try destruct (truthy faces); try destruct (truthy hands); reflexivity.
Qed.

(** Classification is the priority chain run on the reset metrics. *)
Lemma classify_unfold pose_results hand_results face_results self :
  classify cfg pose_results hand_results face_results self
  = _determine_pose cfg pose_results hand_results face_results
                    (counted hand_results face_results self).
Proof.
  unfold classify, counted.
  unfold bind at 1, set_debug_info, modify.
  unfold bind at 1. rewrite update_debug_info_returns. reflexivity.
Qed.

Lemma counted_debug_info hand_results face_results self :
  debug_info (counted hand_results face_results self)
  = {| mouth_ratio := 0; hand_height := 0;
       hands_detected :=
         match hand_results with
         | Some r => List.length (multi_hand_landmarks r)
         | None => 0
         end;
       face_detected :=
         match face_results with
         | Some r => truthy (multi_face_landmarks r)
         | None => false
         end |}.
Proof.
  unfold counted, update_debug_info, bind.
  destruct face_results as [[[|face0 faces]]|],
           hand_results as [[[|hand hands]]|]; reflexivity.
Qed.

Lemma counted_current_language hand_results face_results self :
  current_language (counted hand_results face_results self)
  = current_language self.
Proof.
  unfold counted, update_debug_info, bind.
  destruct face_results as [[[|face0 faces]]|],
           hand_results as [[[|hand hands]]|]; reflexivity.
Qed.

(** After the RaisingHand rule only [mouth_ratio] may still change, to one
    of the values of the Shocking rule. *)
Lemma determine_pose_state pose_results hand_results face_results self :
  let s' := snd (_is_raising_hand cfg pose_results hand_results self) in
  let s := snd (_determine_pose cfg pose_results hand_results face_results
                                self) in
  s = s' \/ exists v, s = with_mouth_ratio v s' /\ ratio_of face_results v.
Proof.
  destruct (_is_raising_hand cfg pose_results hand_results self)
    as [[[|]|e] s'] eqn:E; cbv zeta; cbn [snd].
  - rewrite (determine_pose_raising _ _ _ _ _ _ E). left. reflexivity.
  - destruct (is_thinking_total cfg pose_results hand_results face_results)
      as ([|] & Hb).
    + rewrite (determine_pose_thinking _ _ _ face_results _ _ E);
        [left; reflexivity|]. rewrite Hb. reflexivity.
    + destruct (is_shocking_total cfg face_results) as (b & v & Hs & Hv).
      right. exists v. split; [|exact Hv].
      unfold _determine_pose, bind. rewrite E, Hb, Hs.
      destruct b; reflexivity.
  - rewrite (determine_pose_raises _ _ _ _ _ _ _ E). left. reflexivity.
Qed.

(** The chain returns one of the four labels unless the RaisingHand rule
    raises. *)
Lemma determine_pose_outcome pose_results hand_results face_results self :
  match fst (_is_raising_hand cfg pose_results hand_results self) with
  | Return _ =>
      exists name,
        fst (_determine_pose cfg pose_results hand_results face_results
                             self) = Return name
        /\ In name pose_names
  | Raise e =>
      fst (_determine_pose cfg pose_results hand_results face_results self)
      = Raise e
  end.
Proof.
  destruct (_is_raising_hand cfg pose_results hand_results self)
    as [[[|]|e] s'] eqn:E; cbn [fst].
  - rewrite (determine_pose_raising _ _ _ _ _ _ E).
    exists "raising_hand". simpl. auto.
  - destruct (is_thinking_total cfg pose_results hand_results face_results)
      as ([|] & Hb).
    + rewrite (determine_pose_thinking _ _ _ face_results _ _ E);
        [|rewrite Hb; reflexivity].
      exists "thinking". simpl. auto.
    + destruct (is_shocking_total cfg face_results) as (b & v & Hs & _).
      unfold _determine_pose, bind. rewrite E, Hb, Hs.
      destruct b; simpl; eauto 7.
  - rewrite (determine_pose_raises _ _ _ _ _ _ _ E). reflexivity.
Qed.

End ClassifyFacts.

(** Classification returns one of the four labels, or raises the
    [IndexError] of the RaisingHand rule. *)
Lemma classify_outcome (cfg : AppConfig)
      (pose_results : option PoseSolution)
      (hand_results : option HandsSolution)
      (face_results : option FaceMeshSolution) (self : PoseDetector) :
  (exists name,
      fst (classify cfg pose_results hand_results face_results self)
      = Return name /\ In name pose_names)
  \/ fst (classify cfg pose_results hand_results face_results self)
     = Raise IndexError.
Proof.
  rewrite classify_unfold.
  set (s0 := counted hand_results face_results self).
  pose proof (determine_pose_outcome cfg pose_results hand_results
                                     face_results s0) as H.
  destruct (_is_raising_hand cfg pose_results hand_results s0)
    as [[b|e] s'] eqn:E; cbn [fst] in H; [left; exact H|right].
  rewrite H. f_equal.
  revert E. unfold _is_raising_hand.
  destruct pose_results as [[[body|]]|], hand_results as [[hands]|];
    try discriminate.
  cbn [pose_landmarks multi_hand_landmarks].
  destruct (truthy hands); [|discriminate]. cbn [negb].
  unfold bind at 1, lift at 1, getitem at 1.
  destruct (nth_error (landmark body) NOSE) as [nose|];
    [|now intros [= <-]].
  generalize s0. clear.
  induction hands as [|hand rest IH]; intros s; [discriminate|].
  cbn [raising_hand_loop]. unfold bind at 1, lift at 1, getitem at 1.
  destruct (nth_error (landmark hand) WRIST) as [wrist|];
    [|now intros [= <-]].
  unfold bind at 1, set_hand_height, modify.
  destruct (_ <? _); [discriminate|]. apply IH.
Qed.

(** With the nose and every wrist in place classification returns one of
    the four labels. *)
Lemma classify_total_on_complete (cfg : AppConfig)
      (pose_results : option PoseSolution)
      (hand_results : option HandsSolution)
      (face_results : option FaceMeshSolution) (self : PoseDetector) :
  (forall r body, pose_results = Some r -> pose_landmarks r = Some body ->
                  nth_error (landmark body) NOSE <> None) ->
  (forall r, hand_results = Some r ->
             Forall (fun hand => nth_error (landmark hand) WRIST <> None)
                    (multi_hand_landmarks r)) ->
  exists name,
    fst (classify cfg pose_results hand_results face_results self)
    = Return name /\ In name pose_names.
Proof.
  intros Hbody Hhands.
  rewrite classify_unfold.
  set (s0 := counted hand_results face_results self).
  pose proof (determine_pose_outcome cfg pose_results hand_results
                                     face_results s0) as H.
  destruct (fst (_is_raising_hand cfg pose_results hand_results s0))
    as [b|e] eqn:E; [exact H|exfalso].
  destruct pose_results as [[[body|]]|], hand_results as [[hands]|];
    try discriminate.
  destruct hands as [|hand rest]; [discriminate|].
  destruct (nth_error (landmark body) NOSE) as [nose|] eqn:Hnose;
    [|exact (Hbody _ _ eq_refl eq_refl Hnose)].
  rewrite (is_raising_hand_present cfg body nose (hand :: rest) s0 Hnose)
    in E by discriminate.
  assert (Forall (fun h => height_diff nose h <> None) (hand :: rest))
    as Hall.
  { eapply Forall_impl; [|exact (Hhands _ eq_refl)].
    intros h Hh. unfold height_diff.
    destruct (nth_error (landmark h) WRIST) eqn:Ew; [discriminate|].
    intros _. exact (Hh Ew). }
  destruct (raising_hand_loop_complete cfg nose (hand :: rest) s0 Hall)
    as (b & Hb & _).
  congruence.
Qed.

(** After classification [mouth_ratio] is the reset value or a value of the
    Shocking rule. *)
Lemma classify_mouth_ratio (cfg : AppConfig)
      (pose_results : option PoseSolution)
      (hand_results : option HandsSolution)
      (face_results : option FaceMeshSolution) (self : PoseDetector) :
  ratio_of face_results
    (mouth_ratio
       (debug_info
          (snd (classify cfg pose_results hand_results face_results self)))).
Proof.
  rewrite classify_unfold.
  set (s0 := counted hand_results face_results self).
  assert (mouth_ratio (debug_info s0) = 0) as H0
      by (subst s0; rewrite counted_debug_info; reflexivity).
  assert (mouth_ratio
            (debug_info
               (snd (_is_raising_hand cfg pose_results hand_results s0)))
          = 0) as H1.
  { destruct (is_raising_hand_state cfg pose_results hand_results s0)
      as (v & [-> | ->]); exact H0. }
  destruct (determine_pose_state cfg pose_results hand_results face_results
                                 s0) as [-> | (v & -> & Hv)].
  - left. exact H1.
  - exact Hv.
Qed.

(** ** Scenarios *)

(** * Properties of the classifier *)

(** C1.  The rules are tried in the order RaisingHand, Thinking, Shocking,
    Default and the first one that fires gives the label: when the
    RaisingHand rule fires the label is "raising_hand", whatever the Thinking
    and Shocking rules would answer; when it does not fire and the Thinking
    rule fires the label is "thinking", whatever the Shocking rule would
    answer; then "shocking" if that rule fires, and "default" otherwise.
    Whether a rule fires does not depend on the detector object it is
    asked on ([s1], [s2], [s3]). *)
Theorem determine_pose_priority (cfg : AppConfig)
        (pose_results : option PoseSolution)
        (hand_results : option HandsSolution)
        (face_results : option FaceMeshSolution)
        (self s1 s2 s3 : PoseDetector) :
  let raising := fst (_is_raising_hand cfg pose_results hand_results s1) in
  let thinking :=
    fst (_is_thinking cfg pose_results hand_results face_results s2) in
  let shocking := fst (_is_shocking cfg face_results s3) in
  let label :=
    fst (_determine_pose cfg pose_results hand_results face_results self) in
  (raising = Return true -> label = Return "raising_hand")
  /\ (raising = Return false -> thinking = Return true ->
      label = Return "thinking")
  /\ (raising = Return false -> thinking = Return false ->
      shocking = Return true -> label = Return "shocking")
  /\ (raising = Return false -> thinking = Return false ->
      shocking = Return false -> label = Return "default").
Proof.
  cbv zeta.
  destruct (oblivious_is_raising_hand cfg pose_results hand_results s1 self)
    as (-> & _).
  destruct (_is_raising_hand cfg pose_results hand_results self)
    as [raising s'] eqn:E. cbn [fst].
  destruct (oblivious_is_thinking cfg pose_results hand_results face_results
                                  s2 s') as (-> & _).
  destruct (oblivious_is_shocking cfg face_results s3 s') as (-> & _).
  split; [|split; [|split]].
  - intros ->. now rewrite (determine_pose_raising _ _ _ _ _ _ E).
  - intros -> H. now rewrite (determine_pose_thinking _ _ _ _ _ _ E H).
  - intros -> H1 H2.
    destruct (determine_pose_face _ _ _ _ _ _ E H1) as (b & v & Hs & ->).
    rewrite Hs in H2. injection H2 as ->. reflexivity.
  - intros -> H1 H2.
    destruct (determine_pose_face _ _ _ _ _ _ E H1) as (b & v & Hs & ->).
    rewrite Hs in H2. injection H2 as ->. reflexivity.
Qed.

(** C2.  With a body (its nose present) and at least one hand, and every hand
    having a wrist, the RaisingHand rule fires exactly when some hand has
    [height_diff = nose_y - wrist_y] strictly greater than the threshold; a
    hand whose [height_diff] equals the threshold does not make it fire; and
    at the first hand above the threshold the rule returns at once: the
    hands after it are not read (they may even lack a wrist), and the label
    is "raising_hand" with the detector as the rule left it, the Thinking and
    Shocking rules not run. *)
Theorem raising_hand_strict (cfg : AppConfig) (body : NormalizedLandmarkList)
        (nose : Landmark) (hands : list NormalizedLandmarkList)
        (self : PoseDetector) :
  nth_error (landmark body) NOSE = Some nose ->
  hands <> [] ->
  let t := hand_raise_threshold (pose cfg) in
  let pose_results := Some {| pose_landmarks := Some body |} in
  let hand_results := Some {| multi_hand_landmarks := hands |} in
  (Forall (fun hand => height_diff nose hand <> None) hands ->
   exists b,
     fst (_is_raising_hand cfg pose_results hand_results self) = Return b
     /\ (b = true <-> exists hand, In hand hands /\ raised t nose hand))
  /\ (Forall (fun hand => exists d, height_diff nose hand = Some d
                                    /\ (d =? t) = true) hands ->
      fst (_is_raising_hand cfg pose_results hand_results self)
      = Return false)
  /\ (forall pre hand post d face_results,
         hands = pre ++ hand :: post ->
         Forall (not_raised t nose) pre ->
         height_diff nose hand = Some d -> (t <? d) = true ->
         _is_raising_hand cfg pose_results hand_results self
         = (Return true, with_hand_height d self)
         /\ _determine_pose cfg pose_results hand_results face_results self
            = (Return "raising_hand", with_hand_height d self)).
Proof.
  intros Hnose Hne t pose_results hand_results.
  subst pose_results hand_results.
  rewrite (is_raising_hand_present cfg _ _ _ self Hnose Hne).
  split; [|split].
  - apply raising_hand_loop_complete.
  - intros Hall.
    destruct (raising_hand_loop_complete cfg nose hands self)
      as (b & Hb & Hiff).
    { eapply Forall_impl; [|exact Hall].
      intros h (d & -> & _). discriminate. }
    rewrite Hb. destruct b; [|reflexivity].
    destruct (proj1 Hiff eq_refl) as (h & Hin & d & Hd & Ht).
    rewrite Forall_forall in Hall.
    destruct (Hall h Hin) as (d' & Hd' & He).
    assert (d' = d) as -> by congruence.
    apply eqb_not_ltb in He. fold t in Ht. congruence.
  - intros pre hand post d face_results -> Hpre Hd Ht.
    assert (_is_raising_hand cfg (Some {| pose_landmarks := Some body |})
              (Some {| multi_hand_landmarks := pre ++ hand :: post |}) self
            = (Return true, with_hand_height d self)) as E.
    { rewrite (is_raising_hand_present cfg _ _ _ self Hnose Hne).
      apply raising_hand_loop_fires; assumption. }
    split.
    + rewrite <- E. symmetry.
      apply (is_raising_hand_present cfg _ _ _ self Hnose Hne).
    + apply determine_pose_raising, E.
Qed.

(** C5.  [hand_height] is the value of one hand, not a maximum: when the
    rule fires it is [nose_y - wrist_y] of the hand at which it fired; when
    no hand is above the threshold it is that of the last hand, each hand
    having overwritten the one before; when the body or the hands are absent
    it is 0.0 and the rule does not fire.  The later rules leave it as the
    RaisingHand rule set it, so this is its value after classification. *)
Theorem hand_height_last_evaluated (cfg : AppConfig)
        (pose_results : option PoseSolution)
        (hand_results : option HandsSolution)
        (face_results : option FaceMeshSolution) (self : PoseDetector) :
  let t := hand_raise_threshold (pose cfg) in
  let final :=
    classify cfg pose_results hand_results face_results self in
  (forall body nose pre hand post d,
      pose_results = Some {| pose_landmarks := Some body |} ->
      nth_error (landmark body) NOSE = Some nose ->
      hand_results = Some {| multi_hand_landmarks := pre ++ hand :: post |} ->
      Forall (not_raised t nose) pre ->
      height_diff nose hand = Some d -> (t <? d) = true ->
      fst (_is_raising_hand cfg pose_results hand_results self)
      = Return true
      /\ fst final = Return "raising_hand"
      /\ hand_height (debug_info (snd final)) = d)
  /\ (forall body nose init hand d,
         pose_results = Some {| pose_landmarks := Some body |} ->
         nth_error (landmark body) NOSE = Some nose ->
         hand_results = Some {| multi_hand_landmarks := init ++ [hand] |} ->
         Forall (not_raised t nose) init ->
         height_diff nose hand = Some d -> (t <? d) = false ->
         fst (_is_raising_hand cfg pose_results hand_results self)
         = Return false
         /\ fst final <> Return "raising_hand"
         /\ hand_height (debug_info (snd final)) = d)
  /\ (no_body pose_results \/ no_hands hand_results ->
      fst (_is_raising_hand cfg pose_results hand_results self)
      = Return false
      /\ fst final <> Return "raising_hand"
      /\ hand_height (debug_info (snd final)) = 0).
Proof.
  cbv zeta. rewrite classify_unfold.
  set (s0 := counted hand_results face_results self).
  assert (forall d,
             _is_raising_hand cfg pose_results hand_results s0
             = (Return false, with_hand_height d s0) ->
             fst (_determine_pose cfg pose_results hand_results face_results
                                  s0) <> Return "raising_hand"
             /\ hand_height
                  (debug_info
                     (snd (_determine_pose cfg pose_results hand_results
                                           face_results s0))) = d)
    as Hnot.
  { intros d E.
    pose proof (determine_pose_state cfg pose_results hand_results
                                     face_results s0) as Hs.
    cbv zeta in Hs. rewrite E in Hs. cbn [snd] in Hs.
    split.
    - destruct (is_thinking_total cfg pose_results hand_results
                                  face_results) as ([|] & Hb).
      + rewrite (determine_pose_thinking _ _ _ face_results _ _ E);
          [discriminate|]. rewrite Hb. reflexivity.
      + destruct (determine_pose_face cfg pose_results hand_results
                    face_results _ _ E) as (b & v & _ & ->).
        * rewrite Hb. reflexivity.
        * destruct b; discriminate.
    - destruct Hs as [->|(v & -> & _)]; reflexivity. }
  split; [|split].
  - intros body nose pre hand post d -> Hnose -> Hpre Hd Ht.
    assert (pre ++ hand :: post <> []) as Hne
        by (destruct pre; discriminate).
    split.
    { rewrite (is_raising_hand_present cfg _ _ _ self Hnose Hne).
      rewrite (raising_hand_loop_fires cfg _ _ _ _ _ self Hpre Hd Ht).
      reflexivity. }
    rewrite (determine_pose_raising _ _ _ _ s0 (with_hand_height d s0)).
    + split; reflexivity.
    + rewrite (is_raising_hand_present cfg _ _ _ s0 Hnose Hne).
      apply raising_hand_loop_fires; assumption.
  - intros body nose init hand d -> Hnose -> Hinit Hd Ht.
    assert (init ++ [hand] <> []) as Hne by (destruct init; discriminate).
    split.
    { rewrite (is_raising_hand_present cfg _ _ _ self Hnose Hne).
      rewrite (raising_hand_loop_ends cfg _ _ _ _ self Hinit Hd Ht).
      reflexivity. }
    apply Hnot.
    rewrite (is_raising_hand_present cfg _ _ _ s0 Hnose Hne).
    apply raising_hand_loop_ends; assumption.
  - intros Habs. split.
    { rewrite (is_raising_hand_absent cfg _ _ self Habs). reflexivity. }
    apply Hnot. apply is_raising_hand_absent, Habs.
Qed.

(** C3.  On a first face with its lips, forehead and chin, the Shocking rule
    stores [mouth_ratio = |lower_lip_y - upper_lip_y| / |chin_y -
    forehead_y|] when the face height is positive; when [forehead_y ==
    chin_y] it stores exactly 0.0 and, the threshold not being negative (it
    is 0.15), does not fire whatever the lips are; and it fires exactly when
    the stored [mouth_ratio] is strictly greater than
    [mouth_open_threshold]. *)
Theorem shocking_rule (cfg : AppConfig)
        (face0 : NormalizedLandmarkList)
        (faces : list NormalizedLandmarkList)
        (upper_lip lower_lip forehead chin : Landmark)
        (self : PoseDetector) :
  nth_error (landmark face0) 13 = Some upper_lip ->
  nth_error (landmark face0) 14 = Some lower_lip ->
  nth_error (landmark face0) 10 = Some forehead ->
  nth_error (landmark face0) 152 = Some chin ->
  let t := mouth_open_threshold (pose cfg) in
  let final :=
    _is_shocking cfg (Some {| multi_face_landmarks := face0 :: faces |})
                 self in
  let ratio := mouth_ratio (debug_info (snd final)) in
  ((0 <? abs (y chin - y forehead)) = true ->
   ratio = abs (y lower_lip - y upper_lip) / abs (y chin - y forehead))
  /\ ((y forehead =? y chin) = true ->
      ratio = 0 /\ ((t <? 0) = false -> fst final = Return false))
  /\ (exists b, fst final = Return b /\ (b = true <-> (t <? ratio) = true)).
Proof.
  intros E13 E14 E10 E152. cbv zeta.
  rewrite (is_shocking_points cfg _ faces _ _ _ _ self E13 E14 E10 E152).
  cbn [fst snd with_mouth_ratio with_debug_info debug_info mouth_ratio].
  split; [|split].
  - intros ->. reflexivity.
  - intros He. rewrite (eqb_abs_sub_not_pos _ _ He).
    split; [reflexivity|]. intros ->. reflexivity.
  - eexists. split; [reflexivity|]. reflexivity.
Qed.

(** Forehead and chin at one height with the lips 0.30 apart: the ratio is
    0.0 and the rule does not fire.  The open mouth of the specification's
    scenario: 0.10 / 0.50 in binary64, above 0.15. *)
Lemma shocking_rule_witness :
  (mouth_ratio
     (debug_info (snd (_is_shocking CONFIG (some_faces [flat_face]) stale)))
   = 0
   /\ fst (_is_shocking CONFIG (some_faces [flat_face]) stale)
      = Return false)
  /\ mouth_ratio
       (debug_info (snd (_is_shocking CONFIG (some_faces [open_face]) stale)))
     = abs (0.40 - 0.30) / abs (0.60 - 0.10).
Proof.
  split.
  - destruct (proj1 (proj2 (shocking_rule CONFIG flat_face []
                              (lm 0.5 0.30) (lm 0.5 0.60) (lm 0.5 0.30)
                              (lm 0.5 0.30) stale
                              eq_refl eq_refl eq_refl eq_refl)) eq_refl)
      as [H1 H2].
    split; [exact H1|exact (H2 eq_refl)].
  - exact (proj1 (shocking_rule CONFIG open_face []
                    (lm 0.5 0.30) (lm 0.5 0.40) (lm 0.5 0.10)
                    (lm 0.5 0.60) stale
                    eq_refl eq_refl eq_refl eq_refl) eq_refl).
Defined.


(** C6.  On the empty snapshot (no body, no hands, no faces, each either
    missing or empty) classification returns "default" with
    [face_detected = False], [hands_detected = 0], [mouth_ratio = 0.0] and
    [hand_height = 0.0], whatever the detector held before. *)
Theorem empty_snapshot_default (cfg : AppConfig)
        (pose_results : option PoseSolution)
        (hand_results : option HandsSolution)
        (face_results : option FaceMeshSolution)
        (language : string) (self : PoseDetector) :
  no_body pose_results -> no_hands hand_results -> no_faces face_results ->
  let zeroed := {| mouth_ratio := 0.0; hand_height := 0.0;
                   hands_detected := 0; face_detected := false |} in
  classify cfg pose_results hand_results face_results self
  = (Return "default", with_debug_info zeroed self)
  /\ detect_pose cfg (frame_of pose_results hand_results face_results)
                 language self
     = (Return "default",
        {| debug_info := zeroed; current_language := language |}).
Proof.
  intros Hb Hh Hf.
  destruct pose_results as [[[body|]]|]; try discriminate Hb;
    destruct hand_results as [[hands]|]; simpl in Hh; subst;
    destruct face_results as [[faces]|]; simpl in Hf; subst;
    split; reflexivity.
Qed.

(** C7.  Classification is not total.  A hand whose landmark list is empty
    makes [hand_landmarks.landmark[WRIST]] raise [IndexError] in
    [_is_raising_hand], which has no handler, and neither [_determine_pose]
    nor [detect_pose] catches it; so does a body whose landmark list is
    empty.  The same face-side absence is caught by the handlers of
    [_is_shocking] and [_is_thinking]. *)
Theorem classify_partial_hand_raises :
  fst (classify CONFIG (some_pose nose0) (some_hands [bare_hand]) None stale)
  = Raise IndexError
  /\ fst (detect_pose CONFIG
            (frame_of (some_pose nose0) (some_hands [bare_hand]) None)
            "id" stale) = Raise IndexError
  /\ fst (classify CONFIG
            (Some {| pose_landmarks := Some {| landmark := [] |} |})
            (some_hands [low_hand]) None stale) = Raise IndexError
  /\ fst (classify CONFIG None (some_hands [bare_hand])
                   (some_faces [bare_hand]) stale) = Return "default".
Proof. split; [|split; [|split]]; vm_compute; reflexivity. Qed.

(** C8.  Classification depends on the snapshot and the thresholds only:
    from any two detector objects it gives the same label (or exception) and
    the same metrics, and [detect_pose] on a frame whose conversion and
    detections succeed leaves the same detector object; in particular a
    second call on the same frame repeats the first. *)
Theorem classify_deterministic (cfg : AppConfig)
        (pose_results : option PoseSolution)
        (hand_results : option HandsSolution)
        (face_results : option FaceMeshSolution)
        (language : string) (s1 s2 : PoseDetector) :
  let frame := frame_of pose_results hand_results face_results in
  (fst (classify cfg pose_results hand_results face_results s1)
   = fst (classify cfg pose_results hand_results face_results s2)
   /\ debug_info
        (snd (classify cfg pose_results hand_results face_results s1))
      = debug_info
          (snd (classify cfg pose_results hand_results face_results s2)))
  /\ detect_pose cfg frame language s1 = detect_pose cfg frame language s2
  /\ detect_pose cfg frame language
                 (snd (detect_pose cfg frame language s1))
     = detect_pose cfg frame language s1.
Proof.
  cbv zeta.
  assert (forall a b,
             current_language a = current_language b ->
             fst (classify cfg pose_results hand_results face_results a)
             = fst (classify cfg pose_results hand_results face_results b)
             /\ debug_info
                  (snd (classify cfg pose_results hand_results
                                 face_results a))
                = debug_info
                    (snd (classify cfg pose_results hand_results
                                   face_results b))
             /\ current_language
                  (snd (classify cfg pose_results hand_results
                                 face_results a))
                = current_language
                    (snd (classify cfg pose_results hand_results
                                   face_results b))) as Hcl.
  { intros a b Hl. rewrite !classify_unfold.
    destruct (oblivious_determine_pose cfg pose_results hand_results
                face_results
                (counted hand_results face_results a)
                (counted hand_results face_results b)) as (Hr & Hd & Hlang).
    split; [exact Hr|]. split.
    - apply Hd. rewrite !counted_debug_info. reflexivity.
    - apply Hlang. rewrite !counted_current_language. exact Hl. }
  assert (forall a b,
             detect_pose cfg
               (frame_of pose_results hand_results face_results) language a
             = detect_pose cfg
                 (frame_of pose_results hand_results face_results)
                 language b) as Hdp.
  { intros a b.
    change (classify cfg pose_results hand_results face_results
                     (with_current_language language a)
            = classify cfg pose_results hand_results face_results
                       (with_current_language language b)).
    destruct (Hcl (with_current_language language a)
                  (with_current_language language b) eq_refl)
      as (Hr & Hd & Hl).
    destruct (classify cfg pose_results hand_results face_results
                       (with_current_language language a)) as [o1 [d1 l1]].
    destruct (classify cfg pose_results hand_results face_results
                       (with_current_language language b)) as [o2 [d2 l2]].
    simpl in Hr, Hd, Hl. congruence. }
  split; [|split].
  - rewrite !classify_unfold.
    destruct (oblivious_determine_pose cfg pose_results hand_results
                face_results
                (counted hand_results face_results s1)
                (counted hand_results face_results s2)) as (Hr & Hd & _).
    split; [exact Hr|]. apply Hd. rewrite !counted_debug_info. reflexivity.
  - apply Hdp.
  - apply Hdp.
Qed.

(** C9.  When [cv2.cvtColor] raises [cv2.error], or a detector raises,
    [detect_pose] returns "default" before it reaches the reset: the stored
    metrics are the ones it found, in particular those of the previous
    call. *)
Theorem detect_pose_failure_keeps_metrics (cfg : AppConfig) (frame : Frame)
        (language : string) (self : PoseDetector) :
  cvtColor frame = Raise Cv2Error
  \/ (cvtColor frame = Return tt /\ detector_raises frame) ->
  detect_pose cfg frame language self
  = (Return "default", with_current_language language self)
  /\ debug_info (snd (detect_pose cfg frame language self))
     = debug_info self.
Proof.
  intros H.
  assert (detect_pose cfg frame language self
          = (Return "default", with_current_language language self)) as E.
  { unfold detect_pose. unfold bind at 1, set_current_language, modify.
    destruct H as [->|[-> H]]; [reflexivity|].
    unfold run_detections.
    destruct H as [(e & ->)|[(e & ->)|(e & ->)]].
    - reflexivity.
    - destruct (pose_process frame); reflexivity.
    - destruct (pose_process frame); [|reflexivity].
      destruct (hands_process frame); reflexivity. }
  rewrite E. split; reflexivity.
Qed.

(** C10, amended.  After classification [mouth_ratio] is never negative: it
    is the reset or guard value 0.0 or the lip opening of the first face
    over its positive face height, hence [>= 0] or NaN; and it is NaN only
    when the lip difference is NaN, or the lip difference and the face
    height are both infinite. *)
Theorem mouth_ratio_not_negative (cfg : AppConfig)
        (pose_results : option PoseSolution)
        (hand_results : option HandsSolution)
        (face_results : option FaceMeshSolution) (self : PoseDetector) :
  let ratio :=
    mouth_ratio
      (debug_info
         (snd (classify cfg pose_results hand_results face_results self))) in
  (ratio <? 0) = false
  /\ ((0 <=? ratio) = true \/ is_nan ratio = true)
  /\ (is_nan ratio = true ->
      exists opening face_height,
        first_face_measures face_results opening face_height
        /\ (is_nan opening = true
            \/ (is_infinity opening = true
                /\ is_infinity face_height = true))).
Proof.
  cbv zeta.
  pose proof (classify_mouth_ratio cfg pose_results hand_results
                                   face_results self) as H.
  set (ratio := mouth_ratio _) in *.
  assert ((ratio <? 0) = false) as Hneg.
  { destruct H as [->|(a & fh & _ & Hfh & ->)]; [reflexivity|].
    apply div_abs_pos_not_neg, Hfh. }
  split; [exact Hneg|]. split.
  - destruct (is_nan ratio) eqn:En; [right; reflexivity|left].
    apply not_neg_not_nan_nonneg; assumption.
  - intros Hn. destruct H as [E|(a & fh & Hm & Hfh & E)].
    + rewrite E in Hn. discriminate.
    + exists a, fh. split; [exact Hm|].
      rewrite E in Hn. apply (div_abs_pos_nan a fh Hfh Hn).
Qed.

(** * Further properties of the detector *)

Section DetectorFacts.
Variable cfg : AppConfig.
Variable pose_results : option PoseSolution.
Variable hand_results : option HandsSolution.
Variable face_results : option FaceMeshSolution.

(** The ways through the priority chain: the RaisingHand rule fires, or
    raises, or leaves the decision to the Thinking rule and then to the
    Shocking rule, which alone still writes, to [mouth_ratio]. *)
Lemma determine_pose_inv (self : PoseDetector) :
  exists s1,
    (_is_raising_hand cfg pose_results hand_results self = (Return true, s1)
     /\ _determine_pose cfg pose_results hand_results face_results self
        = (Return "raising_hand", s1))
    \/ (exists e,
           _is_raising_hand cfg pose_results hand_results self
           = (Raise e, s1)
           /\ _determine_pose cfg pose_results hand_results face_results self
              = (Raise e, s1))
    \/ (_is_raising_hand cfg pose_results hand_results self
        = (Return false, s1)
        /\ ((_is_thinking cfg pose_results hand_results face_results s1
             = (Return true, s1)
             /\ _determine_pose cfg pose_results hand_results face_results
                                self = (Return "thinking", s1))
            \/ (_is_thinking cfg pose_results hand_results face_results s1
                = (Return false, s1)
                /\ exists b v,
                    _is_shocking cfg face_results s1
                    = (Return b, with_mouth_ratio v s1)
                    /\ _determine_pose cfg pose_results hand_results
                                       face_results self
                       = (Return (if b then "shocking" else "default"),
                          with_mouth_ratio v s1)))).
Proof.
  destruct (_is_raising_hand cfg pose_results hand_results self)
    as [[[|]|e] s1] eqn:E; exists s1.
  - left. split; [reflexivity|]. apply determine_pose_raising, E.
  - right. right. split; [reflexivity|].
    destruct (is_thinking_total cfg pose_results hand_results face_results)
      as ([|] & Hb).
    + left. split; [apply Hb|].
      apply (determine_pose_thinking _ _ _ _ _ _ E). rewrite Hb. reflexivity.
    + right. split; [apply Hb|].
      apply (determine_pose_face _ _ _ _ _ _ E). rewrite Hb. reflexivity.
  - right. left. exists e. split; [reflexivity|].
    apply determine_pose_raises, E.
Qed.

(** The chain leaves the two counters and the language as it found them. *)
Lemma determine_pose_keeps (self : PoseDetector) :
  let s := snd (_determine_pose cfg pose_results hand_results face_results
                                self) in
  hands_detected (debug_info s) = hands_detected (debug_info self)
  /\ face_detected (debug_info s) = face_detected (debug_info self)
  /\ current_language s = current_language self.
Proof.
  cbv zeta.
  pose proof (determine_pose_state cfg pose_results hand_results
                                   face_results self) as H.
  cbv zeta in H.
  destruct (is_raising_hand_state cfg pose_results hand_results self)
    as (v & [E|E]); rewrite E in H;
    destruct H as [->|(w & -> & _)]; repeat split.
Qed.

(** When the RaisingHand loop answers [True] the stored [hand_height] is
    above the threshold. *)
Lemma raising_hand_loop_true nose_y hands self s' :
  raising_hand_loop cfg nose_y hands self = (Return true, s') ->
  (hand_raise_threshold (pose cfg) <? hand_height (debug_info s')) = true.
Proof.
  revert self. induction hands as [|hand rest IH]; intros self;
    [discriminate|].
  cbn [raising_hand_loop]. unfold bind at 1, lift at 1, getitem at 1.
  destruct (nth_error (landmark hand) WRIST) as [wrist|]; [|discriminate].
  unfold bind at 1, set_hand_height, modify.
  destruct (hand_raise_threshold (pose cfg) <? nose_y - y wrist) eqn:E;
    [|apply IH].
  intros [= <-]. exact E.
Qed.

Lemma is_raising_hand_true self s' :
  _is_raising_hand cfg pose_results hand_results self = (Return true, s') ->
  (hand_raise_threshold (pose cfg) <? hand_height (debug_info s')) = true
  /\ exists r hand hands,
       hand_results = Some r /\ multi_hand_landmarks r = hand :: hands.
Proof.
  unfold _is_raising_hand.
  destruct pose_results as [[[body|]]|], hand_results as [[hands]|];
    try discriminate.
  cbn [pose_landmarks multi_hand_landmarks].
  destruct hands as [|hand rest]; [discriminate|].
  cbn [truthy negb]. unfold bind at 1, lift at 1, getitem at 1.
  destruct (nth_error (landmark body) NOSE) as [nose|]; [|discriminate].
  intros H. split; [exact (raising_hand_loop_true _ _ _ _ H)|].
  eexists _, hand, rest. split; reflexivity.
Qed.

(** When the Shocking rule answers [True] there is a face and the stored
    [mouth_ratio] is above the threshold. *)
Lemma is_shocking_true self s' :
  _is_shocking cfg face_results self = (Return true, s') ->
  (mouth_open_threshold (pose cfg) <? mouth_ratio (debug_info s')) = true
  /\ exists r face0 faces,
       face_results = Some r /\ multi_face_landmarks r = face0 :: faces.
Proof.
  destruct face_results as [[[|face0 faces]]|];
    try (rewrite is_shocking_absent by reflexivity; discriminate).
  intros H. split; [|eexists _, face0, faces; split; reflexivity].
  destruct (nth_error (landmark face0) 13) as [p13|] eqn:E13;
    [|rewrite is_shocking_partial in H by auto; discriminate].
  destruct (nth_error (landmark face0) 14) as [p14|] eqn:E14;
    [|rewrite is_shocking_partial in H by auto; discriminate].
  destruct (nth_error (landmark face0) 10) as [p10|] eqn:E10;
    [|rewrite is_shocking_partial in H by auto; discriminate].
  destruct (nth_error (landmark face0) 152) as [p152|] eqn:E152;
    [|rewrite is_shocking_partial in H by auto 6; discriminate].
  rewrite (is_shocking_points cfg _ faces _ _ _ _ self E13 E14 E10 E152) in H.
  cbv zeta in H. injection H as Hb <-. exact Hb.
Qed.

(** When the Thinking rule answers [True] there are a face and a hand. *)
Lemma is_thinking_true self s' :
  _is_thinking cfg pose_results hand_results face_results self
  = (Return true, s') ->
  (exists r face0 faces,
      face_results = Some r /\ multi_face_landmarks r = face0 :: faces)
  /\ exists r hand hands,
       hand_results = Some r /\ multi_hand_landmarks r = hand :: hands.
Proof.
  destruct face_results as [[[|face0 faces]]|];
    try (rewrite is_thinking_absent by (left; reflexivity); discriminate).
  destruct hand_results as [[[|hand hands]]|];
    try (rewrite is_thinking_absent by (right; reflexivity); discriminate).
  intros _. split; eexists _, _, _; split; reflexivity.
Qed.

End DetectorFacts.

(** X1.  Whatever the label, and also when the classification raises,
    [detect_pose] on a frame whose conversion and detections succeed leaves
    [hands_detected] at the number of hands, [face_detected] at whether
    there is a face, and [current_language] at its argument. *)
Theorem detect_pose_counters (cfg : AppConfig)
        (pose_results : option PoseSolution)
        (hand_results : option HandsSolution)
        (face_results : option FaceMeshSolution)
        (language : string) (self : PoseDetector) :
  let final :=
    detect_pose cfg (frame_of pose_results hand_results face_results)
                language self in
  hands_detected (debug_info (snd final))
  = match hand_results with
    | Some r => List.length (multi_hand_landmarks r)
    | None => 0%nat
    end
  /\ face_detected (debug_info (snd final))
     = match face_results with
       | Some r => truthy (multi_face_landmarks r)
       | None => false
       end
  /\ current_language (snd final) = language.
Proof.
  cbv zeta.
  change (detect_pose cfg (frame_of pose_results hand_results face_results)
                      language self)
    with (classify cfg pose_results hand_results face_results
                   (with_current_language language self)).
  rewrite classify_unfold.
  destruct (determine_pose_keeps cfg pose_results hand_results face_results
              (counted hand_results face_results
                       (with_current_language language self)))
    as (-> & -> & ->).
  rewrite counted_debug_info, counted_current_language. repeat split.
Qed.

(** X2.  Classification returns one of the four labels or raises
    [IndexError], nothing else (no [ZeroDivisionError] escapes the guarded
    division); and it returns a label whenever a present body has its nose
    and every hand has its wrist, whatever the face lists hold. *)
Theorem classify_label_or_index_error (cfg : AppConfig)
        (pose_results : option PoseSolution)
        (hand_results : option HandsSolution)
        (face_results : option FaceMeshSolution) (self : PoseDetector) :
  let final :=
    classify cfg pose_results hand_results face_results self in
  ((exists name, fst final = Return name /\ In name pose_names)
   \/ fst final = Raise IndexError)
  /\ ((forall r body,
          pose_results = Some r -> pose_landmarks r = Some body ->
          nth_error (landmark body) NOSE <> None) ->
      (forall r,
          hand_results = Some r ->
          Forall (fun hand => nth_error (landmark hand) WRIST <> None)
                 (multi_hand_landmarks r)) ->
      exists name, fst final = Return name /\ In name pose_names).
Proof.
  cbv zeta. split.
  - apply classify_outcome.
  - apply classify_total_on_complete.
Qed.

(** X3.  A label is backed by the metrics stored with it: "raising_hand"
    comes with a [hand_height] above [hand_raise_threshold] and at least one
    hand counted; "shocking" with a [mouth_ratio] above
    [mouth_open_threshold] and a face detected; "thinking" with a face and a
    hand.  With "raising_hand" and "thinking" the Shocking rule has not run:
    [mouth_ratio] is the reset 0.0 however open the mouth is. *)
Theorem label_backed_by_metrics (cfg : AppConfig)
        (pose_results : option PoseSolution)
        (hand_results : option HandsSolution)
        (face_results : option FaceMeshSolution) (self : PoseDetector) :
  let final :=
    classify cfg pose_results hand_results face_results self in
  let d := debug_info (snd final) in
  (fst final = Return "raising_hand" ->
   (hand_raise_threshold (pose cfg) <? hand_height d) = true
   /\ hands_detected d <> 0%nat /\ mouth_ratio d = 0)
  /\ (fst final = Return "thinking" ->
      face_detected d = true /\ hands_detected d <> 0%nat
      /\ mouth_ratio d = 0)
  /\ (fst final = Return "shocking" ->
      (mouth_open_threshold (pose cfg) <? mouth_ratio d) = true
      /\ face_detected d = true).
Proof.
  cbv zeta. rewrite classify_unfold.
  set (s0 := counted hand_results face_results self).
  pose proof (counted_debug_info hand_results face_results self) as H0.
  fold s0 in H0.
  destruct (determine_pose_keeps cfg pose_results hand_results face_results
                                 s0) as (Kh & Kf & _).
  assert (forall s1,
             snd (_is_raising_hand cfg pose_results hand_results s0) = s1 ->
             mouth_ratio (debug_info s1) = 0) as Hm.
  { intros s1 <-.
    destruct (is_raising_hand_state cfg pose_results hand_results s0)
      as (v & [-> | ->]); simpl; rewrite H0; reflexivity. }
  destruct (determine_pose_inv cfg pose_results hand_results face_results
                               s0)
    as (s1 & [(E & D)|[(e & E & D)|(E & [(T & D)|(T & b & v & S & D)])]]);
    rewrite D in Kh, Kf |- *; cbn [fst snd] in *;
    (split; [|split]); try discriminate; try (destruct b; discriminate).
  - intros _.
    destruct (is_raising_hand_true _ _ _ _ _ E)
      as (Ht & r & hand & hands & -> & Hl).
    split; [exact Ht|]. split.
    + rewrite Kh, H0, Hl. discriminate.
    + apply Hm. rewrite E. reflexivity.
  - intros _.
    destruct (is_thinking_true _ _ _ _ _ _ T)
      as ((r & face0 & faces & -> & Hf) & r' & hand & hands & -> & Hl).
    split; [rewrite Kf, H0, Hf; reflexivity|]. split.
    + rewrite Kh, H0, Hl. discriminate.
    + apply Hm. rewrite E. reflexivity.
  - intros Hb. destruct b; [|discriminate].
    destruct (is_shocking_true _ _ _ _ S)
      as (Ht & r & face0 & faces & -> & Hf).
    split; [exact Ht|]. rewrite Kf, H0, Hf. reflexivity.
Qed.


(** X4.  Without a face the label is never "thinking" nor "shocking", and
    [mouth_ratio] is 0.0 and [face_detected] false. *)
Theorem no_face_labels (cfg : AppConfig)
        (pose_results : option PoseSolution)
        (hand_results : option HandsSolution)
        (face_results : option FaceMeshSolution) (self : PoseDetector) :
  no_faces face_results ->
  let final :=
    classify cfg pose_results hand_results face_results self in
  fst final <> Return "thinking" /\ fst final <> Return "shocking"
  /\ mouth_ratio (debug_info (snd final)) = 0
  /\ face_detected (debug_info (snd final)) = false.
Proof.
  intros Hf. cbv zeta. rewrite classify_unfold.
  set (s0 := counted hand_results face_results self).
  pose proof (counted_debug_info hand_results face_results self) as H0.
  fold s0 in H0.
  assert (face_detected (debug_info s0) = false
          /\ mouth_ratio (debug_info s0) = 0) as (F0 & M0).
  { rewrite H0. destruct face_results as [[faces]|]; [|split; reflexivity].
    simpl in Hf. subst faces. split; reflexivity. }
  destruct (determine_pose_keeps cfg pose_results hand_results face_results
                                 s0) as (_ & Kf & _).
  assert (forall s1,
             snd (_is_raising_hand cfg pose_results hand_results s0) = s1 ->
             mouth_ratio (debug_info s1) = 0) as Hm.
  { intros s1 <-.
    destruct (is_raising_hand_state cfg pose_results hand_results s0)
      as (v & [-> | ->]); exact M0. }
  destruct (determine_pose_inv cfg pose_results hand_results face_results
                               s0)
    as (s1 & [(E & D)|[(e & E & D)|(E & [(T & D)|(T & b & v & S & D)])]]);
    rewrite D in Kf |- *; cbn [fst snd] in *.
  - repeat split; try discriminate; [|congruence].
    apply Hm. rewrite E. reflexivity.
  - repeat split; try discriminate; [|congruence].
    apply Hm. rewrite E. reflexivity.
  - rewrite is_thinking_absent in T by (left; exact Hf). discriminate.
  - rewrite (is_shocking_absent cfg face_results s1 Hf) in S.
    injection S as <- Hv.
    repeat split; try discriminate; [|congruence].
    assert (debug_info (with_mouth_ratio 0 s1)
            = debug_info (with_mouth_ratio v s1)) as Hd by congruence.
    apply (f_equal mouth_ratio) in Hd. simpl in Hd. rewrite <- Hd.
    reflexivity.
Qed.

(** X5.  Without hands, or without a body, the RaisingHand rule returns
    before it reads a landmark, and the other two rules catch what their
    own indexing raises: classification returns (it cannot raise) and the
    label is not "raising_hand".  Hands without a body can still give
    "thinking", their fingertips being read by the Thinking rule.  Without
    hands the label is "shocking" or "default", with [hands_detected] 0. *)
Theorem no_hands_labels (cfg : AppConfig)
        (pose_results : option PoseSolution)
        (hand_results : option HandsSolution)
        (face_results : option FaceMeshSolution) (self : PoseDetector) :
  let final :=
    classify cfg pose_results hand_results face_results self in
  (no_body pose_results \/ no_hands hand_results ->
   exists name,
     fst final = Return name
     /\ (name = "thinking" \/ name = "shocking" \/ name = "default"))
  /\ (no_hands hand_results ->
      (fst final = Return "shocking" \/ fst final = Return "default")
      /\ hands_detected (debug_info (snd final)) = 0%nat).
Proof.
  cbv zeta. rewrite classify_unfold.
  set (s0 := counted hand_results face_results self).
  assert (no_body pose_results \/ no_hands hand_results ->
          exists name,
            fst (_determine_pose cfg pose_results hand_results face_results
                                 s0) = Return name
            /\ ((name = "thinking"
                 /\ _is_thinking cfg pose_results hand_results face_results
                                 (with_hand_height 0 s0)
                    = (Return true, with_hand_height 0 s0))
                \/ name = "shocking" \/ name = "default")) as Hgen.
  { intros Habs.
    pose proof (is_raising_hand_absent cfg pose_results hand_results s0
                                       Habs) as E.
    destruct (determine_pose_inv cfg pose_results hand_results face_results
                                 s0)
      as (s1 & [(E' & D)|[(e & E' & D)|(E' & [(T & D)|(T & b & v & S & D)])]]);
      rewrite E in E'; try discriminate; injection E' as <-;
      rewrite D; cbn [fst].
    - exists "thinking". auto.
    - exists (if b then "shocking" else "default").
      split; [reflexivity|]. destruct b; auto. }
  split.
  - intros Habs. destruct (Hgen Habs) as (name & Hn & [(-> & _)|H]).
    + exists "thinking". auto.
    + exists name. auto.
  - intros Hh. split.
    + destruct (Hgen (or_intror Hh)) as (name & Hn & [(_ & T)|[-> | ->]]);
        auto.
      rewrite is_thinking_absent in T by (right; exact Hh). discriminate.
    + destruct (determine_pose_keeps cfg pose_results hand_results
                                     face_results s0) as (-> & _).
      subst s0. rewrite counted_debug_info.
      destruct hand_results as [[hands]|]; [|reflexivity].
      simpl in Hh. subst hands. reflexivity.
Qed.

(** X6.  Only the first face is read: the faces after it change neither the
    label nor the detector object left behind. *)
Theorem first_face_only (cfg : AppConfig)
        (pose_results : option PoseSolution)
        (hand_results : option HandsSolution)
        (face0 : NormalizedLandmarkList)
        (faces : list NormalizedLandmarkList) (self : PoseDetector) :
  classify cfg pose_results hand_results
           (Some {| multi_face_landmarks := face0 :: faces |}) self
  = classify cfg pose_results hand_results
             (Some {| multi_face_landmarks := [face0] |}) self.
Proof.
  unfold classify, update_debug_info, _determine_pose.
  destruct hand_results as [[hands]|]; reflexivity.
Qed.

(** ** Partial landmark lists under the handlers *)

(** X7.  A first face that lacks one of the points a rule reads is handled,
    not raised: the Thinking rule answers [False] and leaves [self], the
    Shocking rule answers [False] with [mouth_ratio] 0.0.  A mesh cut short
    before the chin (index 152) is still counted in [face_detected], yet the
    label is never "thinking" nor "shocking". *)
Theorem partial_face_does_not_fire (cfg : AppConfig)
        (pose_results : option PoseSolution)
        (hand_results : option HandsSolution)
        (face0 : NormalizedLandmarkList)
        (faces : list NormalizedLandmarkList) (self : PoseDetector) :
  let face_results := Some {| multi_face_landmarks := face0 :: faces |} in
  let final :=
    classify cfg pose_results hand_results face_results self in
  (mouth_points_of face0 = None ->
   _is_thinking cfg pose_results hand_results face_results self
   = (Return false, self))
  /\ (nth_error (landmark face0) 13 = None
      \/ nth_error (landmark face0) 14 = None
      \/ nth_error (landmark face0) 10 = None
      \/ nth_error (landmark face0) 152 = None ->
      _is_shocking cfg face_results self
      = (Return false, with_mouth_ratio 0 self))
  /\ (List.length (landmark face0) <= 152 ->
      fst final <> Return "thinking" /\ fst final <> Return "shocking"
      /\ mouth_ratio (debug_info (snd final)) = 0
      /\ face_detected (debug_info (snd final)) = true).
Proof.
  cbv zeta.
  assert (mouth_points_of face0 = None ->
          forall s,
            _is_thinking cfg pose_results hand_results
                         (Some {| multi_face_landmarks := face0 :: faces |})
                         s = (Return false, s)) as HT.
  { intros Hm s.
    destruct hand_results as [[[|hand hands]]|];
      try (apply is_thinking_absent; right; reflexivity).
    unfold _is_thinking.
    cbn [multi_face_landmarks multi_hand_landmarks truthy negb orb].
    unfold try_except_index_attr.
    rewrite (thinking_body_no_points cfg _ _ _ s Hm). reflexivity. }
  split; [|split].
  - intros Hm. apply HT, Hm.
  - apply is_shocking_partial.
  - intros Hlen.
    assert (nth_error (landmark face0) 152 = None) as Hchin
        by (apply nth_error_None; exact Hlen).
    assert (mouth_points_of face0 = None) as Hm.
    { unfold mouth_points_of. rewrite Hchin.
      destruct (nth_error (landmark face0) 13); [|reflexivity].
      destruct (nth_error (landmark face0) 14); reflexivity. }
    rewrite classify_unfold.
    set (s0 := counted hand_results
                       (Some {| multi_face_landmarks := face0 :: faces |})
                       self).
    pose proof (counted_debug_info hand_results
                  (Some {| multi_face_landmarks := face0 :: faces |}) self)
      as H0.
    fold s0 in H0.
    destruct (determine_pose_keeps cfg pose_results hand_results
                (Some {| multi_face_landmarks := face0 :: faces |}) s0)
      as (_ & Kf & _).
    assert (forall s1,
               snd (_is_raising_hand cfg pose_results hand_results s0) = s1 ->
               mouth_ratio (debug_info s1) = 0) as Hmr.
    { intros s1 <-.
      destruct (is_raising_hand_state cfg pose_results hand_results s0)
        as (v & [-> | ->]); simpl; rewrite H0; reflexivity. }
    rewrite Kf, H0.
    destruct (determine_pose_inv cfg pose_results hand_results
                (Some {| multi_face_landmarks := face0 :: faces |}) s0)
      as (s1 & [(E & D)|[(e & E & D)|(E & [(T & D)|(T & b & v & S & D)])]]);
      rewrite D; cbn [fst snd].
    + repeat split; try discriminate. apply Hmr. rewrite E. reflexivity.
    + repeat split; try discriminate. apply Hmr. rewrite E. reflexivity.
    + rewrite (HT Hm s1) in T. discriminate.
    + rewrite (is_shocking_partial cfg face0 faces s1) in S by auto 6.
      injection S as <- Hv.
      repeat split; try discriminate.
      assert (debug_info (with_mouth_ratio 0 s1)
              = debug_info (with_mouth_ratio v s1)) as Hd by congruence.
      apply (f_equal mouth_ratio) in Hd. simpl in Hd. rewrite <- Hd.
      reflexivity.
Qed.

(** X8.  A hand that lacks a fingertip ends the Thinking rule with [False]
    at once, when no hand before it touches the mouth (by the distance as
    the platform computes it): the [IndexError] is caught outside the loop,
    so the hands after it are not tried, not even one that touches. *)
Theorem hand_without_fingertip_hides_later_hands (cfg : AppConfig)
        (pose_results : option PoseSolution)
        (face0 : NormalizedLandmarkList)
        (faces : list NormalizedLandmarkList)
        (mouth_points : list Landmark)
        (pre : list NormalizedLandmarkList) (bad : NormalizedLandmarkList)
        (post : list NormalizedLandmarkList) (self : PoseDetector) :
  mouth_points_of face0 = Some mouth_points ->
  Forall (apart (hand_to_face_threshold (pose cfg)) mouth_points) pre ->
  finger_tips_of bad = None ->
  _is_thinking cfg pose_results
               (Some {| multi_hand_landmarks := pre ++ bad :: post |})
               (Some {| multi_face_landmarks := face0 :: faces |}) self
  = (Return false, self).
Proof.
  intros Hm Hpre Hbad.
  assert (thinking_loop cfg mouth_points (pre ++ bad :: post) self
          = (Raise IndexError, self)) as E.
  { induction Hpre as [|h pre Hh _ IH]; simpl app.
    - apply thinking_loop_raises, Hbad.
    - pose proof Hh as (tips & Htips & _).
      rewrite (thinking_loop_cons _ _ _ _ _ _ Htips).
      apply (finger_tips_loop_apart _ _ _ _ Htips) in Hh. rewrite Hh.
      exact IH. }
  destruct (pre ++ bad :: post) as [|hand hands] eqn:El;
    [destruct pre; discriminate|].
  rewrite (is_thinking_present cfg _ _ _ _ _ _ self Hm).
  unfold try_except_index_attr. rewrite E. reflexivity.
Qed.

(** ** Depth is not read *)

Section DepthFacts.
Variable cfg : AppConfig.

Lemma getitem_flat (l : NormalizedLandmarkList) (i : nat) :
  getitem (landmark (flat_list l)) i
  = match getitem (landmark l) i with
    | Return p => Return (with_z 0 p)
    | Raise e => Raise e
    end.
Proof.
  unfold getitem, flat_list. cbn [landmark]. rewrite nth_error_map.
  destruct (nth_error (landmark l) i); reflexivity.
Qed.

Lemma raising_hand_loop_flat nose_y hands self :
  raising_hand_loop cfg nose_y (map flat_list hands) self
  = raising_hand_loop cfg nose_y hands self.
Proof.
  revert self. induction hands as [|hand rest IH]; intros self;
    [reflexivity|].
  cbn [map raising_hand_loop]. unfold bind at 1 3, lift at 1 2.
  rewrite getitem_flat.
  destruct (getitem (landmark hand) WRIST) as [wrist|e]; [|reflexivity].
  unfold bind at 1 2, set_hand_height, modify. cbn [with_z y].
  destruct (_ <? _); [reflexivity|apply IH].
Qed.

Lemma is_raising_hand_flat pose_results hand_results self :
  _is_raising_hand cfg (flat_pose pose_results) (flat_hands hand_results)
                   self
  = _is_raising_hand cfg pose_results hand_results self.
Proof.
  destruct pose_results as [[[body|]]|], hand_results as [[hands]|];
    try reflexivity.
  unfold _is_raising_hand, flat_pose, flat_hands, option_map.
  cbn [pose_landmarks multi_hand_landmarks].
  destruct hands as [|hand rest]; [reflexivity|].
  cbn [map truthy negb]. unfold bind at 1 2, lift at 1 2.
  rewrite getitem_flat.
  destruct (getitem (landmark body) NOSE) as [nose|e]; [|reflexivity].
  cbn [with_z y].
  apply (raising_hand_loop_flat (y nose) (hand :: rest)).
Qed.

Lemma mouth_points_loop_flat tip mouth_points :
  mouth_points_loop cfg (with_z 0 tip) (map (with_z 0) mouth_points)
  = mouth_points_loop cfg tip mouth_points.
Proof.
  induction mouth_points as [|q rest IH]; [reflexivity|].
  cbn [map mouth_points_loop].
  change (distance (with_z 0 tip) (with_z 0 q)) with (distance tip q).
  rewrite IH. reflexivity.
Qed.

Lemma finger_tips_loop_flat tips mouth_points :
  finger_tips_loop cfg (map (with_z 0) tips) (map (with_z 0) mouth_points)
  = finger_tips_loop cfg tips mouth_points.
Proof.
  induction tips as [|tip rest IH]; [reflexivity|].
  cbn [map finger_tips_loop]. rewrite mouth_points_loop_flat, IH.
  reflexivity.
Qed.

Lemma thinking_loop_flat mouth_points hands self :
  thinking_loop cfg (map (with_z 0) mouth_points) (map flat_list hands) self
  = thinking_loop cfg mouth_points hands self.
Proof.
  revert self. induction hands as [|hand rest IH]; intros self;
    [reflexivity|].
  cbn [map thinking_loop]. unfold bind, lift.
  rewrite !getitem_flat.
  destruct (getitem (landmark hand) THUMB_TIP) as [thumb|e];
    [|reflexivity].
  destruct (getitem (landmark hand) INDEX_FINGER_TIP) as [index|e];
    [|reflexivity].
  destruct (getitem (landmark hand) MIDDLE_FINGER_TIP) as [middle|e];
    [|reflexivity].
  change [with_z 0 thumb; with_z 0 index; with_z 0 middle]
    with (map (with_z 0) [thumb; index; middle]).
  rewrite finger_tips_loop_flat.
  destruct (finger_tips_loop cfg [thumb; index; middle] mouth_points);
    [reflexivity|apply IH].
Qed.

Lemma is_thinking_flat pose_results hand_results face_results self :
  _is_thinking cfg (flat_pose pose_results) (flat_hands hand_results)
               (flat_faces face_results) self
  = _is_thinking cfg pose_results hand_results face_results self.
Proof.
  destruct face_results as [[[|face0 faces]]|],
           hand_results as [[[|hand hands]]|]; try reflexivity.
  unfold _is_thinking, flat_faces, flat_hands, option_map.
  cbn [multi_face_landmarks multi_hand_landmarks map truthy negb orb].
  unfold try_except_index_attr, thinking_body.
  cbn [multi_face_landmarks multi_hand_landmarks].
  change (getitem (flat_list face0 :: map flat_list faces) 0)
    with (Return (flat_list face0)).
  change (getitem (face0 :: faces) 0) with (Return face0).
  unfold bind, lift. rewrite !getitem_flat.
  destruct (getitem (landmark face0) 13) as [p13|e]; [|reflexivity].
  destruct (getitem (landmark face0) 14) as [p14|e]; [|reflexivity].
  destruct (getitem (landmark face0) 152) as [p152|e]; [|reflexivity].
  destruct (getitem (landmark face0) 0) as [p0|e]; [|reflexivity].
  change [with_z 0 p13; with_z 0 p14; with_z 0 p152; with_z 0 p0]
    with (map (with_z 0) [p13; p14; p152; p0]).
  change (flat_list hand :: map flat_list hands)
    with (map flat_list (hand :: hands)).
  rewrite thinking_loop_flat. reflexivity.
Qed.

Lemma is_shocking_flat face_results self :
  _is_shocking cfg (flat_faces face_results) self
  = _is_shocking cfg face_results self.
Proof.
  destruct face_results as [[[|face0 faces]]|]; try reflexivity.
  unfold _is_shocking, flat_faces, option_map.
  cbn [multi_face_landmarks map truthy negb].
  unfold try_except_index_attr, shocking_body.
  cbn [multi_face_landmarks].
  change (getitem (flat_list face0 :: map flat_list faces) 0)
    with (Return (flat_list face0)).
  change (getitem (face0 :: faces) 0) with (Return face0).
  unfold bind, lift. rewrite !getitem_flat.
  destruct (getitem (landmark face0) 13) as [p13|e]; [|reflexivity].
  destruct (getitem (landmark face0) 14) as [p14|e]; [|reflexivity].
  destruct (getitem (landmark face0) 10) as [p10|e]; [|reflexivity].
  destruct (getitem (landmark face0) 152) as [p152|e]; reflexivity.
Qed.

Lemma update_debug_info_flat hand_results face_results self :
  update_debug_info (flat_hands hand_results) (flat_faces face_results) self
  = update_debug_info hand_results face_results self.
Proof.
  destruct face_results as [[[|face0 faces]]|],
           hand_results as [[[|hand hands]]|]; try reflexivity;
    unfold update_debug_info, flat_hands, flat_faces, option_map;
    cbn [multi_face_landmarks multi_hand_landmarks map truthy List.length];
    rewrite ?length_map; reflexivity.
Qed.

Lemma classify_flat pose_results hand_results face_results self :
  classify cfg (flat_pose pose_results) (flat_hands hand_results)
           (flat_faces face_results) self
  = classify cfg pose_results hand_results face_results self.
Proof.
  unfold classify, _determine_pose, bind.
  cbn [set_debug_info modify].
  rewrite update_debug_info_flat.
  destruct (update_debug_info hand_results face_results _) as [[u|e] s];
    [|reflexivity].
  rewrite is_raising_hand_flat.
  destruct (_is_raising_hand cfg pose_results hand_results s)
    as [[[|]|e] s1]; try reflexivity.
  rewrite is_thinking_flat.
  destruct (_is_thinking cfg pose_results hand_results face_results s1)
    as [[[|]|e] s2]; try reflexivity.
  rewrite is_shocking_flat. reflexivity.
Qed.

End DepthFacts.

(** X9.  The classifier never reads [z]: two snapshots that agree once every
    depth is set to 0, that is, on every [x] and [y], get the same label and
    leave the same detector object. *)
Theorem depth_is_not_read (cfg : AppConfig)
        (pose1 pose2 : option PoseSolution)
        (hands1 hands2 : option HandsSolution)
        (faces1 faces2 : option FaceMeshSolution) (self : PoseDetector) :
  flat_pose pose1 = flat_pose pose2 ->
  flat_hands hands1 = flat_hands hands2 ->
  flat_faces faces1 = flat_faces faces2 ->
  classify cfg pose1 hands1 faces1 self
  = classify cfg pose2 hands2 faces2 self.
Proof.
  intros Hp Hh Hf.
  rewrite <- (classify_flat cfg pose1 hands1 faces1),
    <- (classify_flat cfg pose2 hands2 faces2).
  rewrite Hp, Hh, Hf. reflexivity.
Qed.

(** ** Order on floats *)

(** Case analysis on the comparisons of exponents and mantissas. *)
Ltac order_cases :=
  repeat match goal with
         | |- context [Z.compare ?a ?b] =>
             destruct (Z.compare_spec a b); subst
         | H : context [Z.compare ?a ?b] |- _ =>
             destruct (Z.compare_spec a b); subst
         | |- context [Pos.compare ?a ?b] =>
             destruct (Pos.compare_spec a b); subst
         | H : context [Pos.compare ?a ?b] |- _ =>
             destruct (Pos.compare_spec a b); subst
         end;
  simpl in *; try discriminate; try reflexivity; try lia.

Section FloatOrder.

Lemma SFleb_ltb_trans (a b c : spec_float) :
  SFleb a b = true -> SFltb b c = true -> SFltb a c = true.
Proof.
  unfold SFleb, SFltb, SFcompare.
  destruct a as [sa|sa| |sa ma ea], b as [sb|sb| |sb mb eb],
           c as [sc|sc| |sc mc ec];
    try discriminate;
    try destruct sa; try destruct sb; try destruct sc;
    try discriminate; try reflexivity;
    change (Pos.compare_cont Eq) with Pos.compare;
    intros H1 H2; order_cases.
Qed.

Lemma SFltb_leb_trans (a b c : spec_float) :
  SFltb a b = true -> SFleb b c = true -> SFltb a c = true.
Proof.
  unfold SFleb, SFltb, SFcompare.
  destruct a as [sa|sa| |sa ma ea], b as [sb|sb| |sb mb eb],
           c as [sc|sc| |sc mc ec];
    try discriminate;
    try destruct sa; try destruct sb; try destruct sc;
    try discriminate; try reflexivity;
    change (Pos.compare_cont Eq) with Pos.compare;
    intros H1 H2; order_cases.
Qed.

(** [a <= b] and [b < c] give [a < c]. *)
Lemma leb_ltb_trans (a b c : float) :
  (a <=? b) = true -> (b <? c) = true -> (a <? c) = true.
Proof. rewrite leb_spec, !ltb_spec. apply SFleb_ltb_trans. Qed.

(** [a < b] and [b <= c] give [a < c]. *)
Lemma ltb_leb_trans (a b c : float) :
  (a <? b) = true -> (b <=? c) = true -> (a <? c) = true.
Proof. rewrite leb_spec, !ltb_spec. apply SFltb_leb_trans. Qed.

End FloatOrder.

(** ** The label as a function of the three rules *)

Section LabelFacts.
Variable cfg : AppConfig.

(** The label read off the answers of the three rules, each asked on any
    detector object. *)
Lemma determine_pose_label pose_results hand_results face_results
      (self s1 s2 s3 : PoseDetector) :
  fst (_determine_pose cfg pose_results hand_results face_results self)
  = match fst (_is_raising_hand cfg pose_results hand_results s1) with
    | Raise e => Raise e
    | Return true => Return "raising_hand"
    | Return false =>
        match fst (_is_thinking cfg pose_results hand_results face_results
                                s2) with
        | Raise e => Raise e
        | Return true => Return "thinking"
        | Return false =>
            match fst (_is_shocking cfg face_results s3) with
            | Raise e => Raise e
            | Return true => Return "shocking"
            | Return false => Return "default"
            end
        end
    end.
Proof.
  destruct (oblivious_is_raising_hand cfg pose_results hand_results s1 self)
    as (-> & _).
  destruct (determine_pose_inv cfg pose_results hand_results face_results
                               self)
    as (s' & [(E & D)|[(e & E & D)|(E & [(T & D)|(T & b & v & S & D)])]]);
    rewrite D, E; cbn [fst]; try reflexivity.
  - destruct (oblivious_is_thinking cfg pose_results hand_results
                face_results s2 s') as (-> & _).
    rewrite T. reflexivity.
  - destruct (oblivious_is_thinking cfg pose_results hand_results
                face_results s2 s') as (-> & _).
    destruct (oblivious_is_shocking cfg face_results s3 s') as (-> & _).
    rewrite T, S. destruct b; reflexivity.
Qed.

Lemma classify_label pose_results hand_results face_results
      (self s1 s2 s3 : PoseDetector) :
  fst (classify cfg pose_results hand_results face_results self)
  = match fst (_is_raising_hand cfg pose_results hand_results s1) with
    | Raise e => Raise e
    | Return true => Return "raising_hand"
    | Return false =>
        match fst (_is_thinking cfg pose_results hand_results face_results
                                s2) with
        | Raise e => Raise e
        | Return true => Return "thinking"
        | Return false =>
            match fst (_is_shocking cfg face_results s3) with
            | Raise e => Raise e
            | Return true => Return "shocking"
            | Return false => Return "default"
            end
        end
    end.
Proof. rewrite classify_unfold. apply determine_pose_label. Qed.

End LabelFacts.

(** ** Thresholds *)

Section ThresholdFacts.
Variables cfg1 cfg2 : AppConfig.

Lemma raising_hand_loop_monotone nose_y hands s1 s2 :
  (hand_raise_threshold (pose cfg1) <=? hand_raise_threshold (pose cfg2))
  = true ->
  fst (raising_hand_loop cfg2 nose_y hands s2) = Return true ->
  fst (raising_hand_loop cfg1 nose_y hands s1) = Return true.
Proof.
  intros Ht. revert s1 s2.
  induction hands as [|hand rest IH]; intros s1 s2; [discriminate|].
  cbn [raising_hand_loop]. unfold bind at 1 3, lift at 1 2.
  destruct (getitem (landmark hand) WRIST) as [wrist|e]; [|discriminate].
  unfold bind at 1 2, set_hand_height, modify.
  destruct (hand_raise_threshold (pose cfg2) <? nose_y - y wrist) eqn:E2.
  - rewrite (leb_ltb_trans _ _ _ Ht E2). reflexivity.
  - destruct (hand_raise_threshold (pose cfg1) <? nose_y - y wrist);
      [reflexivity|apply IH].
Qed.

Lemma is_raising_hand_monotone pose_results hand_results s1 s2 :
  (hand_raise_threshold (pose cfg1) <=? hand_raise_threshold (pose cfg2))
  = true ->
  fst (_is_raising_hand cfg2 pose_results hand_results s2) = Return true ->
  fst (_is_raising_hand cfg1 pose_results hand_results s1) = Return true.
Proof.
  intros Ht. unfold _is_raising_hand.
  destruct pose_results as [[[body|]]|], hand_results as [[hands]|];
    try discriminate.
  cbn [pose_landmarks multi_hand_landmarks].
  destruct (truthy hands); [|discriminate]. cbn [negb].
  unfold bind at 1 2, lift at 1 2.
  destruct (getitem (landmark body) NOSE) as [nose|e]; [|discriminate].
  apply raising_hand_loop_monotone, Ht.
Qed.

Lemma mouth_points_loop_monotone tip mouth_points :
  (hand_to_face_threshold (pose cfg1) <=? hand_to_face_threshold (pose cfg2))
  = true ->
  mouth_points_loop cfg1 tip mouth_points = true ->
  mouth_points_loop cfg2 tip mouth_points = true.
Proof.
  intros Ht. induction mouth_points as [|q rest IH]; [discriminate|].
  cbn [mouth_points_loop].
  destruct (distance tip q <? hand_to_face_threshold (pose cfg1)) eqn:E1.
  - rewrite (ltb_leb_trans _ _ _ E1 Ht). reflexivity.
  - destruct (distance tip q <? hand_to_face_threshold (pose cfg2));
      [reflexivity|exact IH].
Qed.

Lemma finger_tips_loop_monotone tips mouth_points :
  (hand_to_face_threshold (pose cfg1) <=? hand_to_face_threshold (pose cfg2))
  = true ->
  finger_tips_loop cfg1 tips mouth_points = true ->
  finger_tips_loop cfg2 tips mouth_points = true.
Proof.
  intros Ht. induction tips as [|tip rest IH]; [discriminate|].
  cbn [finger_tips_loop].
  destruct (mouth_points_loop cfg1 tip mouth_points) eqn:E1.
  - rewrite (mouth_points_loop_monotone _ _ Ht E1). reflexivity.
  - destruct (mouth_points_loop cfg2 tip mouth_points);
      [reflexivity|exact IH].
Qed.

Lemma thinking_loop_monotone mouth_points hands s1 s2 :
  (hand_to_face_threshold (pose cfg1) <=? hand_to_face_threshold (pose cfg2))
  = true ->
  fst (thinking_loop cfg1 mouth_points hands s1) = Return true ->
  fst (thinking_loop cfg2 mouth_points hands s2) = Return true.
Proof.
  intros Ht. induction hands as [|hand rest IH]; [discriminate|].
  destruct (finger_tips_of hand) as [tips|] eqn:Htips.
  - rewrite !(thinking_loop_cons _ _ _ _ _ _ Htips).
    destruct (finger_tips_loop cfg1 tips mouth_points) eqn:E1.
    + rewrite (finger_tips_loop_monotone _ _ Ht E1). reflexivity.
    + destruct (finger_tips_loop cfg2 tips mouth_points);
        [reflexivity|exact IH].
  - rewrite (thinking_loop_raises cfg1 _ _ _ _ Htips). discriminate.
Qed.

Lemma is_thinking_monotone pose_results hand_results face_results s1 s2 :
  (hand_to_face_threshold (pose cfg1) <=? hand_to_face_threshold (pose cfg2))
  = true ->
  fst (_is_thinking cfg1 pose_results hand_results face_results s1)
  = Return true ->
  fst (_is_thinking cfg2 pose_results hand_results face_results s2)
  = Return true.
Proof.
  intros Ht.
  destruct face_results as [[[|face0 faces]]|];
    try (rewrite is_thinking_absent by (left; reflexivity); discriminate).
  destruct hand_results as [[[|hand hands]]|];
    try (rewrite is_thinking_absent by (right; reflexivity); discriminate).
  destruct (mouth_points_of face0) as [mouth_points|] eqn:Hm.
  - rewrite !(is_thinking_present _ _ _ _ _ _ _ _ Hm).
    unfold try_except_index_attr.
    pose proof (thinking_loop_monotone mouth_points (hand :: hands) s1 s2
                                       Ht) as H.
    destruct (thinking_loop cfg1 mouth_points (hand :: hands) s1)
      as [[[|]|[]] t1]; try discriminate.
    intros _. specialize (H eq_refl).
    destruct (thinking_loop cfg2 mouth_points (hand :: hands) s2)
      as [[b|e] t2]; simpl in H; try discriminate.
    injection H as ->. reflexivity.
  - unfold _is_thinking.
    cbn [multi_face_landmarks multi_hand_landmarks truthy negb orb].
    unfold try_except_index_attr.
    rewrite (thinking_body_no_points cfg1 _ _ _ _ Hm). discriminate.
Qed.

Lemma is_shocking_monotone face_results s1 s2 :
  (mouth_open_threshold (pose cfg1) <=? mouth_open_threshold (pose cfg2))
  = true ->
  fst (_is_shocking cfg2 face_results s2) = Return true ->
  fst (_is_shocking cfg1 face_results s1) = Return true.
Proof.
  intros Ht.
  destruct face_results as [[[|face0 faces]]|];
    try (rewrite is_shocking_absent by reflexivity; discriminate).
  destruct (nth_error (landmark face0) 13) as [p13|] eqn:E13;
    [|rewrite is_shocking_partial by auto; discriminate].
  destruct (nth_error (landmark face0) 14) as [p14|] eqn:E14;
    [|rewrite is_shocking_partial by auto; discriminate].
  destruct (nth_error (landmark face0) 10) as [p10|] eqn:E10;
    [|rewrite is_shocking_partial by auto; discriminate].
  destruct (nth_error (landmark face0) 152) as [p152|] eqn:E152;
    [|rewrite is_shocking_partial by auto 6; discriminate].
  rewrite !(is_shocking_points _ _ faces _ _ _ _ _ E13 E14 E10 E152).
  cbv zeta. cbn [fst]. intros [= H].
  rewrite (leb_ltb_trans _ _ _ Ht H). reflexivity.
Qed.

End ThresholdFacts.

(** X10.  Each rule is monotone in its threshold, in binary64 order: a
    lower [hand_raise_threshold] keeps every firing of the RaisingHand rule,
    and every "raising_hand" label whatever the other two thresholds; a
    larger [hand_to_face_threshold] keeps every firing of the Thinking rule;
    a lower [mouth_open_threshold] keeps every firing of the Shocking
    rule. *)
Theorem rules_monotone_in_thresholds (cfg1 cfg2 : AppConfig)
        (pose_results : option PoseSolution)
        (hand_results : option HandsSolution)
        (face_results : option FaceMeshSolution) (s1 s2 : PoseDetector) :
  ((hand_raise_threshold (pose cfg1) <=? hand_raise_threshold (pose cfg2))
   = true ->
   (fst (_is_raising_hand cfg2 pose_results hand_results s2) = Return true ->
    fst (_is_raising_hand cfg1 pose_results hand_results s1) = Return true)
   /\ (fst (classify cfg2 pose_results hand_results face_results s2)
       = Return "raising_hand" ->
       fst (classify cfg1 pose_results hand_results face_results s1)
       = Return "raising_hand"))
  /\ ((hand_to_face_threshold (pose cfg1)
       <=? hand_to_face_threshold (pose cfg2)) = true ->
      fst (_is_thinking cfg1 pose_results hand_results face_results s1)
      = Return true ->
      fst (_is_thinking cfg2 pose_results hand_results face_results s2)
      = Return true)
  /\ ((mouth_open_threshold (pose cfg1) <=? mouth_open_threshold (pose cfg2))
      = true ->
      fst (_is_shocking cfg2 face_results s2) = Return true ->
      fst (_is_shocking cfg1 face_results s1) = Return true).
Proof.
  split; [|split].
  - intros Ht. split; [apply is_raising_hand_monotone, Ht|].
    rewrite (classify_label cfg2 _ _ _ s2 s2 s2 s2),
      (classify_label cfg1 _ _ _ s1 s1 s1 s1).
    pose proof (is_raising_hand_monotone cfg1 cfg2 pose_results hand_results
                                         s1 s2 Ht) as H.
    destruct (fst (_is_raising_hand cfg2 pose_results hand_results s2))
      as [[|]|e].
    + rewrite (H eq_refl). reflexivity.
    + destruct (fst (_is_thinking cfg2 pose_results hand_results
                                  face_results s2)) as [[|]|e];
        try discriminate.
      destruct (fst (_is_shocking cfg2 face_results s2)) as [[|]|e];
        discriminate.
    + discriminate.
  - apply is_thinking_monotone.
  - apply is_shocking_monotone.
Qed.

(** ** Snapshots with every landmark that is read *)

Section CompleteFacts.
Variable cfg : AppConfig.

Lemma long_hand_height_diff nose hand :
  12 < List.length (landmark hand) -> height_diff nose hand <> None.
Proof.
  intros Hlen. unfold height_diff.
  destruct (nth_error (landmark hand) WRIST) eqn:E; [discriminate|].
  apply nth_error_None in E. unfold WRIST in E. lia.
Qed.

Lemma long_hand_finger_tips hand :
  12 < List.length (landmark hand) -> finger_tips_of hand <> None.
Proof.
  intros Hlen. unfold finger_tips_of.
  destruct (nth_error (landmark hand) THUMB_TIP) eqn:E1;
    [|apply nth_error_None in E1; unfold THUMB_TIP in E1; lia].
  destruct (nth_error (landmark hand) INDEX_FINGER_TIP) eqn:E2;
    [|apply nth_error_None in E2; unfold INDEX_FINGER_TIP in E2; lia].
  destruct (nth_error (landmark hand) MIDDLE_FINGER_TIP) eqn:E3;
    [discriminate|].
  apply nth_error_None in E3. unfold MIDDLE_FINGER_TIP in E3. lia.
Qed.

Lemma long_list_nth_error {A : Type} (l : list A) (i : nat) :
  i < List.length l -> exists a, nth_error l i = Some a.
Proof.
  intros H. destruct (nth_error l i) eqn:E; [eauto|].
  apply nth_error_None in E. lia.
Qed.

(** The RaisingHand rule on hands that all have a wrist: it returns, and
    fires exactly when a body with its nose has a raised hand. *)
Lemma is_raising_hand_long pose_results hands self :
  (forall r body, pose_results = Some r -> pose_landmarks r = Some body ->
                  0 < List.length (landmark body)) ->
  Forall (fun hand => 12 < List.length (landmark hand)) hands ->
  exists b,
    fst (_is_raising_hand cfg pose_results
                          (Some {| multi_hand_landmarks := hands |}) self)
    = Return b
    /\ (b = true
        <-> exists r body nose hand,
              pose_results = Some r /\ pose_landmarks r = Some body
              /\ nth_error (landmark body) NOSE = Some nose
              /\ In hand hands
              /\ raised (hand_raise_threshold (pose cfg)) nose hand).
Proof.
  intros Hbody Hhands.
  destruct pose_results as [[[body|]]|].
  - destruct hands as [|hand rest].
    + exists false. split; [reflexivity|]. split; [discriminate|].
      intros (? & ? & ? & ? & _ & _ & _ & [] & _).
    + destruct (long_list_nth_error (landmark body) NOSE) as (nose & Hnose).
      { apply (Hbody _ _ eq_refl eq_refl). }
      rewrite (is_raising_hand_present cfg body nose (hand :: rest) self
                 Hnose) by discriminate.
      destruct (raising_hand_loop_complete cfg nose (hand :: rest) self)
        as (b & Hb & Hiff).
      { eapply Forall_impl; [|exact Hhands].
        intros h Hh. apply long_hand_height_diff, Hh. }
      exists b. split; [exact Hb|]. rewrite Hiff. split.
      * intros (h & Hin & Hr).
        exists {| pose_landmarks := Some body |}, body, nose, h. auto.
      * intros (r & body' & nose' & h & [= <-] & [= <-] & Hn & Hin & Hr).
        assert (nose' = nose) as -> by congruence. eauto.
  - exists false. split; [reflexivity|]. split; [discriminate|].
    intros (? & ? & ? & ? & [= <-] & H & _). discriminate.
  - exists false. split; [reflexivity|]. split; [discriminate|].
    intros (? & ? & ? & ? & H & _). discriminate.
Qed.

(** The Thinking rule on hands that all have their fingertips: it fires
    exactly when the first face has its four points and a hand touches. *)
Lemma is_thinking_long pose_results hands face_results self :
  Forall (fun hand => 12 < List.length (landmark hand)) hands ->
  exists b,
    fst (_is_thinking cfg pose_results
                      (Some {| multi_hand_landmarks := hands |})
                      face_results self) = Return b
    /\ (b = true
        <-> exists r face0 faces mouth_points hand,
              face_results = Some r
              /\ multi_face_landmarks r = face0 :: faces
              /\ mouth_points_of face0 = Some mouth_points
              /\ In hand hands
              /\ touches (hand_to_face_threshold (pose cfg))
                         mouth_points hand).
Proof.
  intros Hhands.
  destruct face_results as [[[|face0 faces]]|].
  - rewrite is_thinking_absent by (left; reflexivity).
    exists false. split; [reflexivity|]. split; [discriminate|].
    intros (? & ? & ? & ? & ? & [= <-] & H & _). discriminate.
  - destruct hands as [|hand rest].
    + rewrite is_thinking_absent by (right; reflexivity).
      exists false. split; [reflexivity|]. split; [discriminate|].
      intros (? & ? & ? & ? & ? & _ & _ & _ & [] & _).
    + destruct (mouth_points_of face0) as [mouth_points|] eqn:Hm.
      * rewrite (is_thinking_present cfg _ _ _ _ _ _ self Hm).
        unfold try_except_index_attr.
        destruct (thinking_loop_complete cfg mouth_points (hand :: rest))
          as (b & Hb & Hiff).
        { eapply Forall_impl; [|exact Hhands].
          intros h Hh. apply long_hand_finger_tips, Hh. }
        exists b. rewrite Hb. split; [reflexivity|]. rewrite Hiff. split.
        -- intros (h & Hin & Ht).
           exists {| multi_face_landmarks := face0 :: faces |}, face0,
             faces, mouth_points, h.
           auto.
        -- intros (r & f0 & fs & mps & h & [= <-] & [= <- <-] & Hm' & Hin
                   & Ht).
           assert (mps = mouth_points) as -> by congruence. eauto.
      * exists false. split.
        -- unfold _is_thinking.
           cbn [multi_face_landmarks multi_hand_landmarks truthy negb orb].
           unfold try_except_index_attr.
           rewrite (thinking_body_no_points cfg _ _ _ _ Hm). reflexivity.
        -- split; [discriminate|].
           intros (r & f0 & fs & mps & h & [= <-] & [= <- <-] & Hm' & _).
           congruence.
  - rewrite is_thinking_absent by (left; reflexivity).
    exists false. split; [reflexivity|]. split; [discriminate|].
    intros (? & ? & ? & ? & ? & H & _). discriminate.
Qed.

End CompleteFacts.

(** X11.  On a snapshot that holds every landmark the rules read (a body
    with its nose, hands of more than 12 points, a first face of more than
    152 points) the label is decided by three tests in turn: some hand is
    raised above the nose by more than [hand_raise_threshold]; else some
    fingertip is within [hand_to_face_threshold] of a mouth-region point,
    by the distance as the platform computes it; else the mouth ratio
    exceeds [mouth_open_threshold]; else "default". *)
Theorem classify_complete_decision (cfg : AppConfig)
        (body : NormalizedLandmarkList)
        (hands : list NormalizedLandmarkList)
        (face0 : NormalizedLandmarkList)
        (faces : list NormalizedLandmarkList) (self : PoseDetector) :
  0 < List.length (landmark body) ->
  Forall (fun hand => 12 < List.length (landmark hand)) hands ->
  152 < List.length (landmark face0) ->
  let face_results := Some {| multi_face_landmarks := face0 :: faces |} in
  let label :=
    fst (classify cfg (Some {| pose_landmarks := Some body |})
                  (Some {| multi_hand_landmarks := hands |})
                  face_results self) in
  exists nose mouth_points opening face_height,
    nth_error (landmark body) NOSE = Some nose
    /\ mouth_points_of face0 = Some mouth_points
    /\ first_face_measures face_results opening face_height
    /\ let ratio := if 0 <? face_height
                    then abs opening / face_height else 0 in
       let any_raised :=
         exists hand,
           In hand hands
           /\ raised (hand_raise_threshold (pose cfg)) nose hand in
       let any_touch :=
         exists hand,
           In hand hands
           /\ touches (hand_to_face_threshold (pose cfg))
                      mouth_points hand in
       (any_raised -> label = Return "raising_hand")
       /\ (~ any_raised -> any_touch -> label = Return "thinking")
       /\ (~ any_raised -> ~ any_touch ->
           (mouth_open_threshold (pose cfg) <? ratio) = true ->
           label = Return "shocking")
       /\ (~ any_raised -> ~ any_touch ->
           (mouth_open_threshold (pose cfg) <? ratio) = false ->
           label = Return "default").
Proof.
  intros Hbody Hhands Hface. cbv zeta.
  destruct (long_list_nth_error (landmark body) NOSE Hbody) as (nose & Hn).
  destruct (long_list_nth_error (landmark face0) 0) as (p0 & E0); [lia|].
  destruct (long_list_nth_error (landmark face0) 10) as (p10 & E10); [lia|].
  destruct (long_list_nth_error (landmark face0) 13) as (p13 & E13); [lia|].
  destruct (long_list_nth_error (landmark face0) 14) as (p14 & E14); [lia|].
  destruct (long_list_nth_error (landmark face0) 152) as (p152 & E152);
    [lia|].
  assert (mouth_points_of face0 = Some [p13; p14; p152; p0]) as Hm
      by (unfold mouth_points_of; rewrite E13, E14, E152, E0; reflexivity).
  exists nose, [p13; p14; p152; p0], (y p14 - y p13),
    (abs (y p152 - y p10)).
  split; [exact Hn|]. split; [exact Hm|]. split.
  { exists face0, faces, p13, p14, p10, p152. auto 10. }
  rewrite (classify_label cfg _ _ _ self self self self).
  destruct (is_raising_hand_long cfg
              (Some {| pose_landmarks := Some body |}) hands self)
    as (br & -> & Hr); [|exact Hhands|].
  { intros r b [= <-] [= <-]. exact Hbody. }
  destruct (is_thinking_long cfg (Some {| pose_landmarks := Some body |})
              hands (Some {| multi_face_landmarks := face0 :: faces |})
              self Hhands) as (bt & -> & Ht).
  rewrite (is_shocking_points cfg _ faces _ _ _ _ self E13 E14 E10 E152).
  cbv zeta. cbn [fst].
  assert (br = true
          <-> exists hand,
                In hand hands
                /\ raised (hand_raise_threshold (pose cfg)) nose hand)
    as Hr'.
  { rewrite Hr. split.
    - intros (r & b & n & h & [= <-] & [= <-] & Hn' & Hin & Hh).
      assert (n = nose) as -> by congruence. eauto.
    - intros (h & Hin & Hh).
      exists {| pose_landmarks := Some body |}, body, nose, h. auto. }
  assert (bt = true
          <-> exists hand,
                In hand hands
                /\ touches (hand_to_face_threshold (pose cfg))
                           [p13; p14; p152; p0] hand) as Ht'.
  { rewrite Ht. split.
    - intros (r & f0 & fs & mps & h & [= <-] & [= <- <-] & Hm' & Hin & Hh).
      assert (mps = [p13; p14; p152; p0]) as -> by congruence. eauto.
    - intros (h & Hin & Hh).
      exists {| multi_face_landmarks := face0 :: faces |}, face0, faces,
        [p13; p14; p152; p0], h. auto. }
  split; [|split; [|split]].
  - intros H. apply Hr' in H. rewrite H. reflexivity.
  - intros Hnr H. apply Ht' in H. rewrite H.
    destruct br; [|reflexivity]. exfalso. apply Hnr, Hr'. reflexivity.
  - intros Hnr Hnt ->.
    destruct br; [exfalso; apply Hnr, Hr'; reflexivity|].
    destruct bt; [exfalso; apply Hnt, Ht'; reflexivity|]. reflexivity.
  - intros Hnr Hnt ->.
    destruct br; [exfalso; apply Hnr, Hr'; reflexivity|].
    destruct bt; [exfalso; apply Hnt, Ht'; reflexivity|]. reflexivity.
Qed.

(** X12.  With hands of more than 12 points each and a present body having
    its nose, the label does not depend on the order in which the hands are
    listed (the [hand_height] metric does, being the last hand read). *)
Theorem label_ignores_hand_order (cfg : AppConfig)
        (pose_results : option PoseSolution)
        (hands hands' : list NormalizedLandmarkList)
        (face_results : option FaceMeshSolution) (s s' : PoseDetector) :
  (forall r body, pose_results = Some r -> pose_landmarks r = Some body ->
                  0 < List.length (landmark body)) ->
  Forall (fun hand => 12 < List.length (landmark hand)) hands ->
  Permutation hands hands' ->
  fst (classify cfg pose_results (Some {| multi_hand_landmarks := hands |})
                face_results s)
  = fst (classify cfg pose_results
                  (Some {| multi_hand_landmarks := hands' |})
                  face_results s').
Proof.
  intros Hbody Hhands Hperm.
  assert (Forall (fun hand => 12 < List.length (landmark hand)) hands')
    as Hhands' by (eapply Permutation_Forall; eassumption).
  rewrite (classify_label cfg _ _ _ s s s s),
    (classify_label cfg _ _ _ s' s s s).
  destruct (is_raising_hand_long cfg pose_results hands s Hbody Hhands)
    as (br & -> & Hr).
  destruct (is_raising_hand_long cfg pose_results hands' s Hbody Hhands')
    as (br' & -> & Hr').
  destruct (is_thinking_long cfg pose_results hands face_results s Hhands)
    as (bt & -> & Ht).
  destruct (is_thinking_long cfg pose_results hands' face_results s Hhands')
    as (bt' & -> & Ht').
  assert (br = br') as <-.
  { apply eq_true_iff_eq. rewrite Hr, Hr'.
    split; intros (r & b & n & h & H1 & H2 & H3 & Hin & H4);
      exists r, b, n, h; repeat split; auto;
      [eapply Permutation_in; eassumption
      |eapply Permutation_in; [apply Permutation_sym|]; eassumption]. }
  assert (bt = bt') as <-.
  { apply eq_true_iff_eq. rewrite Ht, Ht'.
    split; intros (r & f0 & fs & mps & h & H1 & H2 & H3 & Hin & H4);
      exists r, f0, fs, mps, h; repeat split; auto;
      [eapply Permutation_in; eassumption
      |eapply Permutation_in; [apply Permutation_sym|]; eassumption]. }
  reflexivity.
Qed.

(** * The window of main.py *)

(** Membership in a list that is written out. *)
Ltac in_list := repeat (first [left; reflexivity | right]).

Section TableFacts.

(** Every label has a name in every offered language: the caption never
    falls back on the label itself or on another language. *)
Lemma names_complete language pose :
  In language (dict_keys LANGUAGES) -> In pose pose_names ->
  translated language pose
    (dict_get_default
       (dict_get_default pose_names_by_language language POSE_NAMES_ID)
       pose pose).
Proof.
  intros Hl Hp. unfold translated.
  cbn in Hl, Hp.
  repeat match goal with
         | H : _ \/ _ |- _ => destruct H as [H|H]
         | H : False |- _ => destruct H
         end; subst; eexists; split; reflexivity.
Qed.

(** Every offered language has the texts that the handlers read. *)
Lemma ui_complete language key :
  In language (dict_keys LANGUAGES) ->
  In key ["camera_title"; "monkey_title"; "show_landmarks";
          "hide_landmarks"; "language"] ->
  exists text, ui_text language key = Return text.
Proof.
  intros Hl Hk. cbn in Hl, Hk.
  repeat match goal with
         | H : _ \/ _ |- _ => destruct H as [H|H]
         | H : False |- _ => destruct H
         end; subst; eexists; reflexivity.
Qed.

End TableFacts.

Section DetectPoseFacts.
Variable cfg : AppConfig.

(** The detector carries the language it was called with, on every way out
    of [detect_pose]. *)
Lemma detect_pose_language frame language self :
  current_language (snd (detect_pose cfg frame language self)) = language.
Proof.
  unfold detect_pose, set_current_language, modify, bind at 1.
  destruct (cvtColor frame) as [[]|[]]; try reflexivity.
  destruct (run_detections frame) as [[[p h] f]|e]; try reflexivity.
  rewrite classify_unfold.
  destruct (determine_pose_keeps cfg p h f
              (counted h f (with_current_language language self)))
    as (_ & _ & ->).
  apply counted_current_language.
Qed.

(** For a frame that is converted or refused with [cv2.error],
    [detect_pose] returns one of the four labels or raises [IndexError]. *)
Lemma detect_pose_outcome frame language self :
  cvtColor frame = Return tt \/ cvtColor frame = Raise Cv2Error ->
  (exists name,
      fst (detect_pose cfg frame language self) = Return name
      /\ In name pose_names)
  \/ fst (detect_pose cfg frame language self) = Raise IndexError.
Proof.
  assert (In "default" pose_names) as Hd by (cbn; tauto).
  unfold detect_pose, set_current_language, modify, bind at 1.
  intros [->| ->].
  - destruct (run_detections frame) as [[[p h] f]|e].
    + apply classify_outcome.
    + left. exists "default". split; [reflexivity|exact Hd].
  - left. exists "default". split; [reflexivity|exact Hd].
Qed.

End DetectPoseFacts.

Section WindowFacts.

Lemma consistent_with_pose_detector d app :
  consistent app -> consistent (App.with_pose_detector d app).
Proof. intros []. constructor; assumption. Qed.

Lemma consistent_with_camera_label w app :
  consistent app -> consistent (App.with_camera_label w app).
Proof. intros []. constructor; assumption. Qed.

(** [_update_pose_name_display] with its label in place. *)
Lemma update_pose_name_display_some app w :
  App.pose_name_label app = Some w ->
  _update_pose_name_display app
  = (Return tt,
     App.with_pose_name_label
       (Some (Qt.setText
                (dict_get_default
                   (dict_get_default pose_names_by_language
                                     (App.current_language app)
                                     POSE_NAMES_ID)
                   (App.current_pose app) (App.current_pose app))
                w))
       app).
Proof.
  intros H. unfold _update_pose_name_display, bind, gets.
  rewrite H. reflexivity.
Qed.

(** The label that [_update_monkey_image] leaves. *)
Lemma update_monkey_image_some app pose_name w c :
  App.monkey_label app = Some w ->
  App.pose_name_label app = Some c ->
  exists w',
    _update_monkey_image pose_name app
    = (Return tt,
       App.with_pose_name_label
         (Some (Qt.setText
                  (dict_get_default
                     (dict_get_default pose_names_by_language
                                       (App.current_language app)
                                       POSE_NAMES_ID)
                     (App.current_pose app) (App.current_pose app))
                  c))
         (App.with_monkey_label (Some w') app))
    /\ Qt.content w' = shown_for (App.monkey_images app) pose_name
    /\ (Qt.styleSheet w' = Qt.styleSheet w
        \/ Qt.styleSheet w' = warning_style CONFIG_ui).
Proof.
  intros Hw Hc. unfold _update_monkey_image, shown_for, bind at 1 2, gets.
  rewrite Hw, Hc. unfold bind at 1, gets.
  destruct (dict_get (App.monkey_images app) pose_name) as [[path|]|];
    [destruct (truthy_path (Some path));
     [exists (Qt.setPixmap (Qt.FromFile path) w)|] | |];
    try exists (Qt.setStyleSheet (warning_style CONFIG_ui)
                  (Qt.setText (not_found_text pose_name) w));
    (split; [|split; [reflexivity|cbn; tauto]]);
    unfold bind, modify;
    rewrite (update_pose_name_display_some _ c) by exact Hc;
    reflexivity.
Qed.

(** A consistent window that turns to another label. *)
Lemma consistent_show_pose app name w' c :
  consistent app -> In name pose_names ->
  Qt.content w' = shown_for (App.monkey_images app) name ->
  consistent
    (App.with_pose_name_label
       (Some (Qt.setText
                (dict_get_default
                   (dict_get_default pose_names_by_language
                                     (App.current_language app)
                                     POSE_NAMES_ID)
                   name name)
                c))
       (App.with_monkey_label (Some w')
                              (App.with_current_pose name app))).
Proof.
  intros [] Hname Hw'. constructor; cbn; try assumption.
  - eexists _, _. split; [reflexivity|]. split; [reflexivity|].
    apply names_complete; assumption.
  - eexists. split; [reflexivity|]. exact Hw'.
Qed.

(** [_update_frame] step by step. *)
Lemma update_frame_unfold cfg tick app :
  _update_frame cfg tick app
  = if negb (isOpened tick) then (Return tt, app) else
    match read tick with
    | None => (Return tt, app)
    | Some frame =>
        match detect_pose cfg frame (App.current_language app)
                          (App.pose_detector app) with
        | (Raise e, d) => (Raise e, App.with_pose_detector d app)
        | (Return pose_name, d) =>
            match to_pixmap tick with
            | Raise _ => (Return tt, App.with_pose_detector d app)
            | Return _ =>
                let shown :=
                  match App.camera_label app with
                  | Some w =>
                      App.with_camera_label
                        (Some (Qt.setPixmap
                                 (Qt.FromFrame frame
                                               (App.show_landmarks app))
                                 w))
                        (App.with_pose_detector d app)
                  | None => App.with_pose_detector d app
                  end in
                if negb (String.eqb pose_name (App.current_pose app))
                then _update_monkey_image
                       pose_name (App.with_current_pose pose_name shown)
                else (Return tt, shown)
            end
        end
    end.
Proof.
  unfold _update_frame.
  destruct (isOpened tick); [|reflexivity]. cbn [negb].
  destruct (read tick) as [frame|]; [|reflexivity].
  unfold bind at 1 2 3, gets, on_pose_detector.
  destruct (detect_pose cfg frame (App.current_language app)
                        (App.pose_detector app)) as [[pose_name|e] d];
    [|reflexivity].
  destruct (to_pixmap tick) as [[]|e]; [|reflexivity].
  unfold bind at 1 2, gets. cbn [App.camera_label App.with_pose_detector].
  destruct (App.camera_label app) as [w|];
    unfold bind at 1, modify, ret, gets;
    cbn [App.current_pose App.with_pose_detector App.with_camera_label];
    destruct (negb (String.eqb pose_name (App.current_pose app)));
    reflexivity.
Qed.

(** A tick keeps the window consistent and lets [IndexError] alone out. *)
Lemma update_frame_consistent cfg tick app :
  consistent app -> expected (Timeout tick) ->
  consistent (snd (_update_frame cfg tick app))
  /\ (fst (_update_frame cfg tick app) = Return tt
      \/ fst (_update_frame cfg tick app) = Raise IndexError).
Proof.
  intros Happ Hexp. rewrite update_frame_unfold.
  destruct (isOpened tick); cbn [negb]; [|split; [assumption|now left]].
  destruct (read tick) as [frame|] eqn:Er; [|split; [assumption|now left]].
  pose proof (detect_pose_outcome cfg frame (App.current_language app)
                (App.pose_detector app) (Hexp frame Er)) as Hout.
  destruct (detect_pose cfg frame (App.current_language app)
                        (App.pose_detector app)) as [[pose_name|e] d].
  - destruct Hout as [(name & [= <-] & Hname)|[=]].
    destruct (to_pixmap tick) as [[]|e].
    + cbv zeta.
      set (shown := match App.camera_label app with
                    | Some w => _
                    | None => _
                    end).
      assert (consistent shown) as Hshown.
      { subst shown. destruct (App.camera_label app).
        - now apply consistent_with_camera_label,
            consistent_with_pose_detector.
        - now apply consistent_with_pose_detector. }
      assert (App.current_pose shown = App.current_pose app) as Hpose
          by (subst shown; now destruct (App.camera_label app)).
      destruct (negb (String.eqb pose_name (App.current_pose app)));
        [|split; [assumption|now left]].
      destruct (monkey_shown _ Hshown) as (w & Hw & _).
      destruct (caption_translated _ Hshown) as (c & ? & Hc & _).
      destruct (update_monkey_image_some
                  (App.with_current_pose pose_name shown) pose_name w c
                  Hw Hc) as (w' & -> & Hw' & _).
      split; [|now left].
      exact (consistent_show_pose shown pose_name w' c Hshown Hname Hw').
    + split; [now apply consistent_with_pose_detector|now left].
  - destruct Hout as [(name & [=] & _)|[= ->]].
    split; [now apply consistent_with_pose_detector|now right].
Qed.

(** The user data of an item is its language code. *)
Lemma itemData_map w index :
  Qt.itemData w index = nth_error (map snd (Qt.items w)) index.
Proof.
  unfold Qt.itemData. rewrite nth_error_map.
  now destruct (nth_error (Qt.items w) index) as [[]|].
Qed.

(** The selection of an offered language retranslates the four texts and
    touches nothing else. *)
Lemma on_language_changed_consistent app index :
  consistent app -> (index < List.length LANGUAGES)%nat ->
  let r := _on_language_changed index app in
  fst r = Return tt
  /\ consistent (snd r)
  /\ nth_error (dict_keys LANGUAGES) index
     = Some (App.current_language (snd r))
  /\ App.current_pose (snd r) = App.current_pose app
  /\ App.show_landmarks (snd r) = App.show_landmarks app
  /\ App.monkey_label (snd r) = App.monkey_label app
  /\ App.camera_label (snd r) = App.camera_label app
  /\ App.monkey_images (snd r) = App.monkey_images app
  /\ App.pose_detector (snd r) = App.pose_detector app.
Proof.
  destruct app as [lang show det images pose cam monkey caption combo cb
                   ct mt].
  intros [Hl Hp (w & Hw & Hitems) (c & cap & Hc & Hcap & _)
          (m & Hm & Hshown) (t1 & x1 & Ht1 & Hx1 & _)
          (t2 & x2 & Ht2 & Hx2 & _) (b & Hb & _)] Hindex.
  cbn in Hl, Hp, Hw, Hc, Hm, Hshown, Ht1, Ht2, Hb. subst.
  assert (Qt.itemData w index = nth_error (dict_keys LANGUAGES) index)
    as Hdata by (rewrite itemData_map, Hitems; reflexivity).
  cbv zeta. unfold _on_language_changed, bind, gets.
  cbn [App.language_combo]. rewrite !Hdata.
  clear Hl Hdata.
  destruct index as [|[|[|index]]]; [| | |cbn in Hindex; lia];
    destruct show;
    destruct Hp as [<-|[<-|[<-|[<-|[]]]]];
    cbn;
    (split; [reflexivity|]);
    (split; [|repeat split]);
    (constructor; cbn;
     [in_list
     |in_list
     |eexists; split; [reflexivity|assumption]
     |eexists _, _; split; [reflexivity|]; split; [reflexivity|];
      eexists; split; reflexivity
     |eexists; split; [reflexivity|assumption]
     |eexists _, _; split; [reflexivity|]; split; reflexivity
     |eexists _, _; split; [reflexivity|]; split; reflexivity
     |eexists; split; reflexivity]).
Qed.

(** The check box sets [show_landmarks] and its own text, nothing else. *)
Lemma on_landmark_toggle_consistent app state :
  consistent app ->
  let r := _on_landmark_toggle state app in
  fst r = Return tt
  /\ consistent (snd r)
  /\ App.show_landmarks (snd r) = Nat.eqb state Qt.Checked
  /\ App.current_language (snd r) = App.current_language app
  /\ App.current_pose (snd r) = App.current_pose app
  /\ App.monkey_label (snd r) = App.monkey_label app
  /\ App.pose_name_label (snd r) = App.pose_name_label app
  /\ App.camera_label (snd r) = App.camera_label app
  /\ App.monkey_images (snd r) = App.monkey_images app
  /\ App.pose_detector (snd r) = App.pose_detector app.
Proof.
  destruct app as [lang show det images pose cam monkey caption combo cb
                   ct mt].
  intros [Hl Hp (w & Hw & Hitems) (c & cap & Hc & Hcap & Hname)
          (m & Hm & Hshown) (t1 & x1 & Ht1 & Hx1 & Hy1)
          (t2 & x2 & Ht2 & Hx2 & Hy2) (b & Hb & _)].
  cbn in Hl, Hp, Hw, Hc, Hm, Hshown, Ht1, Ht2, Hb, Hname, Hy1, Hy2. subst.
  cbv zeta. unfold _on_landmark_toggle.
  set (checked := Nat.eqb state Qt.Checked). clearbody checked.
  destruct Hl as [<-|[<-|[<-|[]]]]; destruct checked; cbn;
    (split; [reflexivity|]);
    (split; [|repeat split]);
    (constructor; cbn;
     [in_list
     |assumption
     |eexists; split; [reflexivity|assumption]
     |eexists _, _; split; [reflexivity|]; split; eassumption
     |eexists; split; [reflexivity|assumption]
     |eexists _, _; split; [reflexivity|]; split; eassumption
     |eexists _, _; split; [reflexivity|]; split; eassumption
     |eexists; split; reflexivity]).
Qed.

(** Every slot keeps the window consistent and lets [IndexError] alone
    out. *)
Lemma slot_consistent cfg s app :
  consistent app -> expected s ->
  consistent (snd (slot cfg s app))
  /\ (fst (slot cfg s app) = Return tt
      \/ fst (slot cfg s app) = Raise IndexError).
Proof.
  intros Happ Hs. destruct s as [tick|index|state]; cbn [slot].
  - now apply update_frame_consistent.
  - destruct (on_language_changed_consistent app index Happ Hs)
      as (-> & H & _). now split; [|left].
  - destruct (on_landmark_toggle_consistent app state Happ)
      as (-> & H & _). now split; [|left].
Qed.

(** So does every sequence of signals. *)
Lemma deliver_consistent cfg signals app :
  consistent app -> Forall expected signals ->
  consistent (snd (deliver cfg signals app))
  /\ (fst (deliver cfg signals app) = Return tt
      \/ fst (deliver cfg signals app) = Raise IndexError).
Proof.
  intros Happ Hs. revert app Happ.
  induction Hs as [|s rest Hs _ IH]; intros app Happ.
  - now split; [|left].
  - cbn [deliver]. unfold bind.
    destruct (slot_consistent cfg s app Happ Hs) as (Hc & Hr).
    destruct (slot cfg s app) as [[[]|e] app'].
    + apply IH, Hc.
    + destruct Hr as [[=]|[= ->]]. now split; [|right].
Qed.

End WindowFacts.



(** ** What the slots leave alone *)

(** One step of a slot on a window that is written out. *)
Ltac run_slot :=
  unfold bind, gets, lift, modify, ret, raise;
  cbv beta iota;
  cbn [fst snd App.current_language App.show_landmarks App.pose_detector
       App.monkey_images App.current_pose App.camera_label
       App.monkey_label App.pose_name_label App.language_combo
       App.landmark_checkbox App.camera_title App.monkey_title
       App.with_current_language App.with_show_landmarks
       App.with_pose_detector App.with_current_pose App.with_camera_label
       App.with_monkey_label App.with_pose_name_label
       App.with_language_combo App.with_landmark_checkbox
       App.with_camera_title App.with_monkey_title].

Section FrameFacts.

(** A change of language, whether it returns or raises, leaves the pose,
    the landmark switch, the detector, the images, the camera label, the
    monkey label and the combo box. *)
Lemma on_language_changed_frame index app :
  let r := _on_language_changed index app in
  App.current_pose (snd r) = App.current_pose app
  /\ App.show_landmarks (snd r) = App.show_landmarks app
  /\ App.pose_detector (snd r) = App.pose_detector app
  /\ App.monkey_images (snd r) = App.monkey_images app
  /\ App.camera_label (snd r) = App.camera_label app
  /\ App.monkey_label (snd r) = App.monkey_label app
  /\ App.language_combo (snd r) = App.language_combo app.
Proof.
  destruct app as [lang show det images pose cam monkey caption combo cb
                   ct mt].
  cbv zeta. unfold _on_language_changed, _update_pose_name_display.
  run_slot.
  destruct combo as [w|]; [|repeat split].
  destruct (Qt.itemData w index) as [lang_code|]; [|repeat split].
  destruct ct, (ui_text lang_code "camera_title"); run_slot;
    try (repeat split; fail);
    (destruct mt, (ui_text lang_code "monkey_title"); run_slot;
     try (repeat split; fail));
    (destruct cb; run_slot;
     [destruct (ui_text lang_code
                        (if show then "show_landmarks"
                         else "hide_landmarks")); run_slot|];
     try (repeat split; fail));
    destruct caption; repeat split.
Qed.

(** The check box, whether its slot returns or raises, sets the landmark
    switch and leaves all but its own text. *)
Lemma on_landmark_toggle_frame state app :
  let r := _on_landmark_toggle state app in
  App.show_landmarks (snd r) = Nat.eqb state Qt.Checked
  /\ App.current_language (snd r) = App.current_language app
  /\ App.current_pose (snd r) = App.current_pose app
  /\ App.pose_detector (snd r) = App.pose_detector app
  /\ App.monkey_images (snd r) = App.monkey_images app
  /\ App.camera_label (snd r) = App.camera_label app
  /\ App.monkey_label (snd r) = App.monkey_label app
  /\ App.pose_name_label (snd r) = App.pose_name_label app
  /\ App.language_combo (snd r) = App.language_combo app
  /\ App.camera_title (snd r) = App.camera_title app
  /\ App.monkey_title (snd r) = App.monkey_title app.
Proof.
  destruct app as [lang show det images pose cam monkey caption combo cb
                   ct mt].
  cbv zeta. unfold _on_landmark_toggle. run_slot.
  destruct cb; [|repeat split].
  run_slot.
  match goal with
  | |- context [ui_text lang ?k] => destruct (ui_text lang k)
  end; repeat split.
Qed.


(** [_update_monkey_image] on any window: it returns, and changes at most
    the monkey label and the caption; the style sheet of the monkey label is
    kept or becomes the warning one. *)
Lemma update_monkey_image_frame app pose_name :
  exists m' c',
    _update_monkey_image pose_name app
    = (Return tt,
       App.with_pose_name_label c' (App.with_monkey_label m' app))
    /\ (forall w,
           App.monkey_label app = Some w ->
           exists w',
             m' = Some w'
             /\ (Qt.styleSheet w' = Qt.styleSheet w
                 \/ Qt.styleSheet w' = warning_style CONFIG_ui)).
Proof.
  destruct (App.monkey_label app) as [w|] eqn:Hw;
    [destruct (App.pose_name_label app) as [c|] eqn:Hc|].
  - destruct (update_monkey_image_some app pose_name w c Hw Hc)
      as (w' & -> & _ & Hstyle).
    eexists _, _. split; [reflexivity|].
    intros ? [= <-]. now exists w'.
  - exists (Some w), None. split.
    + unfold _update_monkey_image, bind, gets. rewrite Hw, Hc.
      destruct app; cbn in Hw, Hc; subst; reflexivity.
    + intros ? [= <-]. exists w. now split; [|left].
  - exists None, (App.pose_name_label app). split; [|discriminate].
    unfold _update_monkey_image, bind, gets. rewrite Hw.
    destruct app; cbn in Hw; subst; reflexivity.
Qed.

(** A tick changes at most the detector, the camera label, the pose, the
    monkey label and the caption. *)
Lemma update_frame_frame cfg tick app :
  exists d cam' pose' m' c',
    snd (_update_frame cfg tick app)
    = App.with_pose_name_label c'
        (App.with_monkey_label m'
           (App.with_current_pose pose'
              (App.with_camera_label cam'
                 (App.with_pose_detector d app))))
    /\ (forall frame,
           isOpened tick = true -> read tick = Some frame ->
           d = snd (detect_pose cfg frame (App.current_language app)
                                (App.pose_detector app)))
    /\ (forall w,
           App.monkey_label app = Some w ->
           exists w',
             m' = Some w'
             /\ (Qt.styleSheet w' = Qt.styleSheet w
                 \/ Qt.styleSheet w' = warning_style CONFIG_ui))
    /\ (forall e,
           to_pixmap tick = Raise e ->
           cam' = App.camera_label app /\ pose' = App.current_pose app
           /\ m' = App.monkey_label app
           /\ c' = App.pose_name_label app).
Proof.
  rewrite update_frame_unfold.
  assert (forall d,
             App.with_pose_name_label (App.pose_name_label app)
               (App.with_monkey_label (App.monkey_label app)
                  (App.with_current_pose (App.current_pose app)
                     (App.with_camera_label (App.camera_label app)
                        (App.with_pose_detector d app))))
             = App.with_pose_detector d app) as Hsame
      by (intros; now destruct app).
  assert (forall w, App.monkey_label app = Some w ->
                    exists w', App.monkey_label app = Some w'
                               /\ (Qt.styleSheet w' = Qt.styleSheet w
                                   \/ Qt.styleSheet w'
                                      = warning_style CONFIG_ui))
    as Hkeep by (intros w Hw; exists w; now split; [|left]).
  destruct (isOpened tick); cbn [negb].
  2:{ exists (App.pose_detector app), (App.camera_label app),
        (App.current_pose app), (App.monkey_label app),
        (App.pose_name_label app).
      split; [now destruct app|]. split; [discriminate|]. now split. }
  destruct (read tick) as [frame|].
  2:{ exists (App.pose_detector app), (App.camera_label app),
        (App.current_pose app), (App.monkey_label app),
        (App.pose_name_label app).
      split; [now destruct app|]. split; [discriminate|]. now split. }
  destruct (detect_pose cfg frame (App.current_language app)
                        (App.pose_detector app)) as [[pose_name|e] d] eqn:Ed.
  2:{ exists d, (App.camera_label app), (App.current_pose app),
        (App.monkey_label app), (App.pose_name_label app).
      split; [now rewrite Hsame|]. split; [now intros ? _ [= <-]; rewrite Ed|].
      now split. }
  destruct (to_pixmap tick) as [[]|e].
  2:{ exists d, (App.camera_label app), (App.current_pose app),
        (App.monkey_label app), (App.pose_name_label app).
      split; [now rewrite Hsame|]. split; [now intros ? _ [= <-]; rewrite Ed|].
      now split. }
  cbv zeta.
  set (cam' := match App.camera_label app with
               | Some w =>
                   Some (Qt.setPixmap
                           (Qt.FromFrame frame (App.show_landmarks app)) w)
               | None => None
               end).
  assert (match App.camera_label app with
          | Some w =>
              App.with_camera_label
                (Some (Qt.setPixmap
                         (Qt.FromFrame frame (App.show_landmarks app)) w))
                (App.with_pose_detector d app)
          | None => App.with_pose_detector d app
          end
          = App.with_camera_label cam' (App.with_pose_detector d app))
    as -> by (subst cam'; now destruct app as [? ? ? ? ? [?|]]).
  destruct (negb (String.eqb pose_name (App.current_pose app))).
  - destruct (update_monkey_image_frame
                (App.with_current_pose pose_name
                   (App.with_camera_label
                      cam' (App.with_pose_detector d app)))
                pose_name) as (m' & c' & -> & Hm').
    exists d, cam', pose_name, m', c'.
    split; [reflexivity|]. split; [now intros ? _ [= <-]; rewrite Ed|].
    split; [exact Hm'|discriminate].
  - exists d, cam', (App.current_pose app), (App.monkey_label app),
      (App.pose_name_label app).
    split; [now destruct app|]. split; [now intros ? _ [= <-]; rewrite Ed|].
    split; [exact Hkeep|discriminate].
Qed.


End FrameFacts.

(** ** The window at start *)

(** With a camera and the models [__init__] returns a consistent window. *)
Lemma init_consistent sep path_exists a b c d e :
  exists app,
    __init__ sep path_exists true (Return tt) a b c d e = Return app
    /\ consistent app
    /\ App.current_language app = "id"
    /\ App.current_pose app = "default"
    /\ App.show_landmarks app = true
    /\ App.monkey_images app = _load_monkey_images sep path_exists
    /\ App.pose_detector app
       = {| debug_info := DebugInfo_default; current_language := "id" |}.
Proof.
  unfold __init__, _load_monkey_images, pose_paths, load_loop.
  destruct (path_exists (Assets.raising_hand sep Assets.CONFIG_assets)),
    (path_exists (Assets.shocking sep Assets.CONFIG_assets)),
    (path_exists (Assets.thinking sep Assets.CONFIG_assets)),
    (path_exists (Assets.default sep Assets.CONFIG_assets)).
  all: eexists; (split; [vm_compute; reflexivity|]).
  all: split; [|repeat split].
  all: constructor;
     [in_list
     |in_list
     |eexists; split; reflexivity
     |eexists _, _; split; [reflexivity|]; split; [reflexivity|];
      eexists; split; reflexivity
     |eexists; split; reflexivity
     |eexists _, _; split; [reflexivity|]; split; reflexivity
     |eexists _, _; split; [reflexivity|]; split; reflexivity
     |eexists; split; reflexivity].
Qed.

(** ** Ticks, labels and the combo box *)

Section TickFacts.

(** A label that [detect_pose] returns is one of the four, for any frame. *)
Lemma detect_pose_label cfg frame language self name :
  fst (detect_pose cfg frame language self) = Return name ->
  In name pose_names.
Proof.
  unfold detect_pose, set_current_language, modify, bind at 1.
  destruct (cvtColor frame) as [[]|[]]; try discriminate.
  - destruct (run_detections frame) as [[[p h] f]|e].
    + destruct (classify_outcome cfg p h f
                  (with_current_language language self))
        as [(name' & -> & Hname)| ->]; [|discriminate].
      now intros [= <-].
    + intros [= <-]. in_list.
  - intros [= <-]. in_list.
Qed.

(** [l.index(x)] is a position of [x]. *)
Lemma list_index_nth l x i :
  list_index l x = Return i -> nth_error l i = Some x.
Proof.
  revert i. induction l as [|y rest IH]; intros i; cbn; [discriminate|].
  destruct (String.eqb y x) eqn:E.
  - apply String.eqb_eq in E. now intros [= <-]; subst.
  - destruct (list_index rest x) as [j|e]; [|discriminate].
    intros [= <-]. now apply IH.
Qed.

(** The items that the loop over a table adds to a combo box. *)
Lemma items_fold (d : dict string) w :
  Qt.items
    (fold_left (fun w '(code, name) => Qt.addItem name code w) d w)
  = Qt.items w ++ map (fun '(code, name) => (name, code)) d.
Proof.
  revert w. induction d as [|[code name] rest IH]; intros w; cbn.
  - now rewrite app_nil_r.
  - rewrite IH. cbn. now rewrite <- app_assoc.
Qed.

(** A tick that detects and shows a frame, on a consistent window. *)
Lemma update_frame_shows cfg tick frame name d app :
  consistent app ->
  isOpened tick = true -> read tick = Some frame ->
  to_pixmap tick = Return tt ->
  detect_pose cfg frame (App.current_language app) (App.pose_detector app)
  = (Return name, d) ->
  let r := _update_frame cfg tick app in
  fst r = Return tt
  /\ consistent (snd r)
  /\ App.current_pose (snd r) = name
  /\ App.pose_detector (snd r) = d
  /\ App.camera_label (snd r)
     = match App.camera_label app with
       | Some w =>
           Some (Qt.setPixmap (Qt.FromFrame frame (App.show_landmarks app))
                              w)
       | None => None
       end.
Proof.
  intros Happ Ho Hr Hp Hd. cbv zeta.
  assert (In name pose_names) as Hname
      by (apply (detect_pose_label cfg frame (App.current_language app)
                   (App.pose_detector app)); now rewrite Hd).
  rewrite update_frame_unfold, Ho, Hr, Hd, Hp. cbn [negb]. cbv zeta.
  set (shown := match App.camera_label app with
                | Some w => _
                | None => _
                end).
  assert (consistent shown) as Hshown.
  { subst shown. destruct (App.camera_label app).
    - now apply consistent_with_camera_label,
        consistent_with_pose_detector.
    - now apply consistent_with_pose_detector. }
  assert (App.current_pose shown = App.current_pose app
          /\ App.pose_detector shown = d
          /\ App.camera_label shown
             = match App.camera_label app with
               | Some w =>
                   Some (Qt.setPixmap
                           (Qt.FromFrame frame (App.show_landmarks app)) w)
               | None => None
               end) as (Hpose & Hdet & Hcam)
      by (subst shown; destruct app as [? ? ? ? ? [?|]]; repeat split).
  destruct (String.eqb name (App.current_pose app)) eqn:E; cbn [negb].
  - apply String.eqb_eq in E. cbn [fst snd].
    split; [reflexivity|]. split; [assumption|].
    split; [congruence|]. now split.
  - destruct (monkey_shown _ Hshown) as (w & Hw & _).
    destruct (caption_translated _ Hshown) as (c & ? & Hc & _).
    destruct (update_monkey_image_some
                (App.with_current_pose name shown) name w c Hw Hc)
      as (w' & -> & Hw' & _).
    cbn [fst snd]. split; [reflexivity|].
    split; [exact (consistent_show_pose shown name w' c Hshown Hname Hw')|].
    split; [reflexivity|]. now split.
Qed.

(** No slot takes the warning style sheet off the monkey label. *)
Lemma slot_keeps_warning cfg s app w :
  App.monkey_label app = Some w ->
  Qt.styleSheet w = warning_style CONFIG_ui ->
  exists w',
    App.monkey_label (snd (slot cfg s app)) = Some w'
    /\ Qt.styleSheet w' = warning_style CONFIG_ui.
Proof.
  intros Hw Hstyle. destruct s as [tick|index|state]; cbn [slot].
  - destruct (update_frame_frame cfg tick app)
      as (d & cam' & pose' & m' & c' & -> & _ & Hm' & _).
    destruct (Hm' w Hw) as (w' & -> & Hw').
    exists w'. split; [reflexivity|]. destruct Hw'; congruence.
  - destruct (on_language_changed_frame index app)
      as (_ & _ & _ & _ & _ & -> & _). now exists w.
  - destruct (on_landmark_toggle_frame state app)
      as (_ & _ & _ & _ & _ & _ & -> & _). now exists w.
Qed.

End TickFacts.

(** * Properties of the window *)

(** The example window is what [__init__] leaves when the image of the
    raised hand alone is on disk. *)
Lemma example_window_init :
  __init__ "/" only_raising_hand true (Return tt) "" "" "" "" ""
  = Return example_window.
Proof. vm_compute. reflexivity. Qed.

Lemma example_window_consistent : consistent example_window.
Proof.
  destruct (init_consistent "/" only_raising_hand "" "" "" "" "")
    as (app & Happ & Hc & _).
  rewrite example_window_init in Happ. now injection Happ as <-.
Qed.

(** The four images as [_load_monkey_images] stores them. *)
Lemma load_monkey_images_unfold sep path_exists :
  _load_monkey_images sep path_exists
  = map (fun pose =>
           let path := Assets.joinpath sep "assets" (pose ++ "_pose.jpg") in
           (pose, if path_exists path then Some path else None))
        ["raising_hand"; "shocking"; "thinking"; "default"].
Proof.
  unfold _load_monkey_images, pose_paths, load_loop.
  destruct (path_exists (Assets.raising_hand sep Assets.CONFIG_assets))
    eqn:E1,
    (path_exists (Assets.shocking sep Assets.CONFIG_assets)) eqn:E2,
    (path_exists (Assets.thinking sep Assets.CONFIG_assets)) eqn:E3,
    (path_exists (Assets.default sep Assets.CONFIG_assets)) eqn:E4;
    cbn [map]; cbv zeta;
    change (Assets.joinpath sep "assets" ("raising_hand" ++ "_pose.jpg"))
      with (Assets.raising_hand sep Assets.CONFIG_assets);
    change (Assets.joinpath sep "assets" ("shocking" ++ "_pose.jpg"))
      with (Assets.shocking sep Assets.CONFIG_assets);
    change (Assets.joinpath sep "assets" ("thinking" ++ "_pose.jpg"))
      with (Assets.thinking sep Assets.CONFIG_assets);
    change (Assets.joinpath sep "assets" ("default" ++ "_pose.jpg"))
      with (Assets.default sep Assets.CONFIG_assets);
    rewrite E1, E2, E3, E4; reflexivity.
Qed.


(** X14.  Every window that the signals reach from [__init__] is
    consistent (an offered language, one of the four poses, every text in
    the language, caption and image those of the pose), and no slot lets
    out anything but the [IndexError] of the detector: no [KeyError] of a
    table, no [AttributeError] of a missing widget. *)
Theorem window_stays_consistent
        (cfg : AppConfig) (sep : string) (path_exists : string -> bool)
        (a b c d e : string) (app : App.t) (signals : list signal) :
  __init__ sep path_exists true (Return tt) a b c d e = Return app ->
  Forall expected signals ->
  let final := deliver cfg signals app in
  consistent (snd final)
  /\ (fst final = Return tt \/ fst final = Raise IndexError).
Proof.
  intros Hinit Hsignals. cbv zeta. apply deliver_consistent; [|assumption].
  destruct (init_consistent sep path_exists a b c d e)
    as (app' & Happ' & Hc & _).
  rewrite Hinit in Happ'. now injection Happ' as <-.
Qed.

(** X15.  A tick that reads a frame, gets a label from the detector and can
    show the frame leaves that label as the current pose of a consistent
    window, with the caption and the image of that label, the detector as
    [detect_pose] left it and the frame on the camera label. *)
Theorem frame_shows_detected_pose
        (cfg : AppConfig) (tick : Tick) (frame : Frame) (name : string)
        (d : PoseDetector) (app : App.t) :
  consistent app ->
  isOpened tick = true -> read tick = Some frame ->
  to_pixmap tick = Return tt ->
  detect_pose cfg frame (App.current_language app) (App.pose_detector app)
  = (Return name, d) ->
  let r := _update_frame cfg tick app in
  fst r = Return tt
  /\ consistent (snd r)
  /\ App.current_pose (snd r) = name
  /\ App.pose_detector (snd r) = d
  /\ App.camera_label (snd r)
     = match App.camera_label app with
       | Some w =>
           Some (Qt.setPixmap (Qt.FromFrame frame (App.show_landmarks app))
                              w)
       | None => None
       end.
Proof. apply update_frame_shows. Qed.

(** X16.  A tick never touches the settings: language, landmark switch,
    images, combo box, check box and the two titles are as before, whatever
    the camera, the detector and the display do.  Without a camera or a
    frame it changes nothing at all, and when the frame cannot be shown the
    pose and the three labels stay as they were, though the detector has
    run. *)
Theorem tick_keeps_settings (cfg : AppConfig) (tick : Tick) (app : App.t) :
  let r := _update_frame cfg tick app in
  App.current_language (snd r) = App.current_language app
  /\ App.show_landmarks (snd r) = App.show_landmarks app
  /\ App.monkey_images (snd r) = App.monkey_images app
  /\ App.language_combo (snd r) = App.language_combo app
  /\ App.landmark_checkbox (snd r) = App.landmark_checkbox app
  /\ App.camera_title (snd r) = App.camera_title app
  /\ App.monkey_title (snd r) = App.monkey_title app
  /\ (isOpened tick = false \/ read tick = None -> r = (Return tt, app))
  /\ (forall exc,
         to_pixmap tick = Raise exc ->
         App.current_pose (snd r) = App.current_pose app
         /\ App.camera_label (snd r) = App.camera_label app
         /\ App.monkey_label (snd r) = App.monkey_label app
         /\ App.pose_name_label (snd r) = App.pose_name_label app).
Proof.
  cbv zeta.
  destruct (update_frame_frame cfg tick app)
    as (d & cam' & pose' & m' & c' & Hr & _ & _ & Hfail).
  rewrite Hr. repeat (split; [reflexivity|]). split.
  - rewrite update_frame_unfold.
    intros [->|H]; [reflexivity|].
    destruct (isOpened tick); cbn [negb]; [|reflexivity].
    now rewrite H.
  - intros exc Hexc. destruct (Hfail exc Hexc) as (-> & -> & -> & ->).
    repeat split.
Qed.

(** X17.  Selecting an item of the combo box on a consistent window
    returns, makes the item's language the current one and leaves the
    window consistent, so that both titles, the check box and the caption
    are in the new language; pose, landmark switch, images, detector,
    camera label and monkey label are untouched. *)
Theorem language_change_retranslates (index : nat) (app : App.t) :
  consistent app -> (index < List.length LANGUAGES)%nat ->
  let r := _on_language_changed index app in
  fst r = Return tt
  /\ consistent (snd r)
  /\ nth_error (dict_keys LANGUAGES) index
     = Some (App.current_language (snd r))
  /\ App.current_pose (snd r) = App.current_pose app
  /\ App.show_landmarks (snd r) = App.show_landmarks app
  /\ App.monkey_label (snd r) = App.monkey_label app
  /\ App.camera_label (snd r) = App.camera_label app
  /\ App.monkey_images (snd r) = App.monkey_images app
  /\ App.pose_detector (snd r) = App.pose_detector app.
Proof. apply on_language_changed_consistent. Qed.

Lemma language_change_retranslates_witness :
  consistent example_window
  /\ (1 < List.length LANGUAGES)%nat
  /\ nth_error (dict_keys LANGUAGES) 1
     = Some (App.current_language
               (snd (_on_language_changed 1 example_window)))
  /\ App.pose_name_label (snd (_on_language_changed 1 example_window))
     = Some {| Qt.content := Qt.Text "🙂 Default Pose";
               Qt.styleSheet := "" |}.
Proof.
  assert (1 < List.length LANGUAGES)%nat as H by (repeat constructor).
  split; [exact example_window_consistent|]. split; [exact H|].
  split; [|reflexivity].
  exact (proj1 (proj2 (proj2
           (language_change_retranslates
              1 example_window example_window_consistent H)))).
Defined.

(** X18.  The check box sets [show_landmarks] to whether the new state is
    [Checked] and its own text to match, in the current language; on a
    consistent window it returns and leaves everything else alone. *)
Theorem landmark_toggle_sets_flag_and_text (state : nat) (app : App.t) :
  consistent app ->
  let r := _on_landmark_toggle state app in
  fst r = Return tt
  /\ consistent (snd r)
  /\ App.show_landmarks (snd r) = Nat.eqb state Qt.Checked
  /\ App.current_language (snd r) = App.current_language app
  /\ App.current_pose (snd r) = App.current_pose app
  /\ App.monkey_label (snd r) = App.monkey_label app
  /\ App.pose_name_label (snd r) = App.pose_name_label app
  /\ App.camera_label (snd r) = App.camera_label app
  /\ App.monkey_images (snd r) = App.monkey_images app
  /\ App.pose_detector (snd r) = App.pose_detector app.
Proof. apply on_landmark_toggle_consistent. Qed.

Lemma landmark_toggle_sets_flag_and_text_witness :
  consistent example_window
  /\ App.show_landmarks (snd (_on_landmark_toggle 0 example_window)) = false
  /\ App.landmark_checkbox (snd (_on_landmark_toggle 0 example_window))
     = Some {| Qt.text := "Sembunyikan Garis Deteksi" |}.
Proof.
  split; [exact example_window_consistent|].
  pose proof (landmark_toggle_sets_flag_and_text
                0 example_window example_window_consistent)
    as (_ & _ & Hs & _).
  split; [exact Hs|reflexivity].
Defined.

(** X19.  Whatever label [detect_pose] returns has a name in each offered
    language and an entry among the loaded images, the path
    [assets/<label>_pose.jpg] when that file exists and [None] when not:
    the window never falls back on the raw label for want of a
    translation, nor misses the key of an image. *)
Theorem labels_have_names_and_images
        (cfg : AppConfig) (frame : Frame) (language : string)
        (self : PoseDetector) (name : string)
        (sep : string) (path_exists : string -> bool) (lang : string) :
  fst (detect_pose cfg frame language self) = Return name ->
  In lang (dict_keys LANGUAGES) ->
  (exists caption, translated lang name caption)
  /\ dict_get (_load_monkey_images sep path_exists) name
     = let path := Assets.joinpath sep "assets" (name ++ "_pose.jpg") in
       Some (if path_exists path then Some path else None).
Proof.
  intros Hname Hlang. apply detect_pose_label in Hname. split.
  - eexists. apply names_complete; eassumption.
  - rewrite load_monkey_images_unfold. cbv zeta.
    destruct Hname as [<-|[<-|[<-|[<-|[]]]]]; reflexivity.
Qed.

(** X20.  Once the monkey label has the warning style sheet of a missing
    image, no sequence of signals takes it off again: an image that is
    found later is shown inside the dashed warning border. *)
Theorem warning_style_sticks
        (cfg : AppConfig) (signals : list signal) (app : App.t)
        (w : Qt.QLabel) :
  App.monkey_label app = Some w ->
  Qt.styleSheet w = warning_style CONFIG_ui ->
  exists w',
    App.monkey_label (snd (deliver cfg signals app)) = Some w'
    /\ Qt.styleSheet w' = warning_style CONFIG_ui.
Proof.
  revert app w. induction signals as [|s rest IH]; intros app w Hw Hstyle.
  - now exists w.
  - cbn [deliver]. unfold bind.
    destruct (slot_keeps_warning cfg s app w Hw Hstyle) as (w1 & Hw1 & H1).
    destruct (slot cfg s app) as [[[]|exc] app1]; cbn [snd] in Hw1.
    + exact (IH app1 w1 Hw1 H1).
    + now exists w1.
Qed.

(** X21.  After a tick that read a frame the detector carries the language
    of the window, also when [detect_pose] raises or the frame cannot be
    shown; a change of language reaches the detector with the next frame. *)
Theorem detector_language_follows_window
        (cfg : AppConfig) (tick : Tick) (frame : Frame) (app : App.t) :
  isOpened tick = true -> read tick = Some frame ->
  let app' := snd (_update_frame cfg tick app) in
  current_language (App.pose_detector app') = App.current_language app'
  /\ App.current_language app' = App.current_language app.
Proof.
  intros Ho Hr. cbv zeta.
  destruct (update_frame_frame cfg tick app)
    as (d & cam' & pose' & m' & c' & -> & Hd & _).
  rewrite (Hd frame Ho Hr). cbn. split; [|reflexivity].
  apply detect_pose_language.
Qed.

(** X22.  [_load_monkey_images] has an entry for each of the four labels,
    in the order raising hand, shocking, thinking, default, and for nothing
    else; the entry is the path [assets/<label>_pose.jpg] when that file
    exists and [None] when it does not. *)
Theorem load_monkey_images_entries
        (sep : string) (path_exists : string -> bool) (pose : string) :
  let images := _load_monkey_images sep path_exists in
  dict_keys images = ["raising_hand"; "shocking"; "thinking"; "default"]
  /\ dict_get images pose
     = if existsb (String.eqb pose) (dict_keys images)
       then let path :=
              Assets.joinpath sep "assets" (pose ++ "_pose.jpg") in
            Some (if path_exists path then Some path else None)
       else None.
Proof.
  cbv zeta. rewrite load_monkey_images_unfold. split; [reflexivity|].
  unfold dict_keys. rewrite map_map. cbn [map fst existsb dict_get].
  cbv zeta.
  rewrite (String.eqb_sym "raising_hand"), (String.eqb_sym "shocking"),
    (String.eqb_sym "thinking"), (String.eqb_sym "default").
  destruct (String.eqb_spec pose "raising_hand") as [->|_];
    [reflexivity|].
  destruct (String.eqb_spec pose "shocking") as [->|_]; [reflexivity|].
  destruct (String.eqb_spec pose "thinking") as [->|_]; [reflexivity|].
  destruct (String.eqb_spec pose "default") as [->|_]; reflexivity.
Qed.

(** X23.  The combo box is filled so that [itemData] undoes [index]: at the
    position of a language code among the keys of the table, the item's
    data is that code, for any table of languages. *)
Theorem combo_index_round_trip
        (languages : dict string) (lang_code : string) (index : nat) :
  list_index (dict_keys languages) lang_code = Return index ->
  Qt.itemData
    (fold_left (fun w '(lang_code, lang_name) =>
                  Qt.addItem lang_name lang_code w)
               languages {| Qt.items := [] |})
    index
  = Some lang_code.
Proof.
  intros H. apply list_index_nth in H.
  rewrite itemData_map, items_fold. cbn [Qt.items app].
  rewrite map_map. unfold dict_keys in H.
  rewrite <- H. f_equal. apply map_ext. now intros [].
Qed.

Lemma combo_index_round_trip_witness :
  list_index (dict_keys LANGUAGES) "tr" = Return 2%nat
  /\ Qt.itemData
       (fold_left (fun w '(lang_code, lang_name) =>
                     Qt.addItem lang_name lang_code w)
                  LANGUAGES {| Qt.items := [] |})
       2
     = Some "tr".
Proof.
  split; [reflexivity|].
  exact (combo_index_round_trip LANGUAGES "tr" 2 eq_refl).
Defined.

End Platform.

(** * Runs with the correctly rounded power *)

(** Nose at 0.40, one wrist at 0.30, threshold 0.05: "raising_hand", with
    [hand_height] the binary64 difference. *)
Example scenario_raising_hand :
  let final := classify exact_pow2 CONFIG (some_pose nose0)
                        (some_hands [high_hand])
                        None stale in
  fst final = Return "raising_hand"
  /\ hand_height (debug_info (snd final)) = 0.10000000000000003
  /\ hands_detected (debug_info (snd final)) = 1%nat.
Proof. repeat split. Qed.

(** Forehead 0.10, chin 0.60, lips 0.30 and 0.40: "shocking". *)
Example scenario_shocking :
  let final := classify exact_pow2 CONFIG None None
                        (some_faces [open_face]) stale in
  fst final = Return "shocking"
  /\ mouth_ratio (debug_info (snd final)) = 0.20000000000000007
  /\ face_detected (debug_info (snd final)) = true.
Proof. repeat split. Qed.

(** Fingertip at (0.50, 0.50), mouth centre at (0.52, 0.51): "thinking". *)
Example scenario_thinking :
  distance exact_pow2 (lm 0.50 0.50) (lm 0.52 0.51) = 0.022360679774997918
  /\ fst (classify exact_pow2 CONFIG None (some_hands [low_hand])
                   (some_faces [open_face]) stale) = Return "thinking".
Proof. repeat split. Qed.

(** A raised hand at the mouth of an open-mouthed face is "raising_hand";
    the same hand with the wrist down is "thinking". *)
Lemma determine_pose_priority_witness :
  fst (_determine_pose exact_pow2 CONFIG (some_pose nose0)
                       (some_hands [high_hand])
                       (some_faces [open_face]) stale)
  = Return "raising_hand"
  /\ fst (_is_thinking exact_pow2 CONFIG (some_pose nose0)
                       (some_hands [high_hand])
                       (some_faces [open_face]) stale) = Return true
  /\ fst (_is_shocking CONFIG (some_faces [open_face]) stale) = Return true
  /\ fst (_determine_pose exact_pow2 CONFIG (some_pose nose0)
                          (some_hands [low_hand])
                          (some_faces [open_face]) stale)
     = Return "thinking".
Proof.
  split; [|split; [|split]].
  - apply (determine_pose_priority exact_pow2 CONFIG (some_pose nose0)
             (some_hands [high_hand]) (some_faces [open_face])
             stale stale stale stale).
    reflexivity.
  - reflexivity.
  - reflexivity.
  - apply (determine_pose_priority exact_pow2 CONFIG (some_pose nose0)
             (some_hands [low_hand]) (some_faces [open_face])
             stale stale stale stale); reflexivity.
Defined.

(** The raised hand fires; after it a hand without landmarks is not read. *)
Lemma raising_hand_strict_witness :
  _is_raising_hand CONFIG (some_pose nose0)
                   (some_hands [low_hand; high_hand; bare_hand]) stale
  = (Return true, with_hand_height (0.40 - 0.30) stale)
  /\ _determine_pose exact_pow2 CONFIG (some_pose nose0)
                     (some_hands [low_hand; high_hand; bare_hand])
                     (some_faces [open_face]) stale
     = (Return "raising_hand", with_hand_height (0.40 - 0.30) stale).
Proof.
  refine (proj2 (proj2 (raising_hand_strict
                          exact_pow2 CONFIG (body_of nose0) nose0
                          [low_hand; high_hand; bare_hand] stale
                          eq_refl _))
                [low_hand] high_hand [bare_hand] (0.40 - 0.30)
                (some_faces [open_face]) eq_refl _ eq_refl eq_refl).
  - discriminate.
  - constructor; [|constructor]. exists (0.40 - 0.90). split; reflexivity.
Defined.

(** Two hands below the threshold, the first the higher one: [hand_height]
    is the second hand's 0.40 - 0.90, not the first hand's 0.40 - 0.36. *)
Lemma hand_height_last_evaluated_witness :
  fst (_is_raising_hand CONFIG (some_pose nose0)
                        (some_hands [side_hand; low_hand]) stale)
  = Return false
  /\ fst (classify exact_pow2 CONFIG (some_pose nose0)
                   (some_hands [side_hand; low_hand]) None stale)
     <> Return "raising_hand"
  /\ hand_height
       (debug_info
          (snd (classify exact_pow2 CONFIG (some_pose nose0)
                         (some_hands [side_hand; low_hand]) None stale)))
     = 0.40 - 0.90.
Proof.
  refine (proj1 (proj2 (hand_height_last_evaluated
                          exact_pow2 CONFIG (some_pose nose0)
                          (some_hands [side_hand; low_hand]) None stale))
                (body_of nose0) nose0 [side_hand] low_hand (0.40 - 0.90)
                eq_refl eq_refl eq_refl _ eq_refl eq_refl).
  constructor; [|constructor]. exists (0.40 - 0.36). split; reflexivity.
Defined.


Lemma empty_snapshot_default_witness :
  classify exact_pow2 CONFIG None (some_hands []) None stale
  = (Return "default",
     with_debug_info {| mouth_ratio := 0.0; hand_height := 0.0;
                        hands_detected := 0; face_detected := false |}
                     stale)
  /\ detect_pose exact_pow2 CONFIG (frame_of None (some_hands []) None)
                 "id" stale
     = (Return "default",
        {| debug_info := {| mouth_ratio := 0.0; hand_height := 0.0;
                            hands_detected := 0; face_detected := false |};
           current_language := "id" |}).
Proof.
  exact (empty_snapshot_default exact_pow2 CONFIG None (some_hands []) None
           "id" stale I eq_refl I).
Defined.

(** After a frame with an open mouth, a frame on which the hand detector
    raises and a frame that cannot be converted both leave [mouth_ratio] at
    the open mouth's value. *)
Lemma detect_pose_failure_keeps_metrics_witness :
  let after := snd (detect_pose exact_pow2 CONFIG
                      (frame_of None None (some_faces [open_face]))
                      "id" stale) in
  (fst (detect_pose exact_pow2 CONFIG failing_frame "en" after)
   = Return "default"
   /\ mouth_ratio
        (debug_info
           (snd (detect_pose exact_pow2 CONFIG failing_frame "en" after)))
      = abs (0.40 - 0.30) / abs (0.60 - 0.10))
  /\ debug_info (snd (detect_pose exact_pow2 CONFIG broken_frame "en" after))
     = debug_info after.
Proof.
  cbv zeta. split.
  - pose proof (detect_pose_failure_keeps_metrics exact_pow2 CONFIG
                  failing_frame "en"
                  (snd (detect_pose exact_pow2 CONFIG
                          (frame_of None None (some_faces [open_face]))
                          "id" stale))
                  (or_intror
                     (conj eq_refl
                        (or_intror
                           (or_introl
                              (ex_intro _ RuntimeError eq_refl))))))
      as [H1 H2].
    split; [rewrite H1; reflexivity|rewrite H2; reflexivity].
  - exact (proj2
             (detect_pose_failure_keeps_metrics
                exact_pow2 CONFIG broken_frame "en"
                (snd (detect_pose exact_pow2 CONFIG
                        (frame_of None None (some_faces [open_face]))
                        "id" stale))
                (or_introl eq_refl))).
Defined.

(** C10 as stated fails: a NaN lower lip makes [mouth_ratio] NaN, which is
    not [>= 0]. *)
Lemma mouth_ratio_nan_counterexample :
  (0 <=? mouth_ratio
           (debug_info
              (snd (classify exact_pow2 CONFIG None None
                             (some_faces [nan_lip_face])
                             stale)))) = false.
Proof. vm_compute. reflexivity. Qed.

(** On the face with the NaN lower lip the ratio is NaN, still not negative,
    and the lip difference is the NaN operand. *)
Lemma mouth_ratio_not_negative_witness :
  (mouth_ratio
     (debug_info
        (snd (classify exact_pow2 CONFIG None None (some_faces [nan_lip_face])
                stale)))
   <? 0) = false
  /\ exists opening face_height,
       first_face_measures (some_faces [nan_lip_face]) opening face_height
       /\ (is_nan opening = true
           \/ (is_infinity opening = true
               /\ is_infinity face_height = true)).
Proof.
  destruct (mouth_ratio_not_negative exact_pow2 CONFIG None None
              (some_faces [nan_lip_face]) stale) as (H1 & _ & H3).
  split; [exact H1|exact (H3 eq_refl)].
Defined.

(** A face without landmarks beside a complete body and hand: a label. *)
Lemma classify_label_or_index_error_witness :
  exists name,
    fst (classify exact_pow2 CONFIG (some_pose nose0) (some_hands [low_hand])
                  (some_faces [bare_hand]) stale) = Return name
    /\ In name pose_names.
Proof.
  refine (proj2 (classify_label_or_index_error
                   exact_pow2 CONFIG (some_pose nose0)
                   (some_hands [low_hand]) (some_faces [bare_hand]) stale)
                _ _).
  - intros r body [= <-] [= <-]. discriminate.
  - intros r [= <-]. constructor; [discriminate|constructor].
Defined.

(** The raised hand before the open mouth: "raising_hand" with
    [mouth_ratio] 0.0. *)
Lemma label_backed_by_metrics_witness :
  (hand_raise_threshold (pose CONFIG)
   <? hand_height
        (debug_info
           (snd (classify exact_pow2 CONFIG (some_pose nose0)
                          (some_hands [high_hand])
                          (some_faces [open_face]) stale)))) = true
  /\ hands_detected
       (debug_info
          (snd (classify exact_pow2 CONFIG (some_pose nose0)
                         (some_hands [high_hand])
                         (some_faces [open_face]) stale))) <> 0%nat
  /\ mouth_ratio
       (debug_info
          (snd (classify exact_pow2 CONFIG (some_pose nose0)
                         (some_hands [high_hand])
                         (some_faces [open_face]) stale))) = 0.
Proof.
  exact (proj1 (label_backed_by_metrics exact_pow2 CONFIG (some_pose nose0)
                  (some_hands [high_hand]) (some_faces [open_face]) stale)
               eq_refl).
Defined.

Lemma no_face_labels_witness :
  fst (classify exact_pow2 CONFIG (some_pose nose0) (some_hands [low_hand])
                (some_faces []) stale) <> Return "thinking"
  /\ fst (classify exact_pow2 CONFIG (some_pose nose0) (some_hands [low_hand])
                   (some_faces []) stale) <> Return "shocking"
  /\ mouth_ratio
       (debug_info
          (snd (classify exact_pow2 CONFIG (some_pose nose0)
                         (some_hands [low_hand])
                         (some_faces []) stale))) = 0
  /\ face_detected
       (debug_info
          (snd (classify exact_pow2 CONFIG (some_pose nose0)
                         (some_hands [low_hand])
                         (some_faces []) stale))) = false.
Proof.
  exact (no_face_labels exact_pow2 CONFIG (some_pose nose0)
                        (some_hands [low_hand])
                        (some_faces []) stale eq_refl).
Defined.

(** An open-mouthed face alone: "shocking"; with a hand at the mouth and
    still no body: "thinking". *)
Lemma no_hands_labels_witness :
  ((fst (classify exact_pow2 CONFIG (some_pose nose0) None
                  (some_faces [open_face]) stale) = Return "shocking"
    \/ fst (classify exact_pow2 CONFIG (some_pose nose0) None
                     (some_faces [open_face]) stale) = Return "default")
   /\ hands_detected
        (debug_info
           (snd (classify exact_pow2 CONFIG (some_pose nose0) None
                          (some_faces [open_face]) stale))) = 0%nat)
  /\ fst (classify exact_pow2 CONFIG None (some_hands [low_hand])
                   (some_faces [open_face]) stale) = Return "thinking".
Proof.
  split; [|reflexivity].
  exact (proj2 (no_hands_labels exact_pow2 CONFIG (some_pose nose0) None
                  (some_faces [open_face]) stale) I).
Defined.

(** A face without landmarks in front of the hand at the mouth. *)
Lemma partial_face_does_not_fire_witness :
  fst (classify exact_pow2 CONFIG None (some_hands [low_hand])
                (some_faces [bare_hand])
                stale) <> Return "thinking"
  /\ fst (classify exact_pow2 CONFIG None (some_hands [low_hand])
                   (some_faces [bare_hand]) stale) <> Return "shocking"
  /\ mouth_ratio
       (debug_info
          (snd (classify exact_pow2 CONFIG None (some_hands [low_hand])
                         (some_faces [bare_hand]) stale))) = 0
  /\ face_detected
       (debug_info
          (snd (classify exact_pow2 CONFIG None (some_hands [low_hand])
                         (some_faces [bare_hand]) stale))) = true.
Proof.
  refine (proj2 (proj2 (partial_face_does_not_fire exact_pow2 CONFIG None
                          (some_hands [low_hand]) bare_hand [] stale)) _).
  simpl. lia.
Defined.

(** The hand at the mouth fires alone, and does not when a hand away from
    the mouth and then a hand without landmarks come first. *)
Lemma hand_without_fingertip_hides_later_hands_witness :
  Forall (apart exact_pow2 (hand_to_face_threshold (pose CONFIG))
                [lm 0.5 0.30; lm 0.5 0.40; lm 0.5 0.60; lm 0.52 0.51])
         [side_hand]
  /\ _is_thinking exact_pow2 CONFIG None
                  (some_hands [side_hand; bare_hand; low_hand])
                  (some_faces [open_face]) stale = (Return false, stale)
  /\ _is_thinking exact_pow2 CONFIG None (some_hands [low_hand])
                  (some_faces [open_face]) stale = (Return true, stale).
Proof.
  assert (Forall (apart exact_pow2 (hand_to_face_threshold (pose CONFIG))
                        [lm 0.5 0.30; lm 0.5 0.40; lm 0.5 0.60;
                         lm 0.52 0.51])
                 [side_hand]) as Hpre.
  { constructor; [|constructor].
    exists [lm 0.1 0.3; lm 0.1 0.3; lm 0.1 0.3].
    split; [reflexivity|].
    intros tip mouth_point [<-|[<-|[<-|[]]]] [<-|[<-|[<-|[<-|[]]]]];
      reflexivity. }
  split; [exact Hpre|]. split; [|reflexivity].
  exact (hand_without_fingertip_hides_later_hands exact_pow2 CONFIG None
           open_face []
           [lm 0.5 0.30; lm 0.5 0.40; lm 0.5 0.60; lm 0.52 0.51]
           [side_hand] bare_hand [low_hand] stale eq_refl Hpre eq_refl).
Defined.

(** The hand at the mouth pushed half a unit away in depth only. *)
Lemma depth_is_not_read_witness :
  classify exact_pow2 CONFIG None
           (some_hands [{| landmark := map (with_z 0.5)
                                           (landmark low_hand) |}])
           (some_faces [open_face]) stale
  = classify exact_pow2 CONFIG None (some_hands [low_hand])
             (some_faces [open_face])
             stale.
Proof.
  exact (depth_is_not_read exact_pow2 CONFIG None None
           (some_hands [{| landmark := map (with_z 0.5)
                                           (landmark low_hand) |}])
           (some_hands [low_hand])
           (some_faces [open_face]) (some_faces [open_face]) stale
           eq_refl eq_refl eq_refl).
Defined.

(** Half the default [hand_raise_threshold], the other thresholds moved the
    other way: the raised hand stays "raising_hand". *)
Lemma rules_monotone_in_thresholds_witness :
  fst (classify exact_pow2 {| pose := {| hand_raise_threshold := 0.025;
                              mouth_open_threshold := 0.5;
                              hand_to_face_threshold := 0.01 |} |}
                (some_pose nose0) (some_hands [high_hand])
                (some_faces [open_face]) stale)
  = Return "raising_hand".
Proof.
  exact (proj2 (proj1 (rules_monotone_in_thresholds exact_pow2
                         {| pose := {| hand_raise_threshold := 0.025;
                                       mouth_open_threshold := 0.5;
                                       hand_to_face_threshold := 0.01 |} |}
                         CONFIG (some_pose nose0) (some_hands [high_hand])
                         (some_faces [open_face]) stale stale)
                      eq_refl) eq_refl).
Defined.

(** The complete body, hand and face of the examples: with a raised hand
    among the hands "raising_hand", with the lowered hand at the mouth alone
    "thinking". *)
Lemma classify_complete_decision_witness :
  (exists nose mouth_points opening face_height,
      nth_error (landmark (body_of nose0)) NOSE = Some nose
      /\ mouth_points_of open_face = Some mouth_points
      /\ first_face_measures (some_faces [open_face]) opening face_height
      /\ ((exists hand,
              In hand [low_hand; high_hand]
              /\ raised (hand_raise_threshold (pose CONFIG)) nose hand) ->
          fst (classify exact_pow2 CONFIG (some_pose nose0)
                        (some_hands [low_hand; high_hand])
                        (some_faces [open_face]) stale)
          = Return "raising_hand"))
  /\ fst (classify exact_pow2 CONFIG (some_pose nose0)
                   (some_hands [low_hand]) (some_faces [open_face]) stale)
     = Return "thinking".
Proof.
  split.
  - destruct (classify_complete_decision exact_pow2 CONFIG (body_of nose0)
                [low_hand; high_hand] open_face [] stale)
      as (nose & mps & opening & fh & H1 & H2 & H3 & H4 & _).
    + simpl. lia.
    + repeat constructor; simpl; lia.
    + simpl. lia.
    + exists nose, mps, opening, fh. auto.
  - destruct (classify_complete_decision exact_pow2 CONFIG (body_of nose0)
                [low_hand] open_face [] stale)
      as (nose & mps & opening & fh & H1 & H2 & _ & _ & Hthinking & _).
    + simpl. lia.
    + repeat constructor; simpl; lia.
    + simpl. lia.
    + injection H1 as <-. injection H2 as <-. apply Hthinking.
      * intros (hand & [<-|[]] & d & [= <-] & Hd). discriminate Hd.
      * exists low_hand. split; [left; reflexivity|].
        exists [lm 0.50 0.50; lm 0.9 0.9; lm 0.9 0.9], (lm 0.50 0.50),
          (lm 0.52 0.51).
        split; [reflexivity|]. split; [left; reflexivity|].
        split; [do 3 right; left; reflexivity|reflexivity].
Defined.

(** The two hands below the threshold in either order: the same label, and
    two different values of [hand_height]. *)
Lemma label_ignores_hand_order_witness :
  fst (classify exact_pow2 CONFIG (some_pose nose0)
                (some_hands [side_hand; low_hand])
                (some_faces [open_face]) stale)
  = fst (classify exact_pow2 CONFIG (some_pose nose0)
                  (some_hands [low_hand; side_hand])
                  (some_faces [open_face]) stale)
  /\ hand_height
       (debug_info
          (snd (classify exact_pow2 CONFIG (some_pose nose0)
                         (some_hands [side_hand; low_hand])
                         (some_faces [open_face]) stale)))
     <> hand_height
          (debug_info
             (snd (classify exact_pow2 CONFIG (some_pose nose0)
                            (some_hands [low_hand; side_hand])
                            (some_faces [open_face]) stale))).
Proof.
  split.
  - refine (label_ignores_hand_order exact_pow2 CONFIG (some_pose nose0)
              [side_hand; low_hand] [low_hand; side_hand]
              (some_faces [open_face]) stale stale _ _ (perm_swap _ _ _)).
    + intros r body [= <-] [= <-]. simpl. lia.
    + repeat constructor; simpl; lia.
  - vm_compute. intros H.
    apply (f_equal (fun v => v <? 0)) in H. vm_compute in H. discriminate.
Defined.

(** A raised hand, Turkish, landmarks off, then a hand without
    landmarks. *)
Lemma window_stays_consistent_witness :
  let signals := [Timeout raising_tick; CurrentIndexChanged 2;
                  StateChanged 0; Timeout bare_tick] in
  __init__ "/" only_raising_hand true (Return tt) "" "" "" "" ""
  = Return example_window
  /\ Forall expected signals
  /\ consistent (snd (deliver exact_pow2 CONFIG signals example_window))
  /\ (fst (deliver exact_pow2 CONFIG signals example_window) = Return tt
      \/ fst (deliver exact_pow2 CONFIG signals example_window)
         = Raise IndexError).
Proof.
  cbv zeta.
  assert (Forall expected
                 [Timeout raising_tick; CurrentIndexChanged 2;
                  StateChanged 0; Timeout bare_tick]) as Hs.
  { apply Forall_cons; [intros frame [= <-]; left; reflexivity|].
    apply Forall_cons; [apply le_n|].
    apply Forall_cons; [exact I|].
    apply Forall_cons; [intros frame [= <-]; left; reflexivity|].
    apply Forall_nil. }
  split; [exact example_window_init|]. split; [exact Hs|].
  exact (window_stays_consistent exact_pow2 CONFIG "/" only_raising_hand
           "" "" "" "" "" example_window _ example_window_init Hs).
Defined.

Lemma frame_shows_detected_pose_witness :
  let frame := frame_of (some_pose nose0) (some_hands [high_hand]) None in
  let d := snd (detect_pose exact_pow2 CONFIG frame "id"
                            (App.pose_detector example_window)) in
  consistent example_window
  /\ detect_pose exact_pow2 CONFIG frame (App.current_language example_window)
                 (App.pose_detector example_window)
     = (Return "raising_hand", d)
  /\ App.current_pose (snd (_update_frame exact_pow2 CONFIG raising_tick
                                          example_window))
     = "raising_hand".
Proof.
  cbv zeta.
  assert (detect_pose exact_pow2
            CONFIG (frame_of (some_pose nose0) (some_hands [high_hand]) None)
            (App.current_language example_window)
            (App.pose_detector example_window)
          = (Return "raising_hand",
             snd (detect_pose exact_pow2
                    CONFIG
                    (frame_of (some_pose nose0) (some_hands [high_hand])
                              None)
                    "id" (App.pose_detector example_window)))) as Hd
      by (vm_compute; reflexivity).
  split; [exact example_window_consistent|]. split; [exact Hd|].
  exact (proj1 (proj2 (proj2
           (frame_shows_detected_pose exact_pow2
              CONFIG raising_tick _ _ _ example_window
              example_window_consistent eq_refl eq_refl eq_refl Hd)))).
Defined.

Lemma labels_have_names_and_images_witness :
  let frame := frame_of (some_pose nose0) (some_hands [high_hand]) None in
  fst (detect_pose exact_pow2 CONFIG frame "id" stale) = Return "raising_hand"
  /\ In "tr" (dict_keys LANGUAGES)
  /\ translated "tr" "raising_hand" "👋 İşaret Parmağı Yukarıda"
  /\ dict_get (_load_monkey_images "/" only_raising_hand) "raising_hand"
     = Some (Some "assets/raising_hand_pose.jpg").
Proof.
  cbv zeta.
  assert (fst (detect_pose exact_pow2
                 CONFIG
                 (frame_of (some_pose nose0) (some_hands [high_hand]) None)
                 "id" stale) = Return "raising_hand") as H1
      by (vm_compute; reflexivity).
  assert (In "tr" (dict_keys LANGUAGES)) as H2
      by (right; right; left; reflexivity).
  split; [exact H1|]. split; [exact H2|].
  split; [eexists; split; reflexivity|].
  exact (proj2 (labels_have_names_and_images exact_pow2
                  CONFIG _ "id" stale "raising_hand" "/" only_raising_hand
                  "tr" H1 H2)).
Defined.

(** The image of the default pose is missing, that of the raised hand is
    not. *)
Lemma warning_style_sticks_witness :
  let w := {| Qt.content := Qt.Text (not_found_text "default");
              Qt.styleSheet := warning_style CONFIG_ui |} in
  App.monkey_label example_window = Some w
  /\ Qt.styleSheet w = warning_style CONFIG_ui
  /\ (exists w',
         App.monkey_label
           (snd (deliver exact_pow2 CONFIG [Timeout raising_tick]
                   example_window))
         = Some w'
         /\ Qt.styleSheet w' = warning_style CONFIG_ui)
  /\ App.monkey_label
       (snd (deliver exact_pow2 CONFIG [Timeout raising_tick] example_window))
     = Some {| Qt.content :=
                 Qt.Pixmap (Qt.FromFile "assets/raising_hand_pose.jpg");
               Qt.styleSheet := warning_style CONFIG_ui |}.
Proof.
  cbv zeta. split; [reflexivity|]. split; [reflexivity|].
  split; [|vm_compute; reflexivity].
  exact (warning_style_sticks exact_pow2
           CONFIG [Timeout raising_tick] example_window _ eq_refl eq_refl).
Defined.

Lemma detector_language_follows_window_witness :
  let app := snd (_on_language_changed 1 example_window) in
  isOpened unshown_tick = true
  /\ read unshown_tick
     = Some (frame_of (some_pose nose0) (some_hands [high_hand]) None)
  /\ current_language (App.pose_detector app) = "id"
  /\ current_language
       (App.pose_detector
          (snd (_update_frame exact_pow2 CONFIG unshown_tick app)))
     = "en".
Proof.
  cbv zeta. split; [reflexivity|]. split; [reflexivity|].
  split; [reflexivity|].
  exact (proj1 (detector_language_follows_window exact_pow2
                  CONFIG unshown_tick _
                  (snd (_on_language_changed 1 example_window))
                  eq_refl eq_refl)).
Defined.
